(** * debugInfo: DWARF line-table verification pipeline

    A shallow embedding of the Python sources

      - [utils.py]             (class [LineNumberExtractor]; the functions
                                [find_c_files_int], [run_cmd],
                                [get_compiler_version],
                                [check_installed_compilers])
      - [get_line_nums.py]     (classes [DwarfDumpParser], [LineNumberVerifier],
                                [LineNumberExtractor])
      - [binary_generator.py]  (classes [Binary], [BinaryAnalyzer],
                                [SingleSourceAnalysis];
                                [analyze_single_source])

    Python [int] is [Z], [str] is [string], a [set] of ints is a [gset Z],
    a [dict] that is only looked up is a [gmap], and a [dict] that is
    iterated is an insertion-ordered association list ([odict]).  Code that
    talks to the debugger, the compiler or the file system is written in a
    monad of state, exceptions and emitted debugger calls; the debugger,
    the compiler, the dump tool and [get_debug_values] are parameters that
    answer as the outside world would.  The text of the line table is
    read as [parse_debug_line] reads it, its regular expressions run by a
    backtracking matcher; the number of digits that [int] accepts in a
    text is a parameter.  Logging and printing are left out. *)

From Stdlib Require Import ZArith String Ascii List Sorted DecimalString.
From stdpp Require Import base decidable option list gmap sets strings sorting.

Local Open Scope Z_scope.
Local Open Scope string_scope.
Local Open Scope list_scope.

(** ** Python builtins used by the sources *)

Module Py.

(** [needle in haystack] on strings. *)
Fixpoint contains (needle haystack : string) : bool :=
  String.prefix needle haystack ||
  match haystack with
  | EmptyString => false
  | String _ rest => contains needle rest
  end.

(** [posixpath.basename]: [i = p.rfind('/') + 1; return p[i:]].  The
    accumulator holds the characters read since the last ['/']. *)
Fixpoint basename_from (cur p : string) : string :=
  match p with
  | EmptyString => cur
  | String c rest =>
      if Ascii.eqb c "/" then basename_from EmptyString rest
      else basename_from (cur ++ String c EmptyString) rest
  end.

Definition basename (p : string) : string := basename_from EmptyString p.

(** Truth value of a [str]: only the empty string is falsy. *)
Definition truthy (s : string) : bool :=
  match s with EmptyString => false | _ => true end.

(** [sorted(xs)] on ints. *)
Definition sorted (xs : list Z) : list Z := merge_sort Z.le xs.

(** [sorted(s)] for a set [s] of ints. *)
Definition sorted_set (s : gset Z) : list Z := sorted (elements s).

End Py.

(** ** Insertion-ordered dictionaries with [str] keys *)

Module OD.

Definition odict (V : Type) : Type := list (string * V).

(** [d.get(k)] *)
Fixpoint get {V} (k : string) (d : odict V) : option V :=
  match d with
  | [] => None
  | (k', v) :: d' => if String.eqb k k' then Some v else get k d'
  end.

(** [d[k] = v]: an existing key keeps its position, a new key goes last. *)
Fixpoint set {V} (k : string) (v : V) (d : odict V) : odict V :=
  match d with
  | [] => [(k, v)]
  | (k', v') :: d' =>
      if String.eqb k k' then (k, v) :: d' else (k', v') :: set k v d'
  end.

Definition keys {V} (d : odict V) : list string := map fst d.

End OD.

(** ** The DWARF line table ([parse_debug_line]'s output) *)

(** One value of [file_table]: a dict that may hold ['name'] and
    ['dir_index']. *)
Record file_entry : Type := FileEntry {
  fe_name : option string;
  fe_dir_index : option Z
}.

(** One element of [line_info]. *)
Record line_entry : Type := LineEntry {
  le_address : Z;
  le_line : Z;
  le_column : Z;
  le_file : Z;
  le_isa : Z;
  le_discriminator : Z;
  le_flags : string
}.

Module DwarfDumpParser.

(** [os.path.basename(file_table.get(entry['file'], {}).get('name', ''))] *)
Definition entry_file_name (file_table : gmap Z file_entry)
    (entry : line_entry) : string :=
  Py.basename
    (default EmptyString
       (fe_name (default (FileEntry None None)
                         (file_table !! le_file entry)))).

(** [if file_name and 'is_stmt' in entry['flags']] *)
Definition contributes (file_table : gmap Z file_entry)
    (entry : line_entry) : bool :=
  Py.truthy (entry_file_name file_table entry)
  && Py.contains "is_stmt" (le_flags entry).

(** Body of the [for entry in line_info] loop. *)
Definition add_entry (file_table : gmap Z file_entry)
    (acc : OD.odict (gset Z)) (entry : line_entry) : OD.odict (gset Z) :=
  let file_name := entry_file_name file_table entry in
  if contributes file_table entry then
    let acc' :=
      match OD.get file_name acc with
      | None => OD.set file_name ∅ acc
      | Some _ => acc
      end in
    OD.set file_name
      (default ∅ (OD.get file_name acc') ∪ {[ le_line entry ]}) acc'
  else acc.

Definition collect (file_table : gmap Z file_entry)
    (line_info : list line_entry) (acc : OD.odict (gset Z))
    : OD.odict (gset Z) :=
  fold_left (add_entry file_table) line_info acc.

(** [get_line_numbers_by_file]; the same text in [utils.py] and in
    [get_line_nums.py]. *)
Definition get_line_numbers_by_file (file_table : gmap Z file_entry)
    (line_info : list line_entry) : OD.odict (list Z) :=
  map (λ '(file, lines), (file, Py.sorted_set lines))
      (collect file_table line_info []).

End DwarfDumpParser.

(** ** Exceptions, results and the monad of effects *)

Inductive exn : Type :=
| RuntimeError (msg : string)
| UnboundLocalError (name : string)
| CalledProcessError
| OSError (msg : string)
| LLDBError (msg : string).   (* raised from inside a debugger call *)

Inductive result (A : Type) : Type :=
| Ok (a : A)
| Raise (e : exn).
Arguments Ok {A} a.
Arguments Raise {A} e.

(** The debugger calls that change or release session resources. *)
Inductive call : Type :=
| SBDebugger_Create
| SetAsync
| CreateTargetWithFileAndArch (file_path : string)
| BreakpointCreateByLocation (source_file : string) (line_number : Z)
| LaunchSimple
| Continue
| Kill
| Process_Destroy
| DeleteAllBreakpoints
| DeleteTarget
| SBDebugger_Destroy.

Global Instance call_eq_dec : EqDecision call.
Proof. solve_decision. Defined.

(** A computation over a mutable state [St] (local variables, an object,
    the disk): it returns or raises, leaves a state behind in both cases
    (as the mutations of a Python object survive an exception), and emits
    the debugger calls it made, in order. *)
Definition M (St A : Type) : Type := St → result A * St * list call.

Definition ret {St A} (a : A) : M St A := λ s, (Ok a, s, []).

Definition raise {St A} (e : exn) : M St A := λ s, (Raise e, s, []).

Definition bind {St A B} (m : M St A) (k : A → M St B) : M St B :=
  λ s, match m s with
       | (Ok a, s1, c1) => let '(r, s2, c2) := k a s1 in (r, s2, c1 ++ c2)
       | (Raise e, s1, c1) => (Raise e, s1, c1)
       end.

(** A value that the outside world returns, or the exception it raises. *)
Definition lift {St A} (r : result A) : M St A := λ s, (r, s, []).

(** One debugger call. *)
Definition api {St} (c : call) : M St unit := λ s, (Ok tt, s, [c]).

(** [try: body  except Exception as e: handler(e)] *)
Definition try_except {St A} (body : M St A) (handler : exn → M St A)
    : M St A :=
  λ s, match body s with
       | (Ok a, s1, c1) => (Ok a, s1, c1)
       | (Raise e, s1, c1) =>
           let '(r, s2, c2) := handler e s1 in (r, s2, c1 ++ c2)
       end.

(** [try: body  finally: fin]: [fin] always runs; an exception raised by
    [fin] replaces the pending return value or exception. *)
Definition try_finally {St A} (body : M St A) (fin : M St unit) : M St A :=
  λ s, let '(r, s1, c1) := body s in
       match fin s1 with
       | (Ok _, s2, c2) => (r, s2, c1 ++ c2)
       | (Raise e, s2, c2) => (Raise e, s2, c1 ++ c2)
       end.

Global Instance M_ret {St} : MRet (M St) := λ A, ret.
Global Instance M_bind {St} : MBind (M St) := λ A B k m, bind m k.

(** The value, the state and the calls of a run. *)
Definition value_of {St A} (r : result A * St * list call) : result A := r.1.1.
Definition state_of {St A} (r : result A * St * list call) : St := r.1.2.
Definition calls_of {St A} (r : result A * St * list call) : list call := r.2.

(** ** The debugger as the verifier sees it *)

(** One visit of the [while process.GetState() == eStateStopped] loop. *)
Inductive stop : Type :=
| StopBreakpoint (line_number_hit : Z) (hit_count : nat → Z)
    (* stop reason is a breakpoint; the top frame's line; GetHitCount of
       each breakpoint, by the index of its request *)
| StopOther
    (* any other stop reason *)
| StopFault (e : exn).
    (* a debugger call of this visit raises *)

(** What the debugger does in one session (one binary, one source file).
    A target or a process is represented by what its [IsValid()] answers.
    The release calls ([Kill], [Destroy], [DeleteAllBreakpoints],
    [DeleteTarget], [SBDebugger.Destroy]) are taken not to raise. *)
Record session : Type := Session {
  ss_target : result bool;
    (* CreateTargetWithFileAndArch: raises, or a target *)
  ss_breakpoint : nat → Z → result bool;
    (* the n-th BreakpointCreateByLocation, at a line: raises, or a
       breakpoint and its IsValid() *)
  ss_launch : result bool;
    (* LaunchSimple: raises, or a process *)
  ss_stops : list stop
    (* the stops of the process until it leaves eStateStopped *)
}.

(** The local variables of one verification that the release code
    reads; [None] is a variable holding [None] or not assigned yet. *)
Record frame : Type := Frame {
  v_target : option bool;
  v_process : option bool
}.

Definition assign_target (t : option bool) : M frame unit :=
  λ f, (Ok tt, Frame t (v_process f), []).

Definition assign_process (p : option bool) : M frame unit :=
  λ f, (Ok tt, Frame (v_target f) p, []).

Definition locals : M frame frame := λ f, (Ok f, f, []).

(** Calling a function: its locals start unassigned and are dropped at
    the end; the caller keeps no state of its own here. *)
Definition in_frame {A} (m : M frame A) : M unit A :=
  λ _, let '(r, _, c) := m (Frame None None) in (r, tt, c).

(** A breakpoint object: the index of its request. *)
Definition breakpoint : Type := nat.

(** [for line_number in line_numbers: bp = target.BreakpointCreateByLocation
    (...); if bp.IsValid(): breakpoints.append((bp, line_number))] *)
Fixpoint create_breakpoints (w : session) (source_file : string)
    (line_numbers : list Z) (n : nat) (breakpoints : list (breakpoint * Z))
    : M frame (list (breakpoint * Z)) :=
  match line_numbers with
  | [] => ret breakpoints
  | line_number :: rest =>
      api (BreakpointCreateByLocation source_file line_number);;
      valid ← lift (ss_breakpoint w n line_number);
      create_breakpoints w source_file rest (S n)
        (if valid : bool then breakpoints ++ [(n, line_number)]
         else breakpoints)
  end.

(** [for bp, line_number in breakpoints: if bp.GetHitCount() > 0 and
    line_number == line_number_hit: verified_line_nums.add(line_number);
    break] *)
Fixpoint record_hit (breakpoints : list (breakpoint * Z))
    (hit_count : nat → Z) (line_number_hit : Z) (verified : gset Z)
    : gset Z :=
  match breakpoints with
  | [] => verified
  | (bp, line_number) :: rest =>
      if (0 <? hit_count bp)%Z && (line_number =? line_number_hit)%Z
      then verified ∪ {[ line_number ]}
      else record_hit rest hit_count line_number_hit verified
  end.

(** [while process.GetState() == eStateStopped: ...; process.Continue()] *)
Fixpoint stop_loop (stops : list stop) (breakpoints : list (breakpoint * Z))
    (verified : gset Z) : M frame (gset Z) :=
  match stops with
  | [] => ret verified
  | s :: rest =>
      verified' ←
        match s with
        | StopBreakpoint line_number_hit hit_count =>
            ret (record_hit breakpoints hit_count line_number_hit verified)
        | StopOther => ret verified
        | StopFault e => raise e
        end;
      api Continue;;
      stop_loop rest breakpoints verified'
  end.

(** *** [utils.py]: the session is a context manager *)

Module Utils.

(** [LineNumberExtractor._lldb_session], used as
    [with self._lldb_session(file_path) as target: body].  The frame is
    that of the generator: its [process] is bound to [None] at the start
    and no statement of the generator assigns it again. *)
Definition _lldb_session {A} (w : session) (file_path : string)
    (body : bool → M frame A) : M frame A :=
  api SBDebugger_Create;;
  api SetAsync;;
  assign_target None;;
  assign_process None;;
  try_finally
    (api (CreateTargetWithFileAndArch file_path);;
     target ← lift (ss_target w);
     assign_target (Some target);;
     if negb target then raise (RuntimeError "Invalid target")
     else body target)
    (try_except
       (f ← locals;
        (if default false (v_process f)
         then api Kill;; api Process_Destroy else ret tt);;
        (if default false (v_target f)
         then api DeleteAllBreakpoints;; api DeleteTarget else ret tt))
       (λ cleanup_error, ret tt);;
     api SBDebugger_Destroy).

(** [LineNumberExtractor.verify_line_nums].  [process] is a local of
    this function, not of the generator above. *)
Definition verify_line_nums (w : session) (source_file file_path : string)
    (line_numbers : list Z) : M unit (option (list Z)) :=
  in_frame
    (_lldb_session w file_path (λ target,
       breakpoints ← create_breakpoints w source_file line_numbers 0 [];
       api LaunchSimple;;
       process ← lift (ss_launch w);
       if negb process then ret None
       else
         verified_line_nums ← stop_loop (ss_stops w) breakpoints ∅;
         ret (Some (Py.sorted (elements verified_line_nums))))).

End Utils.

(** *** [get_line_nums.py]: try / except / finally *)

Module Verifier.

(** [LineNumberVerifier._cleanup(debugger, target, process)];
    ['process' in locals()] and ['target' in locals()] hold of the
    parameters. *)
Definition _cleanup (target process : bool) : M frame unit :=
  try_except
    ((if process then api Kill;; api Process_Destroy else ret tt);;
     (if target then api DeleteAllBreakpoints;; api DeleteTarget
      else ret tt))
    (λ cleanup_error, ret tt);;
  api SBDebugger_Destroy.

(** Reading a local variable that no statement has assigned yet. *)
Definition read_local (name : string) (v : option bool) : M frame bool :=
  match v with
  | Some x => ret x
  | None => raise (UnboundLocalError name)
  end.

(** [LineNumberVerifier.verify_line_nums].  [target] and [process] are
    assigned inside the [try]; the [finally] clause reads both. *)
Definition verify_line_nums (w : session) (source_file file_path : string)
    (line_numbers : list Z) : M unit (option (list Z)) :=
  in_frame
    (api SBDebugger_Create;;
     api SetAsync;;
     try_finally
       (try_except
          (api (CreateTargetWithFileAndArch file_path);;
           target ← lift (ss_target w);
           assign_target (Some target);;
           if negb target then ret None
           else
             breakpoints ←
               create_breakpoints w source_file line_numbers 0 [];
             api LaunchSimple;;
             process ← lift (ss_launch w);
             assign_process (Some process);;
             if negb process then ret None
             else
               verified_line_nums ←
                 stop_loop (ss_stops w) breakpoints ∅;
               ret (Some (Py.sorted (elements verified_line_nums))))
          (λ e, ret None))
       (f ← locals;
        target ← read_local "target" (v_target f);
        process ← read_local "process" (v_process f);
        _cleanup target process)).

End Verifier.

(** *** [get_line_nums]: all compile units of one binary *)

(** What the outside world answers about one binary. *)
Record binary_env : Type := BinaryEnv {
  env_source_files : result (list string);
    (* get_source_files(binary_file) *)
  env_debug_line : result (gmap Z file_entry * list line_entry);
    (* parse_debug_line(run_dwarfdump(binary_file)) *)
  env_lldb : string → session
    (* the debugger, in the session opened for a source file *)
}.

(** Truth value of an [Optional[List[int]]]: [None] and [[]] are falsy. *)
Definition truthy_lines (verified_lines : option (list Z)) : bool :=
  match verified_lines with
  | Some (_ :: _) => true
  | _ => false
  end.

Section GetLineNums.

(** The [verify_line_nums] of the module at hand. *)
Variable verify_line_nums :
  session → string → string → list Z → M unit (option (list Z)).

Variable env : binary_env.
Variable binary_file : string.

(** [for source_file, line_numbers in line_numbers_by_file.items(): ...] *)
Fixpoint verify_files (source_files : list string)
    (items : OD.odict (list Z)) (verified_line_numbers : OD.odict (list Z))
    : M unit (OD.odict (list Z)) :=
  match items with
  | [] => ret verified_line_numbers
  | (source_file, line_numbers) :: rest =>
      if bool_decide (source_file ∈ source_files) then
        verified_lines ←
          verify_line_nums (env_lldb env source_file)
            source_file binary_file line_numbers;
        verify_files source_files rest
          (if truthy_lines verified_lines
           then OD.set source_file (default [] verified_lines)
                  verified_line_numbers
           else verified_line_numbers)
      else verify_files source_files rest verified_line_numbers
  end.

(** [LineNumberExtractor.get_line_nums]; the same text in both modules,
    up to the verifier called. *)
Definition get_line_nums : M unit (OD.odict (list Z)) :=
  try_except
    (source_files ← lift (env_source_files env);
     parsed ← lift (env_debug_line env);
     let line_numbers_by_file :=
       DwarfDumpParser.get_line_numbers_by_file parsed.1 parsed.2 in
     verify_files source_files line_numbers_by_file [])
    (λ e, ret []).

End GetLineNums.

(** ** [pathlib.Path] and the disk *)

Module Path.

(** A path is the list of its parts, outermost directory first. *)
Definition t : Type := list string.

(** Splitting on ['/']; empty parts and ['.'] parts are dropped, as
    [pathlib] does when it parses a relative path. *)
Definition keep_part (part : string) (parts : list string) : list string :=
  if String.eqb part "" || String.eqb part "." then parts
  else parts ++ [part].

Fixpoint parts_from (parts : list string) (cur s : string) : list string :=
  match s with
  | EmptyString => keep_part cur parts
  | String c rest =>
      if Ascii.eqb c "/" then parts_from (keep_part cur parts) "" rest
      else parts_from parts (cur ++ String c EmptyString) rest
  end.

Definition parts (s : string) : list string := parts_from [] "" s.

(** [p / s] for a relative [s]. *)
Definition div (p : t) (s : string) : t := p ++ parts s.

(** [p.name], [p.parent], [str(p)] *)
Definition name (p : t) : string := List.last p "".
Definition parent (p : t) : t := removelast p.
Definition str (p : t) : string := String.concat "/" p.

(** [name.rfind('.')] *)
Fixpoint rfind_dot (s : string) (i : nat) (found : option nat)
    : option nat :=
  match s with
  | EmptyString => found
  | String c rest =>
      rfind_dot rest (S i) (if Ascii.eqb c "." then Some i else found)
  end.

(** [p.stem]: [i = name.rfind('.')]; [name[:i]] when
    [0 < i < len(name) - 1], else [name]. *)
Definition stem (p : t) : string :=
  match rfind_dot (name p) 0%nat None with
  | Some i =>
      if (0 <? i)%nat && (i <? String.length (name p) - 1)%nat
      then String.substring 0 i (name p)
      else name p
  | None => name p
  end.

End Path.

(** What a path names on the disk. *)
Inductive node : Type :=
| File (content : string)
| Dir.

Module Disk.

Abbreviation t := (gmap Path.t node).

(** [p.exists()] *)
Definition exists_ (p : Path.t) (d : t) : bool := bool_decide (is_Some (d !! p)).

(** The entries directly under [p]. *)
Definition is_entry_of (p q : Path.t) : bool :=
  bool_decide (q ≠ [] ∧ Path.parent q = p).

Definition entries (p : Path.t) (d : t) : list Path.t :=
  filter (λ q, is_entry_of p q = true) (map fst (map_to_list d)).

(** [p.unlink()] *)
Definition unlink (p : Path.t) : M t unit :=
  λ d, match d !! p with
       | Some (File _) => (Ok tt, delete p d, [])
       | Some Dir => (Raise (OSError "IsADirectoryError"), d, [])
       | None => (Raise (OSError "FileNotFoundError"), d, [])
       end.

(** [list(p.iterdir())] *)
Definition iterdir (p : Path.t) : M t (list Path.t) :=
  λ d, match d !! p with
       | Some Dir => (Ok (entries p d), d, [])
       | Some (File _) => (Raise (OSError "NotADirectoryError"), d, [])
       | None => (Raise (OSError "FileNotFoundError"), d, [])
       end.

(** [p.rmdir()] *)
Definition rmdir (p : Path.t) : M t unit :=
  λ d, match d !! p with
       | Some Dir =>
           match entries p d with
           | [] => (Ok tt, delete p d, [])
           | _ :: _ => (Raise (OSError "Directory not empty"), d, [])
           end
       | Some (File _) => (Raise (OSError "NotADirectoryError"), d, [])
       | None => (Raise (OSError "FileNotFoundError"), d, [])
       end.

(** [open(p, 'rb').read()] *)
Definition read (p : Path.t) : M t string :=
  λ d, match d !! p with
       | Some (File content) => (Ok content, d, [])
       | Some Dir => (Raise (OSError "IsADirectoryError"), d, [])
       | None => (Raise (OSError "FileNotFoundError"), d, [])
       end.

End Disk.

(** ** [binary_generator.py] *)

Module CompilerConfig.

Record t : Type := Make {
  compiler_path : string;
  opt_levels : list string;
  dbg_levels : list string
}.

(** The dataclass defaults. *)
Definition default_ (compiler_path : string) : t :=
  Make compiler_path ["0"; "1"; "2"; "3"; "s"; "z"] ["1"; "2"; "3"].

End CompilerConfig.

(** What [subprocess.run(cmd, check=True, ...)] does for a compiler
    command line.  Of what a compiler writes, the disk of the model
    holds the output; what it may leave beside it (a bundle of debug
    information, for one) is not represented. *)
Inductive compile_outcome : Type :=
| Exit0 (output : string)    (* exit status 0; the bytes written to the -o path *)
| ExitNonZero                (* CalledProcessError *)
| SpawnError.                (* the compiler could not be run: OSError *)

(** What the outside world answers about the binaries: one [binary_env]
    per binary path. *)
Definition lldb_world : Type := string → binary_env.

Module Binary.

Record t : Type := Make {
  compiler_path : string;
  source_path : Path.t;
  optimization_level : string;
  debug_level : string;
  file_name : string;
  file_path : Path.t;
  hash_value : option string;
  line_numbers : OD.odict (list Z);
  hash_algorithm : string
}.

(** [Binary.__init__] *)
Definition init (compiler_config : CompilerConfig.t) (source_path : Path.t)
    (output_dir : Path.t) (optimization_level debug_level : string) : t :=
  let file_name :=
    (Path.stem source_path ++ "_O" ++ optimization_level
       ++ "_D" ++ debug_level ++ ".out")%string in
  {| compiler_path := CompilerConfig.compiler_path compiler_config;
     source_path := source_path;
     optimization_level := optimization_level;
     debug_level := debug_level;
     file_name := file_name;
     file_path := Path.div output_dir file_name;
     hash_value := None;
     line_numbers := [];
     hash_algorithm := "sha256" |}.

Definition set_hash_value (b : t) (h : option string) : t :=
  Make (compiler_path b) (source_path b) (optimization_level b)
    (debug_level b) (file_name b) (file_path b) h (line_numbers b)
    (hash_algorithm b).

Definition set_line_numbers (b : t) (l : OD.odict (list Z)) : t :=
  Make (compiler_path b) (source_path b) (optimization_level b)
    (debug_level b) (file_name b) (file_path b) (hash_value b) l
    (hash_algorithm b).

Section Methods.

(** The compiler, and [hashlib.new(algorithm, data).hexdigest()]. *)
Variable cc : list string → compile_outcome.
Variable hexdigest : string → string → string.

(** [subprocess.run(cmd, check=True, ...)] with [-o out]. *)
Definition run_compiler (cmd : list string) (out : Path.t)
    : M Disk.t unit :=
  λ d, match cc cmd with
       | Exit0 output => (Ok tt, <[out := File output]> d, [])
       | ExitNonZero => (Raise CalledProcessError, d, [])
       | SpawnError => (Raise (OSError "cannot run the compiler"), d, [])
       end.

(** [Binary.compute_hash] *)
Definition compute_hash (b : t) : M Disk.t t :=
  content ← Disk.read (file_path b);
  mret (set_hash_value b (Some (hexdigest (hash_algorithm b) content))).

(** [Binary.generate_binary]: only [CalledProcessError] is caught.
    The returned object is [self] after the call. *)
Definition generate_binary (b : t) : M Disk.t (bool * t) :=
  let cmd :=
    [ compiler_path b; Path.str (source_path b); "-I/usr/local/include";
      ("-O" ++ optimization_level b)%string;
      ("-g" ++ debug_level b)%string;
      "-o"; Path.str (file_path b) ] in
  try_except
    (run_compiler cmd (file_path b);;
     b' ← compute_hash b;
     mret (true, b'))
    (λ e, match e with
          | CalledProcessError => mret (false, b)
          | _ => raise e
          end).

(** [Binary.cleanup]; returns [self] after the call. *)
Definition cleanup (b : t) : M Disk.t t :=
  ((λ d, if Disk.exists_ (file_path b) d then Disk.unlink (file_path b) d
         else (Ok tt, d, [])) : M Disk.t unit);;
  mret (set_line_numbers b []).

End Methods.

(** [Binary.get_line_numbers], with [utils.LineNumberExtractor]; the
    construction of the extractor (loading the lldb module) is left out:
    when it raises, the handler stores the same empty mapping. *)
Definition get_line_numbers (world : lldb_world) (b : t)
    : M unit t :=
  try_except
    (line_numbers ←
       get_line_nums Utils.verify_line_nums
         (world (Path.str (file_path b))) (Path.str (file_path b));
     mret (set_line_numbers b line_numbers))
    (λ e, mret (set_line_numbers b [])).

End Binary.

(** A debug value, as [get_debug_values] yields it: the attributes and
    the answers of the two predicates that [_find_issues_type1_2] reads. *)
Record DebugValue : Type := MkDebugValue {
  name : string;
  value : string;
  error_message : option string;
  is_pointer : bool;
  is_known_error : bool
}.

(** One element of [binary_issues]. *)
Record Issue : Type := MkIssue {
  issue_binary : string;
  issue_source_file : string;
  issue_line : Z;
  issue_error_message : string
}.

Global Instance Issue_eq_dec : EqDecision Issue.
Proof. solve_decision. Defined.

Module BinaryAnalyzer.

Record t : Type := Make {
  compiler_config : CompilerConfig.t;
  source_path : Path.t;
  output_dir : Path.t;
  evidence_dir : Path.t;
  source_dir : Path.t;
  binaries : list Binary.t
}.

(** [BinaryAnalyzer.__init__] *)
Definition init (compiler_config : CompilerConfig.t) (evidence_dir : Path.t)
    (source_path output_dir : Path.t) : t :=
  {| compiler_config := compiler_config;
     source_path := source_path;
     output_dir := output_dir;
     evidence_dir := evidence_dir;
     source_dir := Path.parent source_path;
     binaries := [] |}.

Definition set_binaries (a : t) (bs : list Binary.t) : t :=
  Make (compiler_config a) (source_path a) (output_dir a) (evidence_dir a)
    (source_dir a) bs.

(** The methods run on [self] and the disk. *)
Abbreviation state := (t * Disk.t)%type.

Definition self : M state t := λ s, (Ok s.1, s, []).

Definition on_disk {A} (m : M Disk.t A) : M state A :=
  λ s, let '(r, d, c) := m s.2 in (r, (s.1, d), c).

Definition assign_binaries (bs : list Binary.t) : M state unit :=
  λ s, (Ok tt, (set_binaries s.1 bs, s.2), []).

Section Methods.

Variable cc : list string → compile_outcome.
Variable hexdigest : string → string → string.

(** [BinaryAnalyzer._generate_binary] *)
Definition _generate_binary (opt_level debug_level : string)
    : M state (option Binary.t) :=
  a ← self;
  let binary :=
    Binary.init (compiler_config a) (source_path a) (output_dir a)
      opt_level debug_level in
  '(generated, binary') ←
    on_disk (Binary.generate_binary cc hexdigest binary);
  mret (if generated : bool then Some binary' else None).

(** Body of the inner loop of [generate_variants]; the value is
    [file_hashes] after the visit. *)
Definition visit_variant (opt_level debug_level : string)
    (file_hashes : gset (option string))
    : M state (gset (option string)) :=
  binary ← _generate_binary opt_level debug_level;
  match binary with
  | Some b =>
      if bool_decide (Binary.hash_value b ∉ file_hashes) then
        a ← self;
        assign_binaries (binaries a ++ [b]);;
        mret (file_hashes ∪ {[ Binary.hash_value b ]})
      else mret file_hashes
  | None => mret file_hashes
  end.

(** [for debug_level in self.compiler_config.dbg_levels: ...] *)
Fixpoint for_dbg_levels (opt_level : string) (dbg_levels : list string)
    (file_hashes : gset (option string))
    : M state (gset (option string)) :=
  match dbg_levels with
  | [] => mret file_hashes
  | debug_level :: rest =>
      file_hashes' ← visit_variant opt_level debug_level file_hashes;
      for_dbg_levels opt_level rest file_hashes'
  end.

(** [for opt_level in self.compiler_config.opt_levels: ...] *)
Fixpoint for_opt_levels (opt_levels dbg_levels : list string)
    (file_hashes : gset (option string))
    : M state (gset (option string)) :=
  match opt_levels with
  | [] => mret file_hashes
  | opt_level :: rest =>
      file_hashes' ← for_dbg_levels opt_level dbg_levels file_hashes;
      for_opt_levels rest dbg_levels file_hashes'
  end.

(** [BinaryAnalyzer.generate_variants] *)
Definition generate_variants : M state unit :=
  a ← self;
  for_opt_levels (CompilerConfig.opt_levels (compiler_config a))
    (CompilerConfig.dbg_levels (compiler_config a)) ∅;;
  mret tt.

(** [for binary in self.binaries: binary.cleanup()]: the [i]-th
    binary is updated in place. *)
Fixpoint cleanup_binaries (i : nat) (todo : list Binary.t)
    : M state unit :=
  match todo with
  | [] => mret tt
  | binary :: rest =>
      binary' ← on_disk (Binary.cleanup binary);
      a ← self;
      assign_binaries (<[i := binary']> (binaries a));;
      cleanup_binaries (S i) rest
  end.

(** [BinaryAnalyzer.cleanup] *)
Definition cleanup : M state unit :=
  a ← self;
  cleanup_binaries 0 (binaries a);;
  assign_binaries [];;
  ((λ s, if Disk.exists_ (output_dir a) s.2 then
           bind (on_disk (Disk.iterdir (output_dir a)))
             (λ entries,
                match entries with
                | [] => on_disk (Disk.rmdir (output_dir a))
                | _ :: _ => ret tt
                end) s
         else (Ok tt, s, [])) : M state unit).

End Methods.

(** [BinaryAnalyzer.get_line_numbers]: [executor.map] over the binaries,
    one worker process each, taken here one after the other. *)
Fixpoint map_get_line_numbers (world : lldb_world) (bs : list Binary.t)
    : M unit (list Binary.t) :=
  match bs with
  | [] => mret []
  | binary :: rest =>
      binary' ← Binary.get_line_numbers world binary;
      rest' ← map_get_line_numbers world rest;
      mret (binary' :: rest')
  end.

Definition get_line_numbers (world : lldb_world) (a : t)
    : M unit t :=
  bs ← map_get_line_numbers world (binaries a);
  mret (set_binaries a bs).

Section Issues.

(** [get_debug_values(source_file, binary_path, line)] *)
Variable get_debug_values : string → string → Z → list DebugValue.

(** Truth value of [debug_value.error_message]. *)
Definition has_error (debug_value : DebugValue) : bool :=
  Py.truthy (default "" (error_message debug_value)).

Definition make_issue (binary : Binary.t) (source_file : string)
    (line : Z) (debug_value : DebugValue) : Issue :=
  {| issue_binary := Binary.file_name binary;
     issue_source_file := source_file;
     issue_line := line;
     issue_error_message :=
       (name debug_value ++ " - "
          ++ default "None" (error_message debug_value))%string |}.

(** Body of [for debug_value in debug_values]: what it appends to
    [binary_issues]. *)
Definition issues_of_value (binary : Binary.t) (source_file : string)
    (line : Z) (debug_value : DebugValue) : list Issue :=
  (if has_error debug_value && negb (is_known_error debug_value)
   then [make_issue binary source_file line debug_value] else [])
  ++
  (if is_pointer debug_value && has_error debug_value
   then [make_issue binary source_file line debug_value] else []).

(** [BinaryAnalyzer._find_issues_type1_2] *)
Definition _find_issues_type1_2 (binary : Binary.t) : list Issue :=
  flat_map (λ '(source_file, lines),
    flat_map (λ line,
      flat_map (issues_of_value binary source_file line)
        (get_debug_values source_file
           (Path.str (Binary.file_path binary)) line))
      lines)
    (Binary.line_numbers binary).

End Issues.

End BinaryAnalyzer.
(** ** The text of the dump: [parse_debug_line] *)

(** The regular expressions of [parse_debug_line], as [re] runs them: a
    pattern is a sequence of items, tried from left to right with
    backtracking; the first way to match that is found, in the order of
    preference of the quantifiers, is the match.  The characters of a
    [str] are taken to be code points below 256. *)
Module Re.

Inductive item : Type :=
| Lit (text : string)
    (* the text itself *)
| Rep (class : ascii → bool) (least : nat) (greedy : bool)
    (* a character class under a star or a plus ([least] is 0 or 1),
       greedy or, with a question mark, not greedy *)
| GroupOpen
    (* the opening parenthesis of a capturing group *)
| GroupClose.
    (* its closing parenthesis *)

Definition code (c : ascii) : N := N_of_ascii c.

(** [\d] *)
Definition digit (c : ascii) : bool :=
  ((48 <=? code c) && (code c <=? 57))%N.

(** [\s], and the characters that [str.strip()] removes: the code
    points below 256 for which [str.isspace()] holds. *)
Definition space (c : ascii) : bool :=
  (((9 <=? code c) && (code c <=? 13))
   || ((28 <=? code c) && (code c <=? 32))
   || (code c =? 133) || (code c =? 160))%N.

(** [[0-9a-f]] *)
Definition hex_lower (c : ascii) : bool :=
  digit c || ((97 <=? code c) && (code c <=? 102))%N.

(** [.] (without [re.DOTALL]) *)
Definition not_newline (c : ascii) : bool := negb (code c =? 10)%N.

(** The text of the group that is open, if one is, grows with the
    characters that are matched. *)
Definition extend (cur : option string) (text : string) : option string :=
  match cur with
  | Some matched => Some (matched ++ text)%string
  | None => None
  end.

(** [s] without its first [n] characters. *)
Fixpoint skip (n : nat) (s : string) : string :=
  match n, s with
  | S n', String _ s' => skip n' s'
  | _, _ => s
  end.

(** A repeated class, followed by the rest of the pattern [k]: [n]
    characters of the class have been taken.  A greedy repetition takes
    one more character while it can and gives characters back one by one
    when the rest fails; a repetition that is not greedy tries the rest
    first. *)
Fixpoint rep {R} (class : ascii → bool) (least : nat) (greedy : bool)
    (k : string → option string → option R)
    (s : string) (n : nat) (cur : option string) : option R :=
  let stop := if (least <=? n)%nat then k s cur else None in
  match s with
  | String c s' =>
      if class c then
        let more :=
          rep class least greedy k s' (S n) (extend cur (String c "")) in
        if greedy then
          match more with Some r => Some r | None => stop end
        else
          match stop with Some r => Some r | None => more end
      else stop
  | EmptyString => stop
  end.

(** Matching [items] at the start of [s]: the groups of the match and
    the text after it. *)
Fixpoint exec (items : list item) (s : string) (cur : option string)
    (groups : list string) : option (list string * string) :=
  match items with
  | [] => Some (groups, s)
  | Lit text :: rest =>
      if String.prefix text s
      then exec rest (skip (String.length text) s) (extend cur text) groups
      else None
  | Rep class least greedy :: rest =>
      rep class least greedy (λ s' cur', exec rest s' cur' groups) s 0 cur
  | GroupOpen :: rest => exec rest s (Some "") groups
  | GroupClose :: rest => exec rest s None (groups ++ [default "" cur])
  end.

(** [pattern.search(s)]: the match at the leftmost position that has
    one; the value is [match.groups()]. *)
Fixpoint search (items : list item) (s : string) : option (list string) :=
  match exec items s None [] with
  | Some (groups, _) => Some groups
  | None =>
      match s with
      | String _ s' => search items s'
      | EmptyString => None
      end
  end.

(** [match.group(i)], for [i] from 1. *)
Definition group (i : nat) (groups : list string) : string :=
  nth (i - 1) groups "".

End Re.

(** [str] methods and [int] on the texts that the patterns capture. *)
Module Str.

(** [s.split('\n')] *)
Fixpoint split_from (cur s : string) : list string :=
  match s with
  | EmptyString => [cur]
  | String c rest =>
      if (Re.code c =? 10)%N then cur :: split_from "" rest
      else split_from (cur ++ String c "") rest
  end.

Definition split_lines (s : string) : list string := split_from "" s.

(** [s.lstrip()], [s.rstrip()], [s.strip()] *)
Fixpoint lstrip (s : string) : string :=
  match s with
  | String c rest => if Re.space c then lstrip rest else s
  | EmptyString => EmptyString
  end.

Fixpoint rstrip (s : string) : string :=
  match s with
  | EmptyString => EmptyString
  | String c rest =>
      match rstrip rest with
      | EmptyString => if Re.space c then EmptyString else String c ""
      | kept => String c kept
      end
  end.

Definition strip (s : string) : string := rstrip (lstrip s).

(** The value of a digit in base 16 (and so in base 10). *)
Definition digit_value (c : ascii) : Z :=
  if Re.digit c then Z.of_N (Re.code c) - 48
  else Z.of_N (Re.code c) - 87.

(** The value of a text [s] of digits in a base. *)
Fixpoint int_from (base acc : Z) (s : string) : Z :=
  match s with
  | EmptyString => acc
  | String c rest => int_from base (base * acc + digit_value c) rest
  end.

(** CPython refuses to read in base 10 a text of more digits than
    [sys.get_int_max_str_digits()]: 4300 unless the interpreter is
    configured otherwise, 0 for no limit, and never applied to a text
    of at most 640 digits.  Leading zeros count. *)
Definition over_limit (max_str_digits : N) (s : string) : bool :=
  let digits := N.of_nat (String.length s) in
  ((640 <? digits) && (0 <? max_str_digits) && (max_str_digits <? digits))%N.

(** [int(s)] for a text [s] of digits, as the patterns capture them:
    the value, or [None] for [ValueError]. *)
Definition int (max_str_digits : N) (s : string) : option Z :=
  if over_limit max_str_digits s then None else Some (int_from 10 0 s).

(** [int(s, 16)]: a base that is a power of two has no limit. *)
Definition int16 (s : string) : Z := int_from 16 0 s.

End Str.

(** The line feed. *)
Definition newline : string := String (ascii_of_nat 10) EmptyString.

(** The exceptions that [parse_debug_line] can raise: the [KeyError] of
    a subscript of [file_table] with a key that it does not hold, and
    the [ValueError] of [int]. *)
Inductive parse_result (A : Type) : Type :=
| Parsed (a : A)
| KeyError (key : option Z)
| IntValueError.
Arguments Parsed {A} a.
Arguments KeyError {A} key.
Arguments IntValueError {A}.

Module DebugLine.

(** The quotation mark. *)
Definition quote : string := String (ascii_of_nat 34) "".

(** [file_names\[\s*(\d+)\]:] *)
Definition file_table_pattern : list Re.item :=
  [ Re.Lit "file_names["; Re.Rep Re.space 0 true;
    Re.GroupOpen; Re.Rep Re.digit 1 true; Re.GroupClose; Re.Lit "]:" ].

(** [name: "(.+)"] *)
Definition file_name_pattern : list Re.item :=
  [ Re.Lit ("name: " ++ quote);
    Re.GroupOpen; Re.Rep Re.not_newline 1 true; Re.GroupClose;
    Re.Lit quote ].

(** [dir_index: (\d+)] *)
Definition dir_index_pattern : list Re.item :=
  [ Re.Lit "dir_index: ";
    Re.GroupOpen; Re.Rep Re.digit 1 true; Re.GroupClose ].

(** [0x([0-9a-f]+)], then six times [\s+] and a group: [(\d+)] five
    times, and a group of [.*] at the end. *)
Definition line_entry_pattern : list Re.item :=
  [ Re.Lit "0x";
    Re.GroupOpen; Re.Rep Re.hex_lower 1 true; Re.GroupClose;
    Re.Rep Re.space 1 true;
    Re.GroupOpen; Re.Rep Re.digit 1 true; Re.GroupClose;
    Re.Rep Re.space 1 true;
    Re.GroupOpen; Re.Rep Re.digit 1 true; Re.GroupClose;
    Re.Rep Re.space 1 true;
    Re.GroupOpen; Re.Rep Re.digit 1 true; Re.GroupClose;
    Re.Rep Re.space 1 true;
    Re.GroupOpen; Re.Rep Re.digit 1 true; Re.GroupClose;
    Re.Rep Re.space 1 true;
    Re.GroupOpen; Re.Rep Re.digit 1 true; Re.GroupClose;
    Re.Rep Re.space 1 true;
    Re.GroupOpen; Re.Rep Re.not_newline 0 true; Re.GroupClose ].

(** The local variables of [parse_debug_line]. *)
Record state : Type := State {
  file_table : gmap Z file_entry;
  line_info : list line_entry;
  current_file : option Z;
  parsing_file_table : bool
}.

Definition initial : state := State ∅ [] None false.

Section Parse.

(** [sys.get_int_max_str_digits()] of the interpreter. *)
Variable max_str_digits : N.

(** The dict that a row appends to [line_info]; its values are
    evaluated in the order of the keys, and the first [int] that raises
    ends the evaluation. *)
Definition entry_of (groups : list string) : option line_entry :=
  let address := Str.int16 (Re.group 1 groups) in
  line ← Str.int max_str_digits (Re.group 2 groups);
  column ← Str.int max_str_digits (Re.group 3 groups);
  file ← Str.int max_str_digits (Re.group 4 groups);
  isa ← Str.int max_str_digits (Re.group 5 groups);
  discriminator ← Str.int max_str_digits (Re.group 6 groups);
  Some {| le_address := address;
          le_line := line;
          le_column := column;
          le_file := file;
          le_isa := isa;
          le_discriminator := discriminator;
          le_flags := Str.strip (Re.group 7 groups) |}.

(** [file_table[current_file][key] = value], by [update] on the dict
    that [file_table] holds for [current_file]. *)
Definition update_current (st : state) (update : file_entry → file_entry)
    (parsing : bool) : parse_result state :=
  match current_file st with
  | None => KeyError None
  | Some file =>
      match file_table st !! file with
      | None => KeyError (Some file)
      | Some entry =>
          Parsed (State (<[file := update entry]> (file_table st))
                    (line_info st) (current_file st) parsing)
      end
  end.

(** Body of [for line in output.split('\n')].  In an assignment the
    right-hand side is evaluated before the subscripts of the target. *)
Definition step (st : state) (line : string) : parse_result state :=
  if String.prefix "file_names[" line then
    match Re.search file_table_pattern line with
    | Some groups =>
        match Str.int max_str_digits (Re.group 1 groups) with
        | Some file =>
            Parsed (State (<[file := FileEntry None None]> (file_table st))
                      (line_info st) (Some file) true)
        | None => IntValueError
        end
    | None =>
        Parsed (State (file_table st) (line_info st) (current_file st) true)
    end
  else if parsing_file_table st then
    match Re.search file_name_pattern line with
    | Some groups =>
        update_current st
          (λ entry, FileEntry (Some (Re.group 1 groups)) (fe_dir_index entry))
          true
    | None =>
        match Re.search dir_index_pattern line with
        | Some groups =>
            match Str.int max_str_digits (Re.group 1 groups) with
            | Some dir_index =>
                update_current st
                  (λ entry, FileEntry (fe_name entry) (Some dir_index))
                  false
            | None => IntValueError
            end
        | None => Parsed st
        end
    end
  else if String.prefix "Address" line then
    Parsed (State (file_table st) (line_info st) (current_file st) false)
  else
    match Re.search line_entry_pattern line with
    | Some groups =>
        match entry_of groups with
        | Some entry =>
            Parsed (State (file_table st) (line_info st ++ [entry])
                      (current_file st) (parsing_file_table st))
        | None => IntValueError
        end
    | None => Parsed st
    end.

Fixpoint run (lines : list string) (st : state) : parse_result state :=
  match lines with
  | [] => Parsed st
  | line :: rest =>
      match step st line with
      | Parsed st' => run rest st'
      | KeyError key => KeyError key
      | IntValueError => IntValueError
      end
  end.

(** [parse_debug_line]; the same text in [utils.py] and in
    [get_line_nums.py]. *)
Definition parse_debug_line (output : string)
    : parse_result (gmap Z file_entry * list line_entry) :=
  match run (Str.split_lines output) initial with
  | Parsed st => Parsed (file_table st, line_info st)
  | KeyError key => KeyError key
  | IntValueError => IntValueError
  end.

End Parse.

End DebugLine.

(** ** [utils.py]: the versions of the compilers *)

(** What [subprocess.run(cmd, check=True, capture_output=True,
    text=True)] does for a command line. *)
Inductive process_outcome : Type :=
| Completed (stdout : string)   (* exit status 0 *)
| ExitStatus                    (* another exit status: CalledProcessError *)
| NotStarted.                   (* the program cannot be run: OSError *)

(** The exceptions of the functions below: those of [exn], and two
    more. *)
Inductive raised : Type :=
| Exn (e : exn)
| IndexError
| ValueError.

Inductive outcome (A : Type) : Type :=
| Returns (a : A)
| Raises (r : raised).
Arguments Returns {A} a.
Arguments Raises {A} r.

Module Words.

(** [s.split()]: the maximal runs of characters that are not white
    space. *)
Fixpoint split_from (cur s : string) : list string :=
  match s with
  | EmptyString =>
      match cur with EmptyString => [] | _ => [cur] end
  | String c rest =>
      if Re.space c then
        match cur with
        | EmptyString => split_from "" rest
        | _ => cur :: split_from "" rest
        end
      else split_from (cur ++ String c "") rest
  end.

Definition split (s : string) : list string := split_from "" s.

End Words.

Module Tools.

Section Commands.

(** The programs of the machine. *)
Variable run : list string → process_outcome.

(** [run_cmd], with the default working directory. *)
Definition run_cmd (cmd : list string) : outcome string :=
  match run cmd with
  | Completed stdout => Returns (Str.strip stdout)
  | ExitStatus => Raises (Exn CalledProcessError)
  | NotStarted => Raises (Exn (OSError "cannot run the program"))
  end.

(** [get_compiler_version]: [result.split('\n')[0].split()[-1]], and
    [None] for a [CalledProcessError]; any other exception leaves the
    function. *)
Definition get_compiler_version (compiler : string)
    : outcome (option string) :=
  match run_cmd [compiler; "--version"] with
  | Returns result =>
      match List.last (map Some
                         (Words.split
                            (List.hd "" (Str.split_lines result)))) None with
      | Some version => Returns (Some version)
      | None => Raises IndexError
      end
  | Raises (Exn CalledProcessError) => Returns None
  | Raises r => Raises r
  end.

(** The dict comprehension of [check_installed_compilers] over the
    items of [compilers], in their order. *)
Fixpoint versions_of (compilers : list (string * string))
    : outcome (OD.odict string) :=
  match compilers with
  | [] => Returns []
  | (name, cmd) :: rest =>
      match get_compiler_version cmd with
      | Raises r => Raises r
      | Returns version =>
          match versions_of rest with
          | Raises r => Raises r
          | Returns versions =>
              Returns (match version with
                       | Some v => (name, v) :: versions
                       | None => versions
                       end)
          end
      end
  end.

Definition compilers : list (string * string) :=
  [("gcc", "gcc"); ("clang", "clang"); ("ccomp", "ccomp")].

(** [check_installed_compilers] *)
Definition check_installed_compilers : outcome (OD.odict string) :=
  versions_of compilers.

End Commands.

End Tools.

(** ** [utils.py]: the numbered source files *)

Module Files.

(** [sorted(xs, key=...)], a stable sort, on the pairs of a key and a
    value: an element goes before the first element whose key is not
    less than its own. *)
Fixpoint insert_by_key {A} (x : Z * A) (sorted : list (Z * A))
    : list (Z * A) :=
  match sorted with
  | [] => [x]
  | y :: rest =>
      if (x.1 <=? y.1)%Z then x :: y :: rest
      else y :: insert_by_key x rest
  end.

Definition sorted_by_key {A} (xs : list (Z * A)) : list (Z * A) :=
  foldr insert_by_key [] xs.

Section FindCFiles.

(** The file system: [dir_path.is_dir()], and [dir_path.glob('*.c')] in
    the order in which the directory is listed. *)
Variable is_dir : Path.t → bool.
Variable glob_c : Path.t → list Path.t.

(** [int(s)] for a [str]: [None] when it raises [ValueError]. *)
Variable int : string → option Z.

(** [int(x.stem)] for every file, as [sorted] computes its keys. *)
Fixpoint keys_of (files : list Path.t) : option (list (Z * Path.t)) :=
  match files with
  | [] => Some []
  | x :: rest =>
      match int (Path.stem x) with
      | None => None
      | Some key =>
          match keys_of rest with
          | None => None
          | Some keyed => Some ((key, x) :: keyed)
          end
      end
  end.

(** The condition of the comprehension that applies for [start] and
    [end]; [None] is the default [None]. *)
Definition selected (start end_ : option Z) (number : Z) : bool :=
  match start, end_ with
  | Some s, Some e => (s <=? number)%Z && (number <=? e)%Z
  | Some s, None => (s <=? number)%Z
  | None, Some e => (number <=? e)%Z
  | None, None => true
  end.

(** [find_c_files_int] *)
Definition find_c_files_int (directory : string) (start end_ : option Z)
    : outcome (list Path.t) :=
  let dir_path := Path.parts directory in
  if negb (is_dir dir_path) then Returns []
  else
    let all_c_files := glob_c dir_path in
    match keys_of all_c_files with
    | None => Raises ValueError
    | Some keyed =>
        let sorted_c_files := sorted_by_key keyed in
        Returns (map snd
                   (filter (λ f, selected start end_ f.1 = true)
                      sorted_c_files))
    end.

End FindCFiles.

End Files.

(** ** [binary_generator.py]: the evidence *)

(** A computation on the disk that returns or raises one of [raised];
    the disk that it leaves is kept in both cases. *)
Definition W (A : Type) : Type := Disk.t → outcome A * Disk.t.

Definition w_ret {A} (a : A) : W A := λ d, (Returns a, d).

Definition w_bind {A B} (m : W A) (k : A → W B) : W B :=
  λ d, match m d with
       | (Returns a, d1) => k a d1
       | (Raises r, d1) => (Raises r, d1)
       end.

(** A value that the outside world returns, or what it raises. *)
Definition w_lift {A} (o : outcome A) : W A := λ d, (o, d).

Module Shutil.

(** [shutil.copy2(src, dst)] on paths: into [dst] when it is a
    directory; the content of [src] replaces what the target holds.
    The parent of the target has to be a directory on the disk. *)
Definition copy2 (src dst : Path.t) : W unit :=
  λ d,
    let target :=
      match d !! dst with
      | Some Dir => dst ++ [Path.name src]
      | _ => dst
      end in
    if bool_decide (src = target ∧ is_Some (d !! src)) then
      (Raises (Exn (OSError "SameFileError")), d)
    else
      match d !! src with
      | None => (Raises (Exn (OSError "FileNotFoundError")), d)
      | Some Dir => (Raises (Exn (OSError "IsADirectoryError")), d)
      | Some (File content) =>
          match d !! target with
          | Some Dir => (Raises (Exn (OSError "IsADirectoryError")), d)
          | _ =>
              match d !! Path.parent target with
              | Some Dir => (Returns tt, <[target := File content]> d)
              | _ => (Raises (Exn (OSError "FileNotFoundError")), d)
              end
          end
      end.

(** [shutil.rmtree(p)], as [TemporaryDirectory] calls it when it is
    left: [p] and what is below it. *)
Definition rmtree (p : Path.t) (d : Disk.t) : Disk.t :=
  filter (λ entry, ¬ p `prefix_of` entry.1) d.

End Shutil.

Module Fs.

(** [p.open('a')]: the file is created when it is missing. *)
Definition open_append (p : Path.t) : W unit :=
  λ d, match d !! p with
       | Some Dir => (Raises (Exn (OSError "IsADirectoryError")), d)
       | Some (File _) => (Returns tt, d)
       | None =>
           match d !! Path.parent p with
           | Some Dir => (Returns tt, <[p := File ""]> d)
           | _ => (Raises (Exn (OSError "FileNotFoundError")), d)
           end
       end.

(** The writes to a file that is open for appending, when it is
    closed. *)
Definition write (p : Path.t) (text : string) : W unit :=
  λ d, match d !! p with
       | Some (File content) =>
           (Returns tt, <[p := File (content ++ text)]> d)
       | _ => (Returns tt, d)
       end.

End Fs.

Module Evidence.

(** [str(n)] for an [int]. *)
Definition str_of_int (n : Z) : string :=
  NilZero.string_of_int (Z.to_int n).

(** [str(v)] for an optional [str]. *)
Definition str_of_version (v : option string) : string :=
  match v with Some s => s | None => "None" end.

(** The first loop of [_write_results]: the issues of every source
    file, in the order in which the files first appear. *)
Definition add_issue (acc : OD.odict (list Issue)) (issue : Issue)
    : OD.odict (list Issue) :=
  let source_file := issue_source_file issue in
  let acc' :=
    match OD.get source_file acc with
    | None => OD.set source_file [] acc
    | Some _ => acc
    end in
  OD.set source_file (default [] (OD.get source_file acc') ++ [issue]) acc'.

Definition issues_by_file (issues : list Issue) : OD.odict (list Issue) :=
  fold_left add_issue issues [].

Section WriteResults.

(** The programs of the machine, for the version of clang. *)
Variable run : list string → process_outcome.

(** The text that the [n]-th call of [time.strftime] formats. *)
Variable strftime : nat → string.

(** The order in which a [set] of names is iterated. *)
Variable iteration : list string → list string.

(** The line of one issue. *)
Definition issue_line_text (issue : Issue) : string :=
  ("// " ++ issue_binary issue ++ " " ++ str_of_int (issue_line issue)
     ++ ": " ++ issue_error_message issue ++ newline)%string.

(** The text appended to the copy of a source file. *)
Definition comment_block (version : option string) (now : string)
    (file_issues : list Issue) : string :=
  (newline ++ newline ++ "//LLVM" ++ str_of_version version ++ " " ++ now
     ++ newline
     ++ String.concat "" (map issue_line_text file_issues)
     ++ newline)%string.

(** Body of [for source_file, file_issues in issues_by_file.items()],
    at its [n]-th turn. *)
Definition write_file (a : BinaryAnalyzer.t) (n : nat)
    (key : string) (file_issues : list Issue) : W unit :=
  let source_file := Path.parts key in
  w_bind (Shutil.copy2 (BinaryAnalyzer.source_dir a ++ source_file)
            (BinaryAnalyzer.evidence_dir a ++ source_file))
    (λ _,
       let target :=
         Path.div (BinaryAnalyzer.evidence_dir a) (Path.name source_file) in
       w_bind (Fs.open_append target)
         (λ _,
            w_bind (w_lift (Tools.get_compiler_version run "clang"))
              (λ version,
                 Fs.write target
                   (comment_block version (strftime n) file_issues)))).

Fixpoint write_files (a : BinaryAnalyzer.t) (n : nat)
    (items : OD.odict (list Issue)) : W unit :=
  match items with
  | [] => w_ret tt
  | (key, file_issues) :: rest =>
      w_bind (write_file a n key file_issues)
        (λ _, write_files a (S n) rest)
  end.

(** [next((b for b in self.binaries if b.file_name == binary_name),
    None)] *)
Definition binary_named (a : BinaryAnalyzer.t) (binary_name : string)
    : option Binary.t :=
  List.find (λ b, String.eqb (Binary.file_name b) binary_name)
    (BinaryAnalyzer.binaries a).

(** [for binary_name in unique_binaries: ...] *)
Fixpoint copy_binaries (a : BinaryAnalyzer.t) (names : list string)
    : W unit :=
  match names with
  | [] => w_ret tt
  | binary_name :: rest =>
      w_bind
        (match binary_named a binary_name with
         | Some binary =>
             Shutil.copy2 (Binary.file_path binary)
               (Path.div (BinaryAnalyzer.evidence_dir a) binary_name)
         | None => w_ret tt
         end)
        (λ _, copy_binaries a rest)
  end.

(** [BinaryAnalyzer._write_results] *)
Definition _write_results (a : BinaryAnalyzer.t) (issues : list Issue)
    : W unit :=
  w_bind (write_files a 0 (issues_by_file issues))
    (λ _, copy_binaries a (iteration (map issue_binary issues))).

(** [get_debug_values(source_file, binary_path, line)] *)
Variable get_debug_values : string → string → Z → list DebugValue.

(** [BinaryAnalyzer.find_issues_type1_2]: [pool.map] gives the lists of
    the binaries in their order. *)
Definition find_issues_type1_2 (a : BinaryAnalyzer.t) : W unit :=
  let issues :=
    flat_map (BinaryAnalyzer._find_issues_type1_2 get_debug_values)
      (BinaryAnalyzer.binaries a) in
  match issues with
  | [] => w_ret tt
  | _ :: _ => _write_results a issues
  end.

End WriteResults.

End Evidence.

(** ** [binary_generator.py]: the analysis of one source file *)

Module SingleSourceAnalysis.

Section Analysis.

Variable cc : list string → compile_outcome.
Variable hexdigest : string → string → string.
Variable world : lldb_world.
Variable run : list string → process_outcome.
Variable strftime : nat → string.
Variable iteration : list string → list string.
Variable get_debug_values : string → string → Z → list DebugValue.

Variable compiler_config : CompilerConfig.t.
Variable evidence_dir : Path.t.

(** The directory that [tempfile.TemporaryDirectory()] makes. *)
Variable temp_output_dir : Path.t.

(** [SingleSourceAnalysis.run_analysis]: the value, [self.analyzer]
    and the disk.  The temporary directory is removed when the [with]
    statement is left, by a return or by an exception. *)
Definition run_analysis (source_file : Path.t) (d : Disk.t)
    : outcome unit * option BinaryAnalyzer.t * Disk.t :=
  let output_dir := temp_output_dir in
  let analyzer :=
    BinaryAnalyzer.init compiler_config evidence_dir source_file
      output_dir in
  let '(r, analyzer', d') :=
    match BinaryAnalyzer.generate_variants cc hexdigest
            (analyzer, <[temp_output_dir := Dir]> d) with
    | (Raise e, (a1, d1), _) => (Raises (Exn e), a1, d1)
    | (Ok _, (a1, d1), _) =>
        match BinaryAnalyzer.get_line_numbers world a1 tt with
        | (Raise e, _, _) => (Raises (Exn e), a1, d1)
        | (Ok a2, _, _) =>
            let '(r2, d2) :=
              Evidence.find_issues_type1_2 run strftime iteration
                get_debug_values a2 d1 in
            (r2, a2, d2)
        end
    end in
  (r, Some analyzer', Shutil.rmtree temp_output_dir d').

(** [SingleSourceAnalysis.cleanup] *)
Definition cleanup (analyzer : option BinaryAnalyzer.t) (d : Disk.t)
    : outcome unit * option BinaryAnalyzer.t * Disk.t :=
  match analyzer with
  | Some a =>
      match BinaryAnalyzer.cleanup (a, d) with
      | (Ok _, (a', d'), _) => (Returns tt, None, d')
      | (Raise e, (a', d'), _) => (Raises (Exn e), Some a', d')
      end
  | None => (Returns tt, None, d)
  end.

(** [ParallelSourceAnalysis.analyze_single_source]: [try:
    analysis.run_analysis()  finally: analysis.cleanup()], then
    [return source_file]. *)
Definition analyze_single_source (source_file : Path.t) (d : Disk.t)
    : outcome Path.t * Disk.t :=
  let '(r, analyzer, d1) := run_analysis source_file d in
  match cleanup analyzer d1 with
  | (Raises x, _, d2) => (Raises x, d2)
  | (Returns _, _, d2) =>
      (match r with
       | Returns _ => Returns source_file
       | Raises x => Raises x
       end, d2)
  end.

End Analysis.

End SingleSourceAnalysis.

(** * Vocabulary of the statements *)

(** The lines that the rows of [line_info] add under [file], starting
    from what the dictionary already holds there. *)
Definition lines_under (file_table : gmap Z file_entry) (file : string)
    (line_info : list line_entry) (held : option (gset Z))
    : option (gset Z) :=
  fold_left
    (λ held entry,
       if DwarfDumpParser.contributes file_table entry
          && String.eqb file (DwarfDumpParser.entry_file_name file_table entry)
       then Some (default ∅ held ∪ {[ le_line entry ]})
       else held)
    line_info held.

(** The dump of the specification's example: index 1 is ["a.c"]. *)
Definition dump_file_table : gmap Z file_entry :=
  {[ 1 := FileEntry (Some "a.c") (Some 0) ]}.
Definition dump_row1 : line_entry := LineEntry 4096 10 3 1 0 0 "is_stmt".
Definition dump_row2 : line_entry :=
  LineEntry 4100 10 7 1 0 0 "is_stmt prologue_end".
Definition dump_row_unknown_file : line_entry :=
  LineEntry 4104 11 1 7 0 0 "is_stmt".
Definition dump_row_no_stmt : line_entry :=
  LineEntry 4108 12 1 1 0 0 "basic_block".

(** What a list returned by [verify_line_nums] is made of: the sorted
    elements of the set that the stop loop built over the breakpoints
    that were created. *)
Definition made_of_session (w : session) (source_file : string)
    (line_numbers : list Z) (l : list Z) : Prop :=
  ∃ bps verified f1 f2 f3 f4 c1 c2,
    create_breakpoints w source_file line_numbers 0 [] f1 = (Ok bps, f2, c1)
    ∧ stop_loop (ss_stops w) bps ∅ f3 = (Ok verified, f4, c2)
    ∧ l = Py.sorted (elements verified).

(** The run of the specification: the program goes through lines 5, 6
    and 7, breakpoints are requested at 5, 6 and 9. *)
Definition session_567 : session :=
  {| ss_target := Ok true;
     ss_breakpoint := λ _ _, Ok true;
     ss_launch := Ok true;
     ss_stops :=
       [ StopBreakpoint 5 (λ bp, if decide (bp = 0%nat) then 1 else 0);
         StopBreakpoint 6 (λ bp, if decide (bp = 2%nat) then 0 else 1) ] |}.

(** Every breakpoint request is answered (none raises). *)
Definition breakpoints_answer (w : session) : Prop :=
  ∀ n line, ∃ valid, ss_breakpoint w n line = Ok valid.

Definition is_fault (s : stop) : bool :=
  match s with StopFault _ => true | _ => false end.

(** The first debugger call that raises during the stop loop raises [e]. *)
Definition first_fault (w : session) (e : exn) : Prop :=
  ∃ before after,
    ss_stops w = before ++ StopFault e :: after
    ∧ Forall (λ s, is_fault s = false) before.

(** Sessions that fail, each in its own way. *)
Definition session_invalid_target : session :=
  {| ss_target := Ok false; ss_breakpoint := λ _ _, Ok true;
     ss_launch := Ok true; ss_stops := [] |}.

Definition session_launch_fails : session :=
  {| ss_target := Ok true; ss_breakpoint := λ _ _, Ok true;
     ss_launch := Ok false; ss_stops := [] |}.

Definition session_no_hit : session :=
  {| ss_target := Ok true; ss_breakpoint := λ _ _, Ok true;
     ss_launch := Ok true; ss_stops := [StopOther] |}.

Definition session_fault : session :=
  {| ss_target := Ok true; ss_breakpoint := λ _ _, Ok true;
     ss_launch := Ok true;
     ss_stops := [StopBreakpoint 7 (λ _, 1); StopFault (LLDBError "Continue")] |}.

(** A binary of three compile units: [a.c] (lines 5, 6, 9), [b.c]
    (line 7) and [c.c] (line 3). *)
Definition three_units : gmap Z file_entry * list line_entry :=
  ({[ 1 := FileEntry (Some "/src/a.c") (Some 0);
      2 := FileEntry (Some "/src/b.c") (Some 0);
      3 := FileEntry (Some "/src/c.c") (Some 0) ]},
   [ LineEntry 4096 5 1 1 0 0 "is_stmt"; LineEntry 4100 6 1 1 0 0 "is_stmt";
     LineEntry 4104 9 1 1 0 0 "is_stmt"; LineEntry 4200 7 1 2 0 0 "is_stmt";
     LineEntry 4300 3 1 3 0 0 "is_stmt" ]).

(** [a.c] runs as in the specification, the launch fails for [b.c], no
    breakpoint of [c.c] is hit. *)
Definition env_quiet : binary_env :=
  {| env_source_files := Ok ["a.c"; "b.c"; "c.c"];
     env_debug_line := Ok three_units;
     env_lldb := λ f, if String.eqb f "a.c" then session_567
                      else if String.eqb f "b.c" then session_launch_fails
                      else session_no_hit |}.

(** [a.c] runs as in the specification, the target created for the
    session of [b.c] is not valid. *)
Definition env_sibling_invalid : binary_env :=
  {| env_source_files := Ok ["a.c"; "b.c"; "c.c"];
     env_debug_line := Ok three_units;
     env_lldb := λ f, if String.eqb f "a.c" then session_567
                      else if String.eqb f "b.c" then session_invalid_target
                      else session_no_hit |}.

(** [a.c] runs as in the specification, a debugger call of the stop
    loop raises in the session of [b.c]. *)
Definition env_sibling_fault : binary_env :=
  {| env_source_files := Ok ["a.c"; "b.c"; "c.c"];
     env_debug_line := Ok three_units;
     env_lldb := λ f, if String.eqb f "a.c" then session_567
                      else if String.eqb f "b.c" then session_fault
                      else session_no_hit |}.

(** C4 as the specification words it, for one binary: a file whose
    verification does not return a list has no verified lines, and every
    sibling file keeps the lines that its own verification returns. *)
Definition failure_contained
    (V : session → string → string → list Z → M unit (option (list Z)))
    (env : binary_env) (binary_file : string) : Prop :=
  ∀ source_files parsed,
    env_source_files env = Ok source_files →
    env_debug_line env = Ok parsed →
    ∃ d, value_of (get_line_nums V env binary_file tt) = Ok d
      ∧ (∀ f lines,
           (f, lines) ∈ DwarfDumpParser.get_line_numbers_by_file
                          parsed.1 parsed.2 →
           (∀ l, value_of (V (env_lldb env f) f binary_file lines tt)
                 ≠ Ok (Some l)) →
           OD.get f d = None)
      ∧ (∀ g lines l,
           (g, lines) ∈ DwarfDumpParser.get_line_numbers_by_file
                          parsed.1 parsed.2 →
           g ∈ source_files →
           value_of (V (env_lldb env g) g binary_file lines tt) = Ok (Some l) →
           l ≠ [] →
           OD.get g d = Some l).

(** The mapping that [Binary.get_line_numbers] stores for a binary. *)
Definition line_nums_of (world : lldb_world) (b : Binary.t)
    : OD.odict (list Z) :=
  match value_of (get_line_nums Utils.verify_line_nums
                    (world (Path.str (Binary.file_path b)))
                    (Path.str (Binary.file_path b)) tt) with
  | Ok d => d
  | Raise _ => []
  end.

(** The invariant of the sweep: the retained binaries have pairwise
    distinct hashes, all of them in [file_hashes]. *)
Definition hashes_distinct (binaries : list Binary.t)
    (file_hashes : gset (option string)) : Prop :=
  NoDup (map Binary.hash_value binaries)
  ∧ ∀ b, b ∈ binaries → Binary.hash_value b ∈ file_hashes.

(** A compiler that writes the same bytes at every level, and a digest
    that tells different contents apart. *)
Definition cc_same_bytes (cmd : list string) : compile_outcome := Exit0 "ELF".
Definition digest_of_content (algorithm content : string) : string := content.

(** The analyzer of [case.c] sweeping -O0 and -O1 at -g2 into the
    directory [out], and its state after the visit of (-O0, -g2). *)
Definition analyzer_case : BinaryAnalyzer.t :=
  BinaryAnalyzer.init (CompilerConfig.Make "clang" ["0"; "1"] ["2"])
    ["evidence"] ["src"; "case.c"] ["out"].

Definition disk_out : gmap Path.t node := {[ ["out"] := Dir ]}.

Definition after_O0 : BinaryAnalyzer.t * gmap Path.t node :=
  state_of (BinaryAnalyzer.visit_variant cc_same_bytes digest_of_content
              "0" "2" ∅ (analyzer_case, disk_out)).

(** C3 as the specification words it, for one visit of the sweep: when
    the compilation succeeds with a hash that is already in
    [file_hashes], the binary is not retained and its artifact is no
    longer on the disk. *)
Definition duplicate_deleted
    (cc : list string → compile_outcome)
    (hexdigest : string → string → string)
    (opt_level debug_level : string) (file_hashes : gset (option string))
    (s : BinaryAnalyzer.t * gmap Path.t node) : Prop :=
  ∀ b,
    value_of (BinaryAnalyzer._generate_binary cc hexdigest
                opt_level debug_level s) = Ok (Some b) →
    Binary.hash_value b ∈ file_hashes →
    let s' := state_of (BinaryAnalyzer.visit_variant cc hexdigest
                          opt_level debug_level file_hashes s) in
    BinaryAnalyzer.binaries s'.1 = BinaryAnalyzer.binaries s.1
    ∧ s'.2 !! Binary.file_path b = None.

(** The binary that the visit of (-O0, -g2) retains, and the same binary
    once line 5 of [case.c] is verified for it. *)
Definition artifact_O0 : Binary.t :=
  Binary.set_hash_value
    (Binary.init (BinaryAnalyzer.compiler_config analyzer_case)
       ["src"; "case.c"] ["out"] "0" "2") (Some "ELF").

Definition binary_line5 : Binary.t :=
  Binary.set_line_numbers artifact_O0 [("case.c", [5])].

(** Debug values: a pointer and a scalar with the known error of the
    specification, and a pointer with an error that is not known. *)
Definition wild_pointer : DebugValue :=
  MkDebugValue "p" "0x0" (Some "wild read") true true.
Definition wild_scalar : DebugValue :=
  MkDebugValue "x" "0" (Some "wild read") false true.
Definition stray_pointer : DebugValue :=
  MkDebugValue "q" "0x8" (Some "bad address") true false.

(** The disk once the artifacts of [bs] are unlinked. *)
Definition without_artifacts (bs : list Binary.t) (disk : gmap Path.t node)
    : gmap Path.t node :=
  fold_left (λ d b, delete (Binary.file_path b) d) bs disk.

(** A row adds its line under [file]. *)
Definition adds_to (file_table : gmap Z file_entry) (file : string)
    (entry : line_entry) : bool :=
  DwarfDumpParser.contributes file_table entry
  && String.eqb file (DwarfDumpParser.entry_file_name file_table entry).

(** The process stops on a breakpoint at line [x] while the breakpoint
    requested there as the [i]-th candidate is valid and has been hit. *)
Definition observed_hit (w : session) (line_numbers : list Z) (x : Z)
    : Prop :=
  ∃ hit_count i,
    StopBreakpoint x hit_count ∈ ss_stops w
    ∧ line_numbers !! i = Some x
    ∧ ss_breakpoint w i x = Ok true
    ∧ 0 < hit_count i.

(** The calls of a session up to the release of its resources, when
    every step succeeds. *)
Definition session_calls (w : session) (source_file file_path : string)
    (line_numbers : list Z) : list call :=
  [SBDebugger_Create; SetAsync; CreateTargetWithFileAndArch file_path]
  ++ map (BreakpointCreateByLocation source_file) line_numbers
  ++ [LaunchSimple]
  ++ replicate (length (ss_stops w)) Continue.

(** The first calls of every session. *)
Definition session_head (file_path : string) : list call :=
  [SBDebugger_Create; SetAsync; CreateTargetWithFileAndArch file_path].

(** The release of the target and of the debugger. *)
Definition target_release : list call :=
  [DeleteAllBreakpoints; DeleteTarget; SBDebugger_Destroy].

(** The value of [verify_line_nums] after the stop loop. *)
Definition verified_value (r : result (gset Z)) : result (option (list Z)) :=
  match r with
  | Ok verified => Ok (Some (Py.sorted (elements verified)))
  | Raise e => Raise e
  end.

(** [e] is raised by the debugger somewhere in the session. *)
Definition raised_by_debugger (w : session) (e : exn) : Prop :=
  ss_target w = Raise e
  ∨ (∃ n line, ss_breakpoint w n line = Raise e)
  ∨ ss_launch w = Raise e
  ∨ StopFault e ∈ ss_stops w.

(** The calls that release a resource of the session. *)
Definition is_release (c : call) : bool :=
  match c with
  | Kill | Process_Destroy | DeleteAllBreakpoints | DeleteTarget
  | SBDebugger_Destroy => true
  | _ => false
  end.

(** The command line that [generate_binary] runs for a binary. *)
Definition command_line (b : Binary.t) : list string :=
  [ Binary.compiler_path b; Path.str (Binary.source_path b);
    "-I/usr/local/include";
    ("-O" ++ Binary.optimization_level b)%string;
    ("-g" ++ Binary.debug_level b)%string;
    "-o"; Path.str (Binary.file_path b) ].

(** The [Binary] that the analyzer constructs for a pair of levels. *)
Definition variant (a : BinaryAnalyzer.t) (opt_level debug_level : string)
    : Binary.t :=
  Binary.init (BinaryAnalyzer.compiler_config a)
    (BinaryAnalyzer.source_path a) (BinaryAnalyzer.output_dir a)
    opt_level debug_level.

(** The pairs of levels, in the order in which the two loops of
    [generate_variants] visit them. *)
Definition sweep_order (c : CompilerConfig.t) : list (string * string) :=
  flat_map (λ opt_level,
              map (λ debug_level, (opt_level, debug_level))
                (CompilerConfig.dbg_levels c))
    (CompilerConfig.opt_levels c).

(** The visits of a list of pairs, one after the other. *)
Fixpoint visit_pairs (cc : list string → compile_outcome)
    (hexdigest : string → string → string)
    (pairs : list (string * string)) (file_hashes : gset (option string))
    : M BinaryAnalyzer.state (gset (option string)) :=
  match pairs with
  | [] => mret file_hashes
  | (opt_level, debug_level) :: rest =>
      file_hashes' ←
        BinaryAnalyzer.visit_variant cc hexdigest opt_level debug_level
          file_hashes;
      visit_pairs cc hexdigest rest file_hashes'
  end.

(** The compiler exits with status 0 on the command line of a variant,
    having written [output]. *)
Definition compiles_to (cc : list string → compile_outcome)
    (a : BinaryAnalyzer.t) (opt_level debug_level output : string) : Prop :=
  cc (command_line (variant a opt_level debug_level)) = Exit0 output.

(** The hash that [compute_hash] stores for a content. *)
Definition hash_of (hexdigest : string → string → string) (output : string)
    : option string :=
  Some (hexdigest "sha256" output).

(** [b] is the binary of the first pair of [pairs] that compiles to its
    content: a pair of [pairs] compiles, [b] is its [Binary] with the
    hash of the output, and no pair before it compiles to an output of
    the same hash. *)
Definition first_of_its_content (cc : list string → compile_outcome)
    (hexdigest : string → string → string) (a : BinaryAnalyzer.t)
    (pairs : list (string * string)) (b : Binary.t) : Prop :=
  ∃ i opt_level debug_level output,
    pairs !! i = Some (opt_level, debug_level)
    ∧ compiles_to cc a opt_level debug_level output
    ∧ b = Binary.set_hash_value (variant a opt_level debug_level)
            (hash_of hexdigest output)
    ∧ ∀ j opt_level' debug_level' output',
        (j < i)%nat → pairs !! j = Some (opt_level', debug_level') →
        compiles_to cc a opt_level' debug_level' output' →
        hash_of hexdigest output' ≠ hash_of hexdigest output.

(** The compiler cannot be started for some variant of the sweep. *)
Definition compiler_missing (cc : list string → compile_outcome)
    (a : BinaryAnalyzer.t) : Prop :=
  ∃ opt_level debug_level,
    (opt_level, debug_level)
      ∈ sweep_order (BinaryAnalyzer.compiler_config a)
    ∧ cc (command_line (variant a opt_level debug_level)) = SpawnError.

(** Every character of [s] is in [class]. *)
Fixpoint all_in (class : ascii → bool) (s : string) : bool :=
  match s with
  | EmptyString => true
  | String c rest => class c && all_in class rest
  end.

(** [s] is empty or starts with a character that is not in [class]. *)
Definition starts_outside (class : ascii → bool) (s : string) : bool :=
  match s with
  | EmptyString => true
  | String c _ => negb (class c)
  end.

(** A non-empty text of characters of [class]. *)
Definition some_of (class : ascii → bool) (s : string) : Prop :=
  s ≠ EmptyString ∧ all_in class s = true.

(** A row of the line table as the dump prints it: the address in
    hexadecimal after [0x], then the line, the column, the file index,
    the ISA and the discriminator in decimal, then the flags, with
    white space between them. *)
Definition row_text (address gap1 line gap2 column gap3 file gap4 isa gap5
    discriminator gap6 flags : string) : string :=
  ("0x" ++ address ++ gap1 ++ line ++ gap2 ++ column ++ gap3 ++ file ++ gap4
     ++ isa ++ gap5 ++ discriminator ++ gap6 ++ flags)%string.

(** A text of [n] digits. *)
Fixpoint ones (n : nat) : string :=
  match n with
  | O => EmptyString
  | S n' => String "1" (ones n')
  end.

(** The number that a text of decimal digits writes. *)
Definition decimal (s : string) : Z := Str.int_from 10 0 s.

(** The numbers of a row are not negative and its flags have no white
    space around them. *)
Definition entry_wellformed (entry : line_entry) : Prop :=
  (0 ≤ le_address entry ∧ 0 ≤ le_line entry ∧ 0 ≤ le_column entry
   ∧ 0 ≤ le_file entry ∧ 0 ≤ le_isa entry ∧ 0 ≤ le_discriminator entry)%Z
  ∧ Str.strip (le_flags entry) = le_flags entry.

(** The index of a file is not negative, its name is not empty and its
    directory index is not negative. *)
Definition file_wellformed (file : Z) (entry : file_entry) : Prop :=
  (0 ≤ file)%Z ∧ fe_name entry ≠ Some EmptyString
  ∧ ∀ dir_index, fe_dir_index entry = Some dir_index → (0 ≤ dir_index)%Z.

(** A line that starts the description of a file but does not carry a
    file index that [file_table_pattern] finds. *)
Definition bad_header (line : string) : Prop :=
  String.prefix "file_names[" line = true
  ∧ Re.search DebugLine.file_table_pattern line = None.

(** The entry comes from a line of the dump that [line_entry_pattern]
    matches. *)
Definition read_from (max_str_digits : N) (lines : list string)
    (entry : line_entry) : Prop :=
  ∃ line groups,
    line ∈ lines
    ∧ Re.search DebugLine.line_entry_pattern line = Some groups
    ∧ DebugLine.entry_of max_str_digits groups = Some entry.

(** The line carries a decimal number that [int] refuses: the index of
    a file in its header, the index of a directory, or one of the five
    decimal numbers of a row. *)
Definition long_number (max_str_digits : N) (line : string) : Prop :=
  ∃ groups i,
    ((Re.search DebugLine.file_table_pattern line = Some groups ∧ i = 1%nat)
     ∨ (Re.search DebugLine.dir_index_pattern line = Some groups ∧ i = 1%nat)
     ∨ (Re.search DebugLine.line_entry_pattern line = Some groups
        ∧ (2 ≤ i ≤ 6)%nat))
    ∧ Str.over_limit max_str_digits (Re.group i groups) = true.

(** What holds of the local variables of [parse_debug_line] between two
    lines of [lines]. *)
Definition between_lines (max_str_digits : N) (lines : list string)
    (st : DebugLine.state) : Prop :=
  (∀ entry, entry ∈ DebugLine.line_info st →
            entry_wellformed entry ∧ read_from max_str_digits lines entry)
  ∧ (∀ file entry, DebugLine.file_table st !! file = Some entry →
                   file_wellformed file entry)
  ∧ (∀ file, DebugLine.current_file st = Some file →
             is_Some (DebugLine.file_table st !! file))
  ∧ (DebugLine.parsing_file_table st = true →
     DebugLine.current_file st = None →
     ∃ line, line ∈ lines ∧ bad_header line).

(** What [parse_debug_line] raises, and on which dumps. *)
Definition raises_on {A} (max_str_digits : N) (lines : list string)
    (r : parse_result A) : Prop :=
  match r with
  | Parsed _ => True
  | KeyError key => key = None ∧ ∃ bad, bad ∈ lines ∧ bad_header bad
  | IntValueError => ∃ long, long ∈ lines ∧ long_number max_str_digits long
  end.

(** A dump whose file table has no index in its header. *)
Definition dump_bad_header : string :=
  ("file_names[x]:" ++ newline
     ++ "           name: " ++ DebugLine.quote ++ "a.c" ++ DebugLine.quote)
  %string.

(** A dump whose first file has an index of 4301 digits. *)
Definition dump_long_index : string :=
  ("file_names[" ++ ones 4301 ++ "]:")%string.

(** The three lines of the dump that describe a file: its index, its
    name and the index of its directory. *)
Definition header_text (pad index : string) : string :=
  ("file_names[" ++ pad ++ index ++ "]:")%string.

Definition name_text (indent name : string) : string :=
  (indent ++ "name: " ++ DebugLine.quote ++ name ++ DebugLine.quote)%string.

Definition dir_index_text (indent index : string) : string :=
  (indent ++ "dir_index: " ++ index)%string.

(** A character that is not white space. *)
Definition visible (c : ascii) : bool := negb (Re.space c).

(** A program that prints the banner of clang 17, and one that prints
    an empty line. *)
Definition prints_clang17 (cmd : list string) : process_outcome :=
  Completed ("clang version 17.0.6" ++ newline ++ "Target: x86_64")%string.

Definition prints_blank (cmd : list string) : process_outcome :=
  Completed newline.

(** The machine has gcc and clang but not ccomp. *)
Definition without_ccomp (cmd : list string) : process_outcome :=
  match cmd with
  | "ccomp" :: _ => NotStarted
  | _ => Completed "cc 1.0"
  end.

(** The number of a file, [int(x.stem)], satisfies [p]. *)
Definition number_is (int : string → option Z) (p : Z → bool) (x : Path.t)
    : bool :=
  match int (Path.stem x) with
  | Some number => p number
  | None => false
  end.

(** The number of [x] is not greater than the number of [y]. *)
Definition number_le (int : string → option Z) (x y : Path.t) : Prop :=
  ∃ m n, int (Path.stem x) = Some m ∧ int (Path.stem y) = Some n ∧ (m ≤ n)%Z.

(** A directory listing and the numbers of its stems. *)
Definition listing_3 (dir_path : Path.t) : list Path.t :=
  [["d"; "10.c"]; ["d"; "2.c"]; ["d"; "02.c"]].

Definition int_small (s : string) : option Z :=
  if String.eqb s "10" then Some 10
  else if String.eqb s "2" then Some 2
  else if String.eqb s "02" then Some 2
  else None.

Definition listing_readme (dir_path : Path.t) : list Path.t :=
  [["d"; "1.c"]; ["d"; "main.c"]].

(** A computation changes nothing on the disk but at [root] and below. *)
Definition writes_below {A} (root : Path.t) (m : W A) : Prop :=
  ∀ (d : Disk.t) (p : Path.t),
    ¬ root `prefix_of` p → (m d).2 !! p = d !! p.

(** An analyzer of [case.c] that retains one binary with verified
    lines 5 and 6, and debug values that give an issue at line 5. *)
Definition analyzer_with_lines : BinaryAnalyzer.t :=
  BinaryAnalyzer.set_binaries
    (BinaryAnalyzer.init (CompilerConfig.Make "clang" ["0"] ["2"])
       ["evidence"] ["src"; "case.c"] ["out"])
    [Binary.set_line_numbers
       (Binary.init (CompilerConfig.Make "clang" ["0"] ["2"])
          ["src"; "case.c"] ["out"] "0" "2")
       [("case.c", [5; 6])]].

Definition values_at_5 (source_file binary_path : string) (line : Z)
    : list DebugValue :=
  if (line =? 5)%Z
  then [MkDebugValue "p" "0x0" (Some "read memory failed") true false]
  else [].

(** A disk with the source file and no [evidence] directory. *)
Definition disk_no_evidence : gmap Path.t node :=
  {[ ["src"] := Dir; ["src"; "case.c"] := File "int main(void){}" ]}.

(** A name in one part: not empty, not [.], without [/]. *)
Definition plain_name (s : string) : Prop :=
  s ≠ EmptyString ∧ s ≠ "." ∧ Py.contains "/" s = false.

(** * Properties *)

(** ** The builtins on small inputs *)

Example basename_of_path : Py.basename "/src/dir/a.c" = "a.c".
Proof. reflexivity. Qed.

Example basename_of_directory : Py.basename "/src/dir/" = "".
Proof. reflexivity. Qed.

Example is_stmt_in_flags :
  Py.contains "is_stmt" "is_stmt prologue_end" = true
  ∧ Py.contains "is_stmt" "end_sequence" = false.
Proof. split; reflexivity. Qed.

Example sorted_of_set : Py.sorted_set ({[ 9 ]} ∪ {[ 5 ]} ∪ {[ 9 ]}) = [5; 9].
Proof. by vm_compute. Qed.

Example parts_of_name :
  Path.parts "out//./case_O0_D1.out" = ["out"; "case_O0_D1.out"].
Proof. reflexivity. Qed.

Example stem_of_name :
  Path.stem ["src"; "case2.c"] = "case2"
  ∧ Path.stem ["src"; ".hidden"] = ".hidden"
  ∧ Path.stem ["a.tar.gz"] = "a.tar" ∧ Path.stem ["a."] = "a.".
Proof. repeat split; reflexivity. Qed.

Example artifact_name :
  Binary.file_path (Binary.init (CompilerConfig.default_ "clang")
                      ["src"; "case2.c"] ["tmp"; "out"] "s" "3")
  = ["tmp"; "out"; "case2_Os_D3.out"].
Proof. reflexivity. Qed.

Example session_567_in_both_modules :
  value_of (Utils.verify_line_nums session_567 "a.c" "a.out" [5; 6; 9] tt)
  = Ok (Some [5; 6])
  ∧ value_of (Verifier.verify_line_nums session_567 "a.c" "a.out" [5; 6; 9] tt)
    = Ok (Some [5; 6]).
Proof. split; by vm_compute. Qed.

(** ** [sorted] *)

Section Sorted.

Lemma sorted_perm xs : Py.sorted xs ≡ₚ xs.
Proof. apply merge_sort_Permutation. Qed.

Lemma elem_of_sorted x xs : x ∈ Py.sorted xs ↔ x ∈ xs.
Proof. by rewrite sorted_perm. Qed.

Lemma sorted_ascending xs : StronglySorted Z.le (Py.sorted xs).
Proof. apply StronglySorted_merge_sort; apply _. Qed.

Lemma ascending_strict (l : list Z) :
  StronglySorted Z.le l → NoDup l → StronglySorted Z.lt l.
Proof.
  induction 1 as [|x l Hl IH Hx]; intros Hnd; constructor.
  - apply IH. by apply NoDup_cons in Hnd as [_ ?].
  - apply NoDup_cons in Hnd as [Hnotin _].
    rewrite Forall_forall in Hx |- *. intros y Hy.
    apply list_elem_of_In in Hy as Hy'.
    assert (x ≠ y) by (intros ->; contradiction).
    specialize (Hx y Hy). lia.
Qed.

Lemma sorted_set_strict (s : gset Z) : StronglySorted Z.lt (Py.sorted_set s).
Proof.
  apply ascending_strict; [apply sorted_ascending|].
  unfold Py.sorted_set. rewrite sorted_perm. apply NoDup_elements.
Qed.

Lemma elem_of_sorted_set x (s : gset Z) : x ∈ Py.sorted_set s ↔ x ∈ s.
Proof. unfold Py.sorted_set. by rewrite elem_of_sorted, elem_of_elements. Qed.

End Sorted.

(** ** Ordered dictionaries *)

Section OrderedDict.
Context {V : Type}.
Implicit Types (d : OD.odict V) (k : string).

Lemma get_set_eq k v d : OD.get k (OD.set k v d) = Some v.
Proof.
  induction d as [|[k' v'] d IH]; simpl.
  - by rewrite String.eqb_refl.
  - destruct (String.eqb_spec k k') as [->|Hne]; simpl.
    + by rewrite String.eqb_refl.
    + apply String.eqb_neq in Hne. by rewrite Hne.
Qed.

Lemma get_set_ne k k' v d : k ≠ k' → OD.get k' (OD.set k v d) = OD.get k' d.
Proof.
  intros Hne. induction d as [|[k0 v0] d IH]; simpl.
  - destruct (String.eqb_spec k' k); congruence.
  - destruct (String.eqb_spec k k0) as [->|Hne0]; simpl.
    + destruct (String.eqb_spec k' k0); congruence.
    + destruct (String.eqb_spec k' k0); congruence.
Qed.

Lemma get_map {W} (g : V → W) k d :
  OD.get k (map (λ '(file, v), (file, g v)) d) = g <$> OD.get k d.
Proof.
  induction d as [|[k0 v0] d IH]; simpl; [done|].
  destruct (String.eqb k k0); by simpl.
Qed.

Lemma get_Some_elem_of k v d : OD.get k d = Some v → (k, v) ∈ d.
Proof.
  induction d as [|[k0 v0] d IH]; simpl; [done|].
  destruct (String.eqb_spec k k0) as [->|Hne].
  - intros [= ->]. left.
  - intros H. right. auto.
Qed.

End OrderedDict.

(** ** The fold from line-table rows to candidate lines *)

Section LineTableFold.

Import DwarfDumpParser.

Variable file_table : gmap Z file_entry.

Local Abbreviation lines_under := (lines_under file_table).

Lemma add_entry_skip acc entry :
  contributes file_table entry = false → add_entry file_table acc entry = acc.
Proof. unfold add_entry. by intros ->. Qed.

Lemma add_entry_get acc entry file :
  OD.get file (add_entry file_table acc entry) =
  if contributes file_table entry
     && String.eqb file (entry_file_name file_table entry)
  then Some (default ∅ (OD.get file acc) ∪ {[ le_line entry ]})
  else OD.get file acc.
Proof.
  unfold add_entry.
  destruct (contributes file_table entry); simpl; [|done].
  set (name := entry_file_name file_table entry).
  destruct (String.eqb_spec file name) as [->|Hne].
  - rewrite get_set_eq. destruct (OD.get name acc) eqn:Hget.
    + by rewrite Hget.
    + by rewrite get_set_eq.
  - rewrite get_set_ne by congruence.
    destruct (OD.get name acc); [done|]. by rewrite get_set_ne by congruence.
Qed.

Lemma collect_get line_info : ∀ acc file,
  OD.get file (collect file_table line_info acc) =
  lines_under file line_info (OD.get file acc).
Proof.
  unfold collect, lines_under.
  induction line_info as [|entry rest IH]; intros acc file; simpl; [done|].
  by rewrite IH, add_entry_get.
Qed.

Lemma lines_under_Some file line_info : ∀ held s,
  lines_under file line_info held = Some s →
  ∀ x, x ∈ s ↔
    (∃ s0, held = Some s0 ∧ x ∈ s0) ∨
    (∃ entry, entry ∈ line_info ∧ contributes file_table entry = true
              ∧ entry_file_name file_table entry = file
              ∧ le_line entry = x).
Proof.
  unfold lines_under.
  induction line_info as [|entry rest IH]; intros held s; simpl.
  - intros -> x. split; [eauto|].
    intros [(s0 & [= <-] & ?)|(e & He & _)]; [done|]. by apply elem_of_nil in He.
  - intros Hs x. rewrite (IH _ _ Hs x). clear IH Hs.
    destruct (contributes file_table entry) eqn:Hc; simpl.
    + destruct (String.eqb_spec file (entry_file_name file_table entry))
        as [->|Hne].
      * split.
        -- intros [(s0 & [= <-] & Hx)|(e & He & ?)].
           ++ apply elem_of_union in Hx as [Hx|Hx].
              ** left. destruct held; simpl in Hx; [eauto|set_solver].
              ** right. exists entry. split; [left|]. set_solver.
           ++ right. exists e. split; [by right|done].
        -- intros [(s0 & -> & Hx)|(e & He & Hce & Hname & Hline)].
           ++ left. eexists. split; [done|]. set_solver.
           ++ apply elem_of_cons in He as [->|He].
              ** left. eexists. split; [done|]. set_solver.
              ** right. eauto.
      * split.
        -- intros [?|(e & He & ?)]; [by left|].
           right. exists e. split; [by right|done].
        -- intros [?|(e & He & Hce & Hname & Hline)]; [by left|].
           apply elem_of_cons in He as [->|He]; [congruence|]. right. eauto.
    + split.
      * intros [?|(e & He & ?)]; [by left|].
        right. exists e. split; [by right|done].
      * intros [?|(e & He & Hce & Hname & Hline)]; [by left|].
        apply elem_of_cons in He as [->|He]; [congruence|]. right. eauto.
Qed.

Lemma collect_skip pre entry post acc :
  contributes file_table entry = false →
  collect file_table (pre ++ entry :: post) acc =
  collect file_table (pre ++ post) acc.
Proof.
  intros Hc. unfold collect. rewrite !fold_left_app. simpl.
  by rewrite add_entry_skip.
Qed.

Lemma absent_index_no_name entry :
  file_table !! le_file entry = None → entry_file_name file_table entry = "".
Proof. unfold entry_file_name. by intros ->. Qed.

End LineTableFold.

(** C8.  In the fold from line-table rows to candidate lines: a row whose
    file index is not in the file table resolves to the empty name and is
    dropped; a row without the [is_stmt] marker is dropped; the list under
    a file is strictly ascending (duplicates collapse) and holds exactly
    the lines of the contributing rows of that file; two [is_stmt] rows at
    (file 1, line 10) with index 1 mapped to ["a.c"] give [{10}] for
    ["a.c"]. *)
Theorem C8_candidate_lines_fold
    (file_table : gmap Z file_entry) (line_info : list line_entry) :
  (∀ entry pre post,
     file_table !! le_file entry = None →
     DwarfDumpParser.entry_file_name file_table entry = ""
     ∧ DwarfDumpParser.get_line_numbers_by_file file_table
         (pre ++ entry :: post)
       = DwarfDumpParser.get_line_numbers_by_file file_table (pre ++ post))
  ∧ (∀ entry pre post,
       Py.contains "is_stmt" (le_flags entry) = false →
       DwarfDumpParser.get_line_numbers_by_file file_table
         (pre ++ entry :: post)
       = DwarfDumpParser.get_line_numbers_by_file file_table (pre ++ post))
  ∧ (∀ file lines,
       OD.get file
         (DwarfDumpParser.get_line_numbers_by_file file_table line_info)
       = Some lines →
       StronglySorted Z.lt lines
       ∧ ∀ x, x ∈ lines ↔
           ∃ entry, entry ∈ line_info
             ∧ Py.contains "is_stmt" (le_flags entry) = true
             ∧ DwarfDumpParser.entry_file_name file_table entry = file
             ∧ file ≠ ""
             ∧ le_line entry = x)
  ∧ (∀ row1 row2 dir,
       file_table !! 1 = Some (FileEntry (Some "a.c") dir) →
       le_file row1 = 1 → le_line row1 = 10 →
       Py.contains "is_stmt" (le_flags row1) = true →
       le_file row2 = 1 → le_line row2 = 10 →
       Py.contains "is_stmt" (le_flags row2) = true →
       DwarfDumpParser.get_line_numbers_by_file file_table [row1; row2]
       = [("a.c", [10])]).
Proof.
  split; [|split; [|split]].
  - intros entry pre post Habs.
    pose proof (absent_index_no_name _ _ Habs) as Hname. split; [done|].
    unfold DwarfDumpParser.get_line_numbers_by_file.
    rewrite collect_skip; [done|].
    unfold DwarfDumpParser.contributes. by rewrite Hname.
  - intros entry pre post Hflags.
    unfold DwarfDumpParser.get_line_numbers_by_file.
    rewrite collect_skip; [done|].
    unfold DwarfDumpParser.contributes. rewrite Hflags. apply andb_false_r.
  - intros file lines.
    unfold DwarfDumpParser.get_line_numbers_by_file.
    rewrite get_map, collect_get. simpl.
    destruct (lines_under file_table file line_info None) as [s|] eqn:Hs;
      [|done].
    intros [= <-]. split; [apply sorted_set_strict|].
    intros x. rewrite elem_of_sorted_set, (lines_under_Some _ _ _ _ _ Hs x).
    split.
    + intros [(s0 & ? & _)|(entry & He & Hc & Hname & Hline)]; [done|].
      exists entry. unfold DwarfDumpParser.contributes in Hc.
      apply andb_true_iff in Hc as [Ht Hf].
      repeat split; try done. intros ->. rewrite Hname in Ht. done.
    + intros (entry & He & Hf & Hname & Hne & Hline). right.
      exists entry. repeat split; try done.
      unfold DwarfDumpParser.contributes. rewrite Hf, Hname.
      by destruct file.
  - intros row1 row2 dir Hft Hf1 Hl1 Hs1 Hf2 Hl2 Hs2.
    unfold DwarfDumpParser.get_line_numbers_by_file, DwarfDumpParser.collect.
    simpl. unfold DwarfDumpParser.add_entry, DwarfDumpParser.contributes,
      DwarfDumpParser.entry_file_name.
    rewrite Hf1, Hf2, Hft, Hl1, Hl2, Hs1, Hs2. by vm_compute.
Qed.

(** C8 at the dump of the specification: the rows at addresses 0x1000
    and 0x1004, a row of an unknown file 7 and a row without [is_stmt]. *)
Lemma C8_candidate_lines_fold_witness :
  DwarfDumpParser.get_line_numbers_by_file dump_file_table
    [dump_row1; dump_row_unknown_file; dump_row_no_stmt; dump_row2]
  = [("a.c", [10])]
  ∧ DwarfDumpParser.entry_file_name dump_file_table dump_row_unknown_file = ""
  ∧ StronglySorted Z.lt [10].
Proof.
  destruct (C8_candidate_lines_fold dump_file_table
              [dump_row1; dump_row2]) as (Habsent & Hstmt & Hget & Hex).
  split; [|split].
  - etrans; [exact (proj2 (Habsent dump_row_unknown_file [dump_row1]
                             [dump_row_no_stmt; dump_row2] eq_refl))|].
    etrans; [exact (Hstmt dump_row_no_stmt [dump_row1] [dump_row2] eq_refl)|].
    exact (Hex dump_row1 dump_row2 (Some 0) eq_refl eq_refl eq_refl eq_refl
             eq_refl eq_refl eq_refl).
  - exact (proj1 (Habsent dump_row_unknown_file [] [] eq_refl)).
  - refine (proj1 (Hget "a.c" [10] _)).
    exact (f_equal (OD.get "a.c")
             (Hex dump_row1 dump_row2 (Some 0) eq_refl eq_refl eq_refl eq_refl
                eq_refl eq_refl eq_refl)).
Defined.

(** ** One verification session *)

(** Unfolding the monad. *)
Ltac unfold_monad :=
  unfold mbind, mret, M_bind, M_ret, bind, ret, raise, lift, api,
    try_except, try_finally, in_frame, locals, assign_target, assign_process,
    value_of, state_of, calls_of in *.

Section Session.

Variable w : session.
Variable source_file : string.

Lemma create_breakpoints_lines line_numbers : ∀ n bps0 f bps f' c,
  create_breakpoints w source_file line_numbers n bps0 f = (Ok bps, f', c) →
  ∀ bp line, (bp, line) ∈ bps → (bp, line) ∈ bps0 ∨ line ∈ line_numbers.
Proof.
  induction line_numbers as [|line_number rest IH];
    intros n bps0 f bps f' c; simpl; unfold_monad.
  - intros [= <- _ _]; auto.
  - destruct (ss_breakpoint w n line_number) as [valid|e]; [|done].
    destruct (create_breakpoints _ _ rest _ _ f) as [[[bps'|e] f1] c1] eqn:Hrest;
      [|done].
    intros [= <- _ _] bp line Hin.
    destruct (IH _ _ _ _ _ _ Hrest bp line Hin) as [Hold|Hnew].
    + destruct valid; [|by left].
      apply elem_of_app in Hold as [?|Hlast]; [by left|].
      apply list_elem_of_singleton in Hlast as [= -> ->]. right; left.
    + right; by right.
Qed.

Lemma record_hit_elem bps hit_count line_number_hit verified x :
  x ∈ record_hit bps hit_count line_number_hit verified →
  x ∈ verified ∨ ∃ bp, (bp, x) ∈ bps.
Proof.
  induction bps as [|[bp line_number] rest IH]; simpl; [by left|].
  destruct (_ && _).
  - intros [?| ->%elem_of_singleton]%elem_of_union; [by left|].
    right. exists bp. left.
  - intros [?|[bp' ?]]%IH; [by left|]. right. exists bp'. by right.
Qed.

Lemma stop_loop_elem bps stops : ∀ verified f verified' f' c,
  stop_loop stops bps verified f = (Ok verified', f', c) →
  ∀ x, x ∈ verified' → x ∈ verified ∨ ∃ bp, (bp, x) ∈ bps.
Proof.
  induction stops as [|s rest IH]; intros verified f verified' f' c; simpl;
    unfold_monad.
  - intros [= <- _ _]; auto.
  - destruct s as [line_number_hit hit_count| |e]; [| |done].
    + destruct (stop_loop rest _ _ f) as [[[v1|e] f1] c1] eqn:Hrest; [|done].
      intros [= <- _ _] x Hx.
      destruct (IH _ _ _ _ _ Hrest x Hx) as [Hv|?]; [|by right].
      by apply record_hit_elem in Hv.
    + destruct (stop_loop rest _ _ f) as [[[v1|e] f1] c1] eqn:Hrest; [|done].
      intros [= <- _ _] x Hx. eauto.
Qed.

Lemma utils_returned file_path line_numbers l :
  value_of (Utils.verify_line_nums w source_file file_path line_numbers tt)
    = Ok (Some l) →
  made_of_session w source_file line_numbers l.
Proof.
  unfold Utils.verify_line_nums, Utils._lldb_session. unfold_monad. simpl.
  destruct (ss_target w) as [[|]|]; simpl; [| |]; try done.
  destruct (create_breakpoints _ _ _ _ _ _) as [[[bps|e] f1] c1] eqn:Hbps;
    simpl; [|].
  all: try (destruct (v_process f1) as [[|]|], (v_target f1) as [[|]|];
            simpl; done).
  destruct (ss_launch w) as [[|]|]; simpl.
  all: try (destruct (v_process f1) as [[|]|], (v_target f1) as [[|]|];
            simpl; done).
  destruct (stop_loop _ _ _ _) as [[[verified|e] f2] c2] eqn:Hloop; simpl.
  all: try (destruct (v_process f2) as [[|]|], (v_target f2) as [[|]|];
            simpl; done).
  intros Hl. exists bps, verified. do 6 eexists. split; [exact Hbps|].
  split; [exact Hloop|].
  destruct (v_process f2) as [[|]|], (v_target f2) as [[|]|];
    simpl in Hl; congruence.
Qed.

Lemma verifier_returned file_path line_numbers l :
  value_of (Verifier.verify_line_nums w source_file file_path line_numbers tt)
    = Ok (Some l) →
  made_of_session w source_file line_numbers l.
Proof.
  unfold Verifier.verify_line_nums, Verifier._cleanup, Verifier.read_local.
  unfold_monad. simpl.
  destruct (ss_target w) as [[|]|]; simpl; [| |]; try done.
  destruct (create_breakpoints _ _ _ _ _ _) as [[[bps|e] f1] c1] eqn:Hbps;
    simpl; [|].
  all: try (destruct (v_process f1) as [[|]|], (v_target f1) as [[|]|];
            simpl; done).
  destruct (ss_launch w) as [[|]|]; simpl.
  all: try (destruct (v_process f1) as [[|]|], (v_target f1) as [[|]|];
            simpl; done).
  destruct (stop_loop _ _ _ _) as [[[verified|e] f2] c2] eqn:Hloop; simpl.
  all: try (destruct (v_process f2) as [[|]|], (v_target f2) as [[|]|];
            simpl; done).
  intros Hl. exists bps, verified. do 6 eexists. split; [exact Hbps|].
  split; [exact Hloop|].
  destruct (v_process f2) as [[|]|], (v_target f2) as [[|]|];
    simpl in Hl; congruence.
Qed.

Lemma made_of_session_subset line_numbers l :
  made_of_session w source_file line_numbers l →
  (∀ x, x ∈ l → x ∈ line_numbers) ∧ StronglySorted Z.le l ∧ NoDup l.
Proof.
  intros (bps & verified & f1 & f2 & f3 & f4 & c1 & c2 & Hbps & Hloop & ->).
  split; [|split].
  - intros x Hx. apply elem_of_sorted, elem_of_elements in Hx.
    destruct (stop_loop_elem _ _ _ _ _ _ _ Hloop x Hx) as [?|[bp Hbp]];
      [set_solver|].
    destruct (create_breakpoints_lines _ _ _ _ _ _ _ Hbps bp x Hbp)
      as [Hnil|?]; [|done].
    by apply elem_of_nil in Hnil.
  - apply sorted_ascending.
  - rewrite sorted_perm. apply NoDup_elements.
Qed.

End Session.

(** ** How a session ends *)

Section SessionEnd.

Variable w : session.
Variable source_file : string.

Lemma create_breakpoints_frame line_numbers : ∀ n bps f,
  state_of (create_breakpoints w source_file line_numbers n bps f) = f.
Proof.
  induction line_numbers as [|line_number rest IH]; intros n bps f; simpl;
    unfold_monad; [done|].
  destruct (ss_breakpoint w n line_number) as [valid|e]; [|done].
  specialize (IH (S n) (if valid then bps ++ [(n, line_number)] else bps) f).
  by destruct (create_breakpoints _ _ rest _ _ f) as [[r f1] c1].
Qed.

Lemma create_breakpoints_answer line_numbers :
  breakpoints_answer w → ∀ n bps f,
  ∃ bps' c,
    create_breakpoints w source_file line_numbers n bps f = (Ok bps', f, c).
Proof.
  intros Hans. induction line_numbers as [|line_number rest IH];
    intros n bps f; simpl; unfold_monad; [by eauto|].
  destruct (Hans n line_number) as [valid ->].
  destruct (IH (S n) (if valid then bps ++ [(n, line_number)] else bps) f)
    as (bps' & c & ->). eauto.
Qed.

Lemma stop_loop_frame bps stops : ∀ verified f,
  state_of (stop_loop stops bps verified f) = f.
Proof.
  induction stops as [|s rest IH]; intros verified f; simpl; unfold_monad;
    [done|].
  destruct s as [line_number_hit hit_count| |e]; [| |done].
  - specialize (IH (record_hit bps hit_count line_number_hit verified) f).
    by destruct (stop_loop rest _ _ f) as [[r f1] c1].
  - specialize (IH verified f).
    by destruct (stop_loop rest _ _ f) as [[r f1] c1].
Qed.

Lemma stop_loop_total bps stops verified f :
  ∃ r c, stop_loop stops bps verified f = (r, f, c).
Proof.
  pose proof (stop_loop_frame bps stops verified f) as H.
  destruct (stop_loop stops bps verified f) as [[r f1] c1].
  unfold state_of in H; simpl in H; subst. eauto.
Qed.

Lemma stop_loop_fault bps e before after : ∀ verified f,
  Forall (λ s, is_fault s = false) before →
  value_of (stop_loop (before ++ StopFault e :: after) bps verified f)
    = Raise e.
Proof.
  induction before as [|s rest IH]; intros verified f Hbefore; simpl;
    unfold_monad; [done|].
  apply Forall_cons in Hbefore as [Hs Hrest].
  destruct s as [line_number_hit hit_count| |e']; [| |done].
  - specialize (IH (record_hit bps hit_count line_number_hit verified) f Hrest).
    by destruct (stop_loop _ _ _ f) as [[[v|e''] f1] c1].
  - specialize (IH verified f Hrest).
    by destruct (stop_loop _ _ _ f) as [[[v|e''] f1] c1].
Qed.

Section Outcomes.

Variables (file_path : string) (line_numbers : list Z).

Lemma utils_invalid_target :
  ss_target w = Ok false →
  value_of (Utils.verify_line_nums w source_file file_path line_numbers tt)
    = Raise (RuntimeError "Invalid target").
Proof.
  intros H. unfold Utils.verify_line_nums, Utils._lldb_session.
  unfold_monad. simpl. by rewrite H.
Qed.

Lemma utils_launch_failure :
  ss_target w = Ok true → breakpoints_answer w → ss_launch w = Ok false →
  value_of (Utils.verify_line_nums w source_file file_path line_numbers tt)
    = Ok None.
Proof.
  intros Ht Hb Hl. unfold Utils.verify_line_nums, Utils._lldb_session.
  unfold_monad. simpl. rewrite Ht. simpl.
  destruct (create_breakpoints_answer line_numbers Hb 0%nat []
              (Frame (Some true) None)) as (bps & c & ->).
  simpl. by rewrite Hl.
Qed.

Lemma utils_loop_exception e :
  ss_target w = Ok true → breakpoints_answer w → ss_launch w = Ok true →
  first_fault w e →
  value_of (Utils.verify_line_nums w source_file file_path line_numbers tt)
    = Raise e.
Proof.
  intros Ht Hb Hl (before & after & Hstops & Hbefore).
  unfold Utils.verify_line_nums, Utils._lldb_session.
  unfold_monad. simpl. rewrite Ht. simpl.
  destruct (create_breakpoints_answer line_numbers Hb 0%nat []
              (Frame (Some true) None)) as (bps & c & ->).
  simpl. rewrite Hl. simpl. rewrite Hstops.
  pose proof (stop_loop_fault bps e before after ∅
                (Frame (Some true) None) Hbefore) as Hraise.
  destruct (stop_loop_total bps (before ++ StopFault e :: after) ∅
              (Frame (Some true) None)) as (r & c' & Hrun).
  rewrite Hrun in Hraise |- *. unfold value_of in Hraise. simpl in *.
  by subst.
Qed.

Lemma verifier_launched_returns valid :
  ss_target w = Ok true → breakpoints_answer w → ss_launch w = Ok valid →
  ∃ r,
    value_of (Verifier.verify_line_nums w source_file file_path
                line_numbers tt) = Ok r
    ∧ (valid = false → r = None)
    ∧ (∀ e, first_fault w e → r = None).
Proof.
  intros Ht Hb Hl.
  unfold Verifier.verify_line_nums, Verifier._cleanup, Verifier.read_local.
  unfold_monad. simpl. rewrite Ht. simpl.
  destruct (create_breakpoints_answer line_numbers Hb 0%nat []
              (Frame (Some true) None)) as (bps & c & ->).
  simpl. rewrite Hl. simpl. destruct valid; simpl.
  - destruct (stop_loop_total bps (ss_stops w) ∅
                (Frame (Some true) (Some true))) as (r & c' & Hrun).
    rewrite Hrun. destruct r as [verified|e0]; simpl.
    + eexists. split; [done|]. split; [done|].
      intros e (before & after & Hstops & Hbefore).
      pose proof (stop_loop_fault bps e before after ∅
                    (Frame (Some true) (Some true)) Hbefore) as Hraise.
      rewrite <- Hstops, Hrun in Hraise. done.
    + eexists. split; [done|]. done.
  - eexists. split; [done|]. done.
Qed.

End Outcomes.

End SessionEnd.

(** C1.  Whatever the debugger does, a list returned by
    [verify_line_nums] (of [utils.py] or of [get_line_nums.py]) holds
    only candidate lines, in ascending order, each once. *)
Theorem C1_verified_subset_sorted (w : session)
    (source_file file_path : string) (line_numbers l : list Z) :
  value_of (Utils.verify_line_nums w source_file file_path line_numbers tt)
    = Ok (Some l)
  ∨ value_of (Verifier.verify_line_nums w source_file file_path line_numbers tt)
    = Ok (Some l) →
  (∀ x, x ∈ l → x ∈ line_numbers) ∧ StronglySorted Z.le l ∧ NoDup l.
Proof.
  intros [H|H]; eapply made_of_session_subset.
  - eapply utils_returned, H.
  - eapply verifier_returned, H.
Qed.

(** C1 on the run through lines 5, 6, 7 with candidates 5, 6, 9. *)
Lemma C1_verified_subset_sorted_witness :
  value_of (Utils.verify_line_nums session_567 "a.c" "a.out" [5; 6; 9] tt)
    = Ok (Some [5; 6])
  ∧ (∀ x, x ∈ [5; 6] → x ∈ [5; 6; 9])
  ∧ StronglySorted Z.le [5; 6] ∧ NoDup [5; 6].
Proof.
  split; [by vm_compute|].
  apply (C1_verified_subset_sorted session_567 "a.c" "a.out" [5; 6; 9] [5; 6]).
  left. by vm_compute.
Defined.

(** ** Keys of the candidate dictionary *)

Section Keys.
Context {V : Type}.
Implicit Types (d : OD.odict V) (k : string).

Lemma get_None_keys k d : OD.get k d = None ↔ k ∉ OD.keys d.
Proof.
  unfold OD.keys. induction d as [|[k0 v0] d IH]; simpl.
  - split; [intros _; apply not_elem_of_nil|done].
  - rewrite not_elem_of_cons.
    destruct (String.eqb_spec k k0) as [->|Hne].
    + split; [done|]. by intros [? _].
    + rewrite IH. split; [done|]. by intros [_ ?].
Qed.

Lemma keys_set k v d :
  OD.keys (OD.set k v d) =
  if bool_decide (k ∈ OD.keys d) then OD.keys d else OD.keys d ++ [k].
Proof.
  unfold OD.keys. induction d as [|[k0 v0] d IH]; simpl; [done|].
  destruct (String.eqb_spec k k0) as [->|Hne]; simpl.
  - rewrite bool_decide_eq_true_2; [done|left].
  - rewrite IH. destruct (decide (k ∈ map fst d)) as [Hin|Hin].
    + rewrite !bool_decide_eq_true_2; [done|by right|done].
    + rewrite !bool_decide_eq_false_2; [done| |done].
      rewrite not_elem_of_cons. done.
Qed.

Lemma keys_set_NoDup k v d : NoDup (OD.keys d) → NoDup (OD.keys (OD.set k v d)).
Proof.
  intros Hnd. rewrite keys_set. case_bool_decide; [done|].
  apply NoDup_app. split; [done|]. split; [|apply NoDup_singleton].
  intros x Hx ->%list_elem_of_singleton. done.
Qed.

Lemma get_elem_of_NoDup k v d :
  NoDup (OD.keys d) → (k, v) ∈ d → OD.get k d = Some v.
Proof.
  unfold OD.keys. induction d as [|[k0 v0] d IH]; simpl.
  - intros _ H. by apply elem_of_nil in H.
  - intros [Hk0 Hnd]%NoDup_cons [[= -> ->]|Hin]%elem_of_cons.
    + by rewrite String.eqb_refl.
    + destruct (String.eqb_spec k k0) as [->|Hne]; [|by apply IH].
      exfalso. apply Hk0. apply list_elem_of_In, in_map_iff.
      exists (k0, v). split; [done|]. by apply list_elem_of_In.
Qed.

End Keys.

Lemma candidate_keys_NoDup file_table line_info :
  NoDup (OD.keys (DwarfDumpParser.get_line_numbers_by_file file_table line_info)).
Proof.
  unfold DwarfDumpParser.get_line_numbers_by_file, DwarfDumpParser.collect.
  assert (∀ acc, NoDup (OD.keys acc) →
            NoDup (OD.keys (fold_left (DwarfDumpParser.add_entry file_table)
                              line_info acc))) as Hfold.
  { induction line_info as [|entry rest IH]; intros acc Hacc; simpl; [done|].
    apply IH. unfold DwarfDumpParser.add_entry.
    destruct (DwarfDumpParser.contributes _ _); [|done].
    apply keys_set_NoDup. destruct (OD.get _ acc); [done|].
    by apply keys_set_NoDup. }
  specialize (Hfold [] (NoDup_nil_2)).
  revert Hfold. generalize (fold_left (DwarfDumpParser.add_entry file_table) line_info []).
  intros d. unfold OD.keys. rewrite map_map.
  assert (map (λ x, (let '(file, lines) := x in (file, Py.sorted_set lines)).1) d
          = map fst d) as ->; [|done].
  apply map_ext. by intros [].
Qed.

(** ** All compile units of one binary *)

Section GetLineNumsFacts.

Variable V : session → string → string → list Z → M unit (option (list Z)).
Variable env : binary_env.
Variable binary_file : string.

Local Abbreviation verified f lines :=
  (value_of (V (env_lldb env f) f binary_file lines tt)).

Lemma truthy_lines_Some r :
  truthy_lines r = true → ∃ l, r = Some l ∧ l ≠ [].
Proof. destruct r as [[|x l]|]; simpl; try done. intros _. by eexists. Qed.

Lemma verify_files_get srcs items : ∀ acc d c,
  verify_files V env binary_file srcs items acc tt = (Ok d, tt, c) →
  ∀ f l, OD.get f d = Some l →
    OD.get f acc = Some l
    ∨ ∃ lines, (f, lines) ∈ items ∧ f ∈ srcs
               ∧ verified f lines = Ok (Some l) ∧ l ≠ [].
Proof.
  induction items as [|[source_file line_numbers] rest IH];
    intros acc d c; simpl; unfold_monad.
  - intros [= <- _] f l Hget. by left.
  - case_bool_decide as Hsrc.
    + destruct (V _ _ _ _ tt) as [[[r|e] []] c1] eqn:HV; [|done].
      destruct (verify_files _ _ _ _ rest _ tt) as [[[d'|e] []] c2] eqn:Hrest;
        [|done].
      intros [= <- _] f l Hget.
      destruct (IH _ _ _ Hrest f l Hget) as [Hacc|(lines & ? & ? & ? & ?)].
      * destruct (truthy_lines r) eqn:Ht; [|by left].
        apply truthy_lines_Some in Ht as (l0 & -> & Hne). simpl in Hacc.
        destruct (decide (source_file = f)) as [->|Hother].
        -- rewrite get_set_eq in Hacc. injection Hacc as ->.
           right. exists line_numbers. rewrite HV.
           repeat split; try done. left.
        -- rewrite get_set_ne in Hacc by done. by left.
      * right. exists lines. repeat split; try done. by right.
    + intros Hrest f l Hget.
      destruct (IH _ _ _ Hrest f l Hget) as [?|(lines & ? & ? & ? & ?)];
        [by left|].
      right. exists lines. repeat split; try done. by right.
Qed.

Lemma verify_files_all_return srcs items : ∀ acc d c,
  verify_files V env binary_file srcs items acc tt = (Ok d, tt, c) →
  ∀ g lines, (g, lines) ∈ items → g ∈ srcs → ∃ r, verified g lines = Ok r.
Proof.
  induction items as [|[source_file line_numbers] rest IH];
    intros acc d c; simpl; unfold_monad.
  - intros _ g lines Hin. by apply elem_of_nil in Hin.
  - case_bool_decide as Hsrc.
    + destruct (V _ _ _ _ tt) as [[[r|e] []] c1] eqn:HV; [|done].
      destruct (verify_files _ _ _ _ rest _ tt) as [[[d'|e] []] c2] eqn:Hrest;
        [|done].
      intros _ g lines [[= -> ->]|Hin]%elem_of_cons Hg.
      * rewrite HV. by eexists.
      * eapply IH; eauto.
    + intros Hrest g lines [[= -> ->]|Hin]%elem_of_cons Hg; [done|].
      eapply IH; eauto.
Qed.

Lemma verify_files_other srcs items : ∀ acc d c,
  verify_files V env binary_file srcs items acc tt = (Ok d, tt, c) →
  ∀ g, g ∉ OD.keys items → OD.get g d = OD.get g acc.
Proof.
  induction items as [|[source_file line_numbers] rest IH];
    intros acc d c; simpl; unfold_monad.
  - by intros [= <- _].
  - intros Hrun g [Hne Hg]%not_elem_of_cons. simpl in Hne.
    case_bool_decide as Hsrc.
    + destruct (V _ _ _ _ tt) as [[[r|e] []] c1] eqn:HV; [|done].
      destruct (verify_files _ _ _ _ rest _ tt) as [[[d'|e] []] c2] eqn:Hrest;
        [|done].
      injection Hrun as <- _. rewrite (IH _ _ _ Hrest g Hg).
      destruct (truthy_lines r); [|done]. by rewrite get_set_ne.
    + by rewrite (IH _ _ _ Hrun g Hg).
Qed.

Lemma verify_files_kept srcs items : ∀ acc d c,
  NoDup (OD.keys items) →
  verify_files V env binary_file srcs items acc tt = (Ok d, tt, c) →
  ∀ g lines l, (g, lines) ∈ items → g ∈ srcs →
    verified g lines = Ok (Some l) → l ≠ [] → OD.get g d = Some l.
Proof.
  induction items as [|[source_file line_numbers] rest IH];
    intros acc d c Hnd; simpl; unfold_monad.
  - intros _ g lines l Hin. by apply elem_of_nil in Hin.
  - simpl in Hnd. apply NoDup_cons in Hnd as [Hfresh Hnd].
    intros Hrun g lines l [[= -> ->]|Hin]%elem_of_cons Hg Hv Hl.
    + rewrite bool_decide_eq_true_2 in Hrun by done.
      rewrite (surjective_pairing (V _ _ _ _ tt)) in Hrun.
      rewrite (surjective_pairing (V _ _ _ _ tt).1) in Hrun.
      unfold value_of in Hv. rewrite Hv in Hrun.
      destruct ((V _ _ _ _ tt).1.2).
      destruct (verify_files _ _ _ _ rest _ tt) as [[[d'|e] []] c2] eqn:Hrest;
        [|done].
      injection Hrun as <- _.
      rewrite (verify_files_other _ _ _ _ _ Hrest _ Hfresh).
      destruct l; [done|]. simpl. apply get_set_eq.
    + case_bool_decide as Hsrc.
      * destruct (V _ _ _ _ tt) as [[[r|e] []] c1] eqn:HV; [|done].
        destruct (verify_files _ _ _ _ rest _ tt) as [[[d'|e] []] c2] eqn:Hrest;
          [|done].
        injection Hrun as <- _. eapply IH; eauto.
      * eapply IH; eauto.
Qed.

Lemma verify_files_returns srcs items :
  (∀ g lines, (g, lines) ∈ items → g ∈ srcs →
     ∃ r, verified g lines = Ok r) →
  ∀ acc, ∃ d c,
    verify_files V env binary_file srcs items acc tt = (Ok d, tt, c).
Proof.
  induction items as [|[source_file line_numbers] rest IH];
    intros Hall acc; simpl; unfold_monad; [by eauto|].
  assert (∀ g lines, (g, lines) ∈ rest → g ∈ srcs →
            ∃ r, verified g lines = Ok r) as Hrest.
  { intros g lines Hin. apply Hall. by right. }
  case_bool_decide as Hsrc; [|by apply IH].
  destruct (Hall source_file line_numbers) as [r Hr]; [left|done|].
  unfold value_of in Hr.
  destruct (V _ _ _ _ tt) as [[r' []] c1]. simpl in Hr. subst r'.
  destruct (IH Hrest (if truthy_lines r
                      then OD.set source_file (default [] r) acc else acc))
    as (d & c & ->). eauto.
Qed.

Lemma get_line_nums_returns :
  ∃ d, value_of (get_line_nums V env binary_file tt) = Ok d.
Proof.
  unfold get_line_nums. unfold_monad.
  destruct (env_source_files env) as [srcs|e]; simpl; [|by eexists].
  destruct (env_debug_line env) as [parsed|e]; simpl; [|by eexists].
  destruct (verify_files _ _ _ _ _ _ tt) as [[[d|e] []] c]; simpl; by eexists.
Qed.

Lemma get_line_nums_cases srcs parsed d :
  env_source_files env = Ok srcs → env_debug_line env = Ok parsed →
  value_of (get_line_nums V env binary_file tt) = Ok d →
  (∃ c, verify_files V env binary_file srcs
          (DwarfDumpParser.get_line_numbers_by_file parsed.1 parsed.2) []
          tt = (Ok d, tt, c))
  ∨ (d = [] ∧ ∃ e, value_of (verify_files V env binary_file srcs
          (DwarfDumpParser.get_line_numbers_by_file parsed.1 parsed.2) []
          tt) = Raise e).
Proof.
  intros Hs Hp. unfold get_line_nums. unfold_monad. rewrite Hs, Hp. simpl.
  destruct (verify_files _ _ _ _ _ _ tt) as [[[d'|e] []] c]; simpl.
  - intros [= <-]. left. by eexists.
  - intros [= <-]. right. split; [done|]. by eexists.
Qed.

Lemma get_line_nums_get d f l :
  value_of (get_line_nums V env binary_file tt) = Ok d →
  OD.get f d = Some l →
  l ≠ [] ∧ ∃ lines, verified f lines = Ok (Some l).
Proof.
  unfold get_line_nums. unfold_monad.
  destruct (env_source_files env) as [srcs|e]; simpl; [|by intros [= <-]].
  destruct (env_debug_line env) as [parsed|e]; simpl; [|by intros [= <-]].
  destruct (verify_files _ _ _ _ _ _ tt) as [[[d'|e] []] c] eqn:Hrun; simpl;
    [|by intros [= <-]].
  intros [= <-] Hget.
  destruct (verify_files_get _ _ _ _ _ Hrun f l Hget)
    as [?|(lines & _ & _ & Hv & Hl)]; [done|]. eauto.
Qed.

End GetLineNumsFacts.

(** A file whose verification, on its own candidate lines, does not
    return a non-empty list is not in the mapping. *)
Lemma get_line_nums_omits
    (V : session → string → string → list Z → M unit (option (list Z)))
    (env : binary_env) (binary_file : string) source_files parsed d f lines :
  env_source_files env = Ok source_files →
  env_debug_line env = Ok parsed →
  value_of (get_line_nums V env binary_file tt) = Ok d →
  (f, lines) ∈ DwarfDumpParser.get_line_numbers_by_file parsed.1 parsed.2 →
  truthy_lines
    (match value_of (V (env_lldb env f) f binary_file lines tt) with
     | Ok r => r
     | Raise _ => None
     end) = false →
  OD.get f d = None.
Proof.
  intros Hs Hp Hd Hin Hfalsy.
  destruct (get_line_nums_cases _ _ _ _ _ _ Hs Hp Hd)
    as [[c Hrun]|[-> _]]; [|done].
  destruct (OD.get f d) as [l|] eqn:Hget; [|done]. exfalso.
  destruct (verify_files_get _ _ _ _ _ _ _ _ Hrun f l Hget)
    as [?|(lines' & Hin' & _ & Hv & Hl)]; [done|].
  assert (lines' = lines) as ->.
  { pose proof (candidate_keys_NoDup parsed.1 parsed.2) as Hnd.
    apply get_elem_of_NoDup in Hin, Hin'; [|done..]. congruence. }
  rewrite Hv in Hfalsy. by destruct l.
Qed.

(** C10.  [get_line_nums] (of either module) always returns a mapping;
    no file is mapped to the empty list: a file is in the mapping only
    with the non-empty list that the verification of its own candidate
    lines returned.  So a file whose verification, on its own candidate
    lines, raised, returned [None] or returned [[]] is absent, and so is
    every file when the compile units or the line table cannot be
    read: an empty verified set and a failure give the same mapping. *)
Theorem C10_no_empty_entry
    (V : session → string → string → list Z → M unit (option (list Z)))
    (env : binary_env) (binary_file : string) :
  V = Utils.verify_line_nums ∨ V = Verifier.verify_line_nums →
  ∃ d, value_of (get_line_nums V env binary_file tt) = Ok d
    ∧ (∀ f l, OD.get f d = Some l →
         l ≠ []
         ∧ ∃ source_files parsed lines,
             env_source_files env = Ok source_files
             ∧ env_debug_line env = Ok parsed
             ∧ f ∈ source_files
             ∧ (f, lines) ∈ DwarfDumpParser.get_line_numbers_by_file
                              parsed.1 parsed.2
             ∧ value_of (V (env_lldb env f) f binary_file lines tt)
               = Ok (Some l))
    ∧ (∀ source_files parsed f lines,
         env_source_files env = Ok source_files →
         env_debug_line env = Ok parsed →
         (f, lines) ∈ DwarfDumpParser.get_line_numbers_by_file
                        parsed.1 parsed.2 →
         (∃ e, value_of (V (env_lldb env f) f binary_file lines tt)
               = Raise e)
         ∨ value_of (V (env_lldb env f) f binary_file lines tt) = Ok None
         ∨ value_of (V (env_lldb env f) f binary_file lines tt)
           = Ok (Some []) →
         OD.get f d = None)
    ∧ (∀ f, (∀ source_files parsed lines,
               env_source_files env = Ok source_files →
               env_debug_line env = Ok parsed →
               (f, lines) ∉ DwarfDumpParser.get_line_numbers_by_file
                              parsed.1 parsed.2) →
            OD.get f d = None).
Proof.
  intros _. destruct (get_line_nums_returns V env binary_file) as [d Hd].
  exists d. split; [done|].
  assert (∀ f l, OD.get f d = Some l →
            l ≠ []
            ∧ ∃ source_files parsed lines,
                env_source_files env = Ok source_files
                ∧ env_debug_line env = Ok parsed
                ∧ f ∈ source_files
                ∧ (f, lines) ∈ DwarfDumpParser.get_line_numbers_by_file
                                 parsed.1 parsed.2
                ∧ value_of (V (env_lldb env f) f binary_file lines tt)
                  = Ok (Some l)) as Hentry.
  { intros f l Hget.
    destruct (env_source_files env) as [source_files|e] eqn:Hs.
    2: { unfold get_line_nums in Hd. unfold_monad. rewrite Hs in Hd.
         simpl in Hd. injection Hd as <-. done. }
    destruct (env_debug_line env) as [parsed|e] eqn:Hp.
    2: { unfold get_line_nums in Hd. unfold_monad. rewrite Hs, Hp in Hd.
         simpl in Hd. injection Hd as <-. done. }
    destruct (get_line_nums_cases _ _ _ _ _ _ Hs Hp Hd)
      as [[c Hrun]|[-> _]]; [|done].
    destruct (verify_files_get _ _ _ _ _ _ _ _ Hrun f l Hget)
      as [?|(lines & Hin & Hsrc & Hv & Hl)]; [done|].
    split; [done|]. by exists source_files, parsed, lines. }
  split; [exact Hentry|]. split.
  - intros source_files parsed f lines Hs Hp Hin Hfail.
    eapply get_line_nums_omits; eauto.
    destruct Hfail as [[e ->]|[->| ->]]; done.
  - intros f Hout. destruct (OD.get f d) as [l|] eqn:Hget; [|done].
    destruct (Hentry f l Hget)
      as (_ & source_files & parsed & lines & Hs & Hp & _ & Hin & _).
    by destruct (Hout source_files parsed lines Hs Hp).
Qed.

(** C10 on a binary whose second unit fails to launch and whose third
    unit hits no breakpoint: only the first unit is in the mapping. *)
Lemma C10_no_empty_entry_witness :
  value_of (get_line_nums Utils.verify_line_nums env_quiet "a.out" tt)
    = Ok [("a.c", [5; 6])]
  ∧ ∃ d, value_of (get_line_nums Utils.verify_line_nums env_quiet "a.out" tt)
         = Ok d
      ∧ OD.get "b.c" d = None ∧ OD.get "c.c" d = None.
Proof.
  split; [by vm_compute|].
  destruct (C10_no_empty_entry Utils.verify_line_nums env_quiet "a.out"
              (or_introl eq_refl)) as (d & Hd & _ & Habsent & _).
  assert (DwarfDumpParser.get_line_numbers_by_file three_units.1 three_units.2
          = [("a.c", [5; 6; 9]); ("b.c", [7]); ("c.c", [3])]) as Hitems
    by (by vm_compute).
  exists d. split; [done|]. split.
  - apply (Habsent ["a.c"; "b.c"; "c.c"] three_units "b.c" [7] eq_refl eq_refl).
    + rewrite Hitems. right. left.
    + right; left. by vm_compute.
  - apply (Habsent ["a.c"; "b.c"; "c.c"] three_units "c.c" [3] eq_refl eq_refl).
    + rewrite Hitems. right. right. left.
    + right; right. by vm_compute.
Defined.

(** ** Failures of one verification and its siblings *)

Lemma binary_get_line_numbers_value world b :
  Binary.get_line_numbers world b tt
  = (Ok (Binary.set_line_numbers b (line_nums_of world b)), tt,
     calls_of (get_line_nums Utils.verify_line_nums
                 (world (Path.str (Binary.file_path b)))
                 (Path.str (Binary.file_path b)) tt)).
Proof.
  unfold Binary.get_line_numbers, line_nums_of. unfold_monad.
  destruct (get_line_nums_returns Utils.verify_line_nums
              (world (Path.str (Binary.file_path b)))
              (Path.str (Binary.file_path b))) as [d Hd].
  unfold value_of in Hd.
  destruct (get_line_nums _ _ _ tt) as [[r []] c]. simpl in *. subst r.
  simpl. by rewrite app_nil_r.
Qed.

Lemma map_get_line_numbers_value world bs :
  value_of (BinaryAnalyzer.map_get_line_numbers world bs tt)
  = Ok (map (λ b, Binary.set_line_numbers b (line_nums_of world b)) bs).
Proof.
  induction bs as [|b rest IH]; simpl; [done|]. unfold_monad.
  rewrite binary_get_line_numbers_value.
  destruct (BinaryAnalyzer.map_get_line_numbers world rest tt)
    as [[r []] c]. simpl in IH. by subst r.
Qed.

(** X30.  How far a failure of one verification reaches.
    [get_line_nums] never raises, and [BinaryAnalyzer.get_line_numbers]
    gives every binary the mapping of its own sessions; a file whose
    verification returns no list is absent from the mapping.  In
    [utils.py] an invalid target and an exception of the stop loop raise
    out of [verify_line_nums], a failed launch returns [None]: when no
    session raises, every file keeps the lines of its own verification,
    and when one raises the mapping of the whole binary is empty.  In
    [get_line_nums.py], once the target is valid and the process is
    launched, a failed launch and an exception of the stop loop return
    [None]. *)
Theorem failure_reach (env : binary_env) (binary_file : string) :
  (∃ d, value_of (get_line_nums Utils.verify_line_nums env binary_file tt)
        = Ok d
     ∧ ∀ f,
         (∀ lines l,
            value_of (Utils.verify_line_nums (env_lldb env f) f binary_file
                        lines tt) ≠ Ok (Some l)) →
         OD.get f d = None)
  ∧ (∀ world a,
       value_of (BinaryAnalyzer.get_line_numbers world a tt)
       = Ok (BinaryAnalyzer.set_binaries a
               (map (λ b, Binary.set_line_numbers b (line_nums_of world b))
                    (BinaryAnalyzer.binaries a))))
  ∧ (∀ source_files parsed d,
       env_source_files env = Ok source_files →
       env_debug_line env = Ok parsed →
       value_of (get_line_nums Utils.verify_line_nums env binary_file tt)
       = Ok d →
       ((∀ g lines,
           (g, lines) ∈ DwarfDumpParser.get_line_numbers_by_file
                          parsed.1 parsed.2 →
           g ∈ source_files →
           ∃ r, value_of (Utils.verify_line_nums (env_lldb env g) g
                            binary_file lines tt) = Ok r) →
        ∀ g lines l,
          (g, lines) ∈ DwarfDumpParser.get_line_numbers_by_file
                         parsed.1 parsed.2 →
          g ∈ source_files →
          value_of (Utils.verify_line_nums (env_lldb env g) g binary_file
                      lines tt) = Ok (Some l) →
          l ≠ [] →
          OD.get g d = Some l)
       ∧ ((∃ g lines e,
             (g, lines) ∈ DwarfDumpParser.get_line_numbers_by_file
                            parsed.1 parsed.2
             ∧ g ∈ source_files
             ∧ value_of (Utils.verify_line_nums (env_lldb env g) g
                           binary_file lines tt) = Raise e) →
          d = []))
  ∧ (∀ w source_file line_numbers,
       (ss_target w = Ok false →
        value_of (Utils.verify_line_nums w source_file binary_file
                    line_numbers tt) = Raise (RuntimeError "Invalid target"))
       ∧ (ss_target w = Ok true → breakpoints_answer w →
          ss_launch w = Ok false →
          value_of (Utils.verify_line_nums w source_file binary_file
                      line_numbers tt) = Ok None)
       ∧ (∀ e, ss_target w = Ok true → breakpoints_answer w →
          ss_launch w = Ok true → first_fault w e →
          value_of (Utils.verify_line_nums w source_file binary_file
                      line_numbers tt) = Raise e)
       ∧ (∀ valid, ss_target w = Ok true → breakpoints_answer w →
          ss_launch w = Ok valid →
          ∃ r, value_of (Verifier.verify_line_nums w source_file binary_file
                           line_numbers tt) = Ok r
             ∧ (valid = false → r = None)
             ∧ (∀ e, first_fault w e → r = None))).
Proof.
  split; [|split; [|split]].
  - destruct (get_line_nums_returns Utils.verify_line_nums env binary_file)
      as [d Hd].
    exists d. split; [done|]. intros f Hfail.
    destruct (OD.get f d) as [l|] eqn:Hget; [|done].
    destruct (get_line_nums_get _ _ _ _ _ _ Hd Hget) as (_ & lines & Hv).
    by destruct (Hfail lines l).
  - intros world a. unfold BinaryAnalyzer.get_line_numbers. unfold_monad.
    pose proof (map_get_line_numbers_value world (BinaryAnalyzer.binaries a))
      as Hmap. unfold value_of in Hmap.
    destruct (BinaryAnalyzer.map_get_line_numbers _ _ tt) as [[r []] c].
    simpl in *. by subst r.
  - intros source_files parsed d Hs Hp Hd.
    destruct (get_line_nums_cases _ _ _ _ _ _ Hs Hp Hd)
      as [[c Hrun]|[-> [e He]]].
    + split.
      * intros _ g lines l Hin Hg Hv Hl.
        eapply verify_files_kept; eauto. apply candidate_keys_NoDup.
      * intros (g & lines & e & Hin & Hg & He).
        destruct (verify_files_all_return _ _ _ _ _ _ _ _ Hrun g lines Hin Hg)
          as [r Hr]. congruence.
    + split; [|done].
      intros Hall g lines l Hin Hg Hv Hl. exfalso.
      destruct (verify_files_returns _ _ _ _ _ Hall []) as (d & c & Hrun).
      rewrite Hrun in He. done.
  - intros w source_file line_numbers. repeat split.
    + apply utils_invalid_target.
    + apply utils_launch_failure.
    + intros e. apply utils_loop_exception.
    + intros valid. apply verifier_launched_returns.
Qed.

(** A binary whose mapping is empty although one of its files was
    verified does not contain the failure. *)
Lemma emptied_not_contained
    (V : session → string → string → list Z → M unit (option (list Z)))
    (env : binary_env) (binary_file : string) source_files parsed g lines l :
  env_source_files env = Ok source_files →
  env_debug_line env = Ok parsed →
  value_of (get_line_nums V env binary_file tt) = Ok [] →
  (g, lines) ∈ DwarfDumpParser.get_line_numbers_by_file parsed.1 parsed.2 →
  g ∈ source_files →
  value_of (V (env_lldb env g) g binary_file lines tt) = Ok (Some l) →
  l ≠ [] →
  ¬ failure_contained V env binary_file.
Proof.
  intros Hs Hp Hempty Hin Hg Hv Hl Hclaim.
  destruct (Hclaim source_files parsed Hs Hp) as (d & Hd & _ & Hsibling).
  rewrite Hempty in Hd. injection Hd as <-.
  discriminate (Hsibling g lines l Hin Hg Hv Hl).
Qed.

Lemma three_units_items :
  DwarfDumpParser.get_line_numbers_by_file three_units.1 three_units.2
  = [("a.c", [5; 6; 9]); ("b.c", [7]); ("c.c", [3])].
Proof. by vm_compute. Qed.

(** On the binary of three units, a mapping that holds [a.c] with the
    lines 5 and 6 contains the failure of [b.c] when the verification
    of [b.c] returns [None] and that of [c.c] returns the empty list. *)
Lemma contained_when_none
    (V : session → string → string → list Z → M unit (option (list Z)))
    (env : binary_env) :
  env_source_files env = Ok ["a.c"; "b.c"; "c.c"] →
  env_debug_line env = Ok three_units →
  value_of (get_line_nums V env "a.out" tt) = Ok [("a.c", [5; 6])] →
  value_of (V (env_lldb env "a.c") "a.c" "a.out" [5; 6; 9] tt)
    = Ok (Some [5; 6]) →
  value_of (V (env_lldb env "b.c") "b.c" "a.out" [7] tt) = Ok None →
  value_of (V (env_lldb env "c.c") "c.c" "a.out" [3] tt) = Ok (Some []) →
  failure_contained V env "a.out".
Proof.
  intros Hs Hp Hd Ha Hb Hc source_files parsed Hs' Hp'.
  rewrite Hs in Hs'. rewrite Hp in Hp'.
  injection Hs' as <-. injection Hp' as <-.
  exists [("a.c", [5; 6])]. split; [done|]. rewrite three_units_items.
  split.
  - intros f lines Hin Hfail.
    repeat (apply elem_of_cons in Hin as [[= -> ->]|Hin]);
      [by destruct (Hfail [5; 6])|done|done|by apply elem_of_nil in Hin].
  - intros g lines l Hin _ Hv Hl.
    repeat (apply elem_of_cons in Hin as [[= -> ->]|Hin]).
    + rewrite Ha in Hv. by injection Hv as <-.
    + rewrite Hb in Hv. done.
    + rewrite Hc in Hv. by injection Hv as <-.
    + by apply elem_of_nil in Hin.
Qed.

(** C4 at the failing inputs.  The binary has the compile units [a.c],
    [b.c] and [c.c]; the verification of [a.c] returns the lines 5 and
    6.  In [utils.py], when the target created for [b.c] is not valid,
    or when a debugger call of the stop loop of [b.c] raises,
    [verify_line_nums] raises instead of returning [None];
    [get_line_nums] catches the exception after [a.c] was verified and
    returns the empty mapping, so that [a.c] has lost its verified lines
    and [c.c] is never verified: the failure is not contained.  On the
    sibling paths it is: a failed launch returns [None] in [utils.py],
    and there [a.c] keeps its lines; in [get_line_nums.py] an exception
    of the stop loop returns [None], and there too [a.c] keeps its
    lines.  (In [get_line_nums.py] the target that is not valid runs
    into the unassigned [process] of the [finally] clause, and the
    mapping is empty as well.) *)
Theorem C4_sibling_aborted :
  value_of (Utils.verify_line_nums session_567 "a.c" "a.out" [5; 6; 9] tt)
    = Ok (Some [5; 6])
  ∧ value_of (Utils.verify_line_nums session_invalid_target "b.c" "a.out"
                [7] tt)
    = Raise (RuntimeError "Invalid target")
  ∧ value_of (Utils.verify_line_nums session_fault "b.c" "a.out" [7] tt)
    = Raise (LLDBError "Continue")
  ∧ value_of (get_line_nums Utils.verify_line_nums env_sibling_invalid
                "a.out" tt) = Ok []
  ∧ value_of (get_line_nums Utils.verify_line_nums env_sibling_fault
                "a.out" tt) = Ok []
  ∧ ¬ failure_contained Utils.verify_line_nums env_sibling_invalid "a.out"
  ∧ ¬ failure_contained Utils.verify_line_nums env_sibling_fault "a.out"
  ∧ value_of (Utils.verify_line_nums session_launch_fails "b.c" "a.out"
                [7] tt) = Ok None
  ∧ value_of (get_line_nums Utils.verify_line_nums env_quiet "a.out" tt)
    = Ok [("a.c", [5; 6])]
  ∧ failure_contained Utils.verify_line_nums env_quiet "a.out"
  ∧ value_of (Verifier.verify_line_nums session_fault "b.c" "a.out" [7] tt)
    = Ok None
  ∧ value_of (get_line_nums Verifier.verify_line_nums env_sibling_fault
                "a.out" tt)
    = Ok [("a.c", [5; 6])]
  ∧ failure_contained Verifier.verify_line_nums env_sibling_fault "a.out"
  ∧ value_of (get_line_nums Verifier.verify_line_nums env_sibling_invalid
                "a.out" tt) = Ok [].
Proof.
  do 5 (split; [by vm_compute|]).
  split.
  { apply (emptied_not_contained Utils.verify_line_nums env_sibling_invalid
             "a.out" ["a.c"; "b.c"; "c.c"] three_units "a.c" [5; 6; 9] [5; 6]);
      try done; try (by vm_compute).
    - rewrite three_units_items. left.
    - left. }
  split.
  { apply (emptied_not_contained Utils.verify_line_nums env_sibling_fault
             "a.out" ["a.c"; "b.c"; "c.c"] three_units "a.c" [5; 6; 9] [5; 6]);
      try done; try (by vm_compute).
    - rewrite three_units_items. left.
    - left. }
  do 2 (split; [by vm_compute|]).
  split; [apply contained_when_none; by vm_compute|].
  do 2 (split; [by vm_compute|]).
  split; [apply contained_when_none; by vm_compute|].
  by vm_compute.
Qed.

(** X30 on two binaries: with a failed launch the sibling keeps its
    lines, with an invalid target the mapping is empty. *)
Lemma failure_reach_witness :
  (∃ d, value_of (get_line_nums Utils.verify_line_nums env_quiet "a.out" tt)
        = Ok d
     ∧ OD.get "a.c" d = Some [5; 6])
  ∧ value_of (get_line_nums Utils.verify_line_nums env_sibling_invalid "a.out" tt)
    = Ok [].
Proof.
  assert (DwarfDumpParser.get_line_numbers_by_file three_units.1 three_units.2
          = [("a.c", [5; 6; 9]); ("b.c", [7]); ("c.c", [3])]) as Hitems
    by (by vm_compute).
  split.
  - destruct (failure_reach env_quiet "a.out")
      as ((d & Hd & _) & _ & Hfiles & _).
    exists d. split; [done|].
    destruct (Hfiles ["a.c"; "b.c"; "c.c"] three_units d eq_refl eq_refl Hd)
      as [Hkept _].
    apply (Hkept) with (lines := [5; 6; 9]).
    + rewrite Hitems. intros g lines Hin _.
      repeat (apply elem_of_cons in Hin as [[= -> ->]|Hin];
              [eexists; by vm_compute|]).
      by apply elem_of_nil in Hin.
    + rewrite Hitems. left.
    + left.
    + by vm_compute.
    + done.
  - destruct (failure_reach env_sibling_invalid "a.out")
      as ((d & Hd & _) & _ & Hfiles & _).
    rewrite Hd. f_equal.
    destruct (Hfiles ["a.c"; "b.c"; "c.c"] three_units d eq_refl eq_refl Hd)
      as [_ Hempty].
    apply Hempty. exists "b.c", [7], (RuntimeError "Invalid target").
    rewrite Hitems. split; [right; left|]. split; [right; left|].
    by vm_compute.
Defined.

(** ** Release of the session resources *)

Lemma create_breakpoints_calls w source_file line_numbers : ∀ n bps f c,
  c ∈ calls_of (create_breakpoints w source_file line_numbers n bps f) →
  ∃ line, c = BreakpointCreateByLocation source_file line.
Proof.
  induction line_numbers as [|line_number rest IH]; intros n bps f c; simpl;
    unfold_monad; simpl.
  - intros H. by apply elem_of_nil in H.
  - destruct (ss_breakpoint w n line_number) as [valid|e]; simpl.
    + specialize (IH (S n) (if valid then bps ++ [(n, line_number)] else bps)
                    f c).
      destruct (create_breakpoints _ _ rest _ _ f) as [[r f1] c1]. simpl in *.
      intros [->|Hin]%elem_of_cons; eauto.
    + intros ->%list_elem_of_singleton. eauto.
Qed.

Lemma stop_loop_calls bps stops : ∀ verified f c,
  c ∈ calls_of (stop_loop stops bps verified f) → c = Continue.
Proof.
  induction stops as [|s rest IH]; intros verified f c; simpl; unfold_monad;
    simpl.
  - intros H. by apply elem_of_nil in H.
  - destruct s as [line_number_hit hit_count| |e]; simpl.
    + specialize (IH (record_hit bps hit_count line_number_hit verified) f c).
      destruct (stop_loop rest _ _ f) as [[r f1] c1]. simpl in *.
      intros [->|Hin]%elem_of_cons; eauto.
    + specialize (IH verified f c).
      destruct (stop_loop rest _ _ f) as [[r f1] c1]. simpl in *.
      intros [->|Hin]%elem_of_cons; eauto.
    + intros H. by apply elem_of_nil in H.
Qed.

(** Membership in a list of calls built from literals and from the calls
    of the two loops. *)
Ltac split_calls H :=
  repeat rewrite ?elem_of_cons, ?elem_of_app, ?elem_of_nil in H;
  decompose [or] H; clear H.

(** In [utils.py] no run of [verify_line_nums] kills the process. *)
Lemma utils_never_kills w source_file file_path line_numbers :
  Kill ∉ calls_of (Utils.verify_line_nums w source_file file_path
                     line_numbers tt).
Proof.
  unfold Utils.verify_line_nums, Utils._lldb_session. unfold_monad. simpl.
  destruct (ss_target w) as [[|]|]; simpl.
  2, 3: intros H; split_calls H; done.
  pose proof (create_breakpoints_calls w source_file line_numbers 0%nat []
                (Frame (Some true) None) Kill) as Hbps.
  pose proof (create_breakpoints_frame w source_file line_numbers 0%nat []
                (Frame (Some true) None)) as Hframe.
  destruct (create_breakpoints _ _ _ _ _ _) as [[[bps|e] f1] c1]; simpl in *;
    unfold state_of in Hframe; simpl in Hframe; subst f1; simpl.
  2: { intros H; split_calls H; try done. by destruct Hbps. }
  pose proof (stop_loop_calls bps (ss_stops w) ∅ (Frame (Some true) None)
                Kill) as Hloop.
  pose proof (stop_loop_frame bps (ss_stops w) ∅ (Frame (Some true) None))
    as Hframe'.
  destruct (ss_launch w) as [[|]|]; simpl.
  - destruct (stop_loop _ _ _ _) as [[[verified|e] f2] c2]; simpl in *;
      unfold state_of in Hframe'; simpl in Hframe'; subst f2; simpl;
      intros H; split_calls H; try done;
      try (by destruct Hbps); by specialize (Hloop ltac:(done)).
  - intros H; split_calls H; try done. by destruct Hbps.
  - intros H; split_calls H; try done. by destruct Hbps.
Qed.

(** In [utils.py] every run of [verify_line_nums] ends by destroying the
    debugger. *)
Lemma utils_debugger_destroyed w source_file file_path line_numbers :
  ∃ before,
    calls_of (Utils.verify_line_nums w source_file file_path line_numbers tt)
    = before ++ [SBDebugger_Destroy].
Proof.
  unfold Utils.verify_line_nums, Utils._lldb_session. unfold_monad. simpl.
  destruct (ss_target w) as [[|]|]; simpl.
  2, 3: by exists [SBDebugger_Create; SetAsync;
                   CreateTargetWithFileAndArch file_path].
  pose proof (create_breakpoints_frame w source_file line_numbers 0%nat []
                (Frame (Some true) None)) as Hframe.
  destruct (create_breakpoints _ _ _ _ _ _) as [[[bps|e] f1] c1]; simpl in *;
    unfold state_of in Hframe; simpl in Hframe; subst f1; simpl.
  2: { exists ([SBDebugger_Create; SetAsync;
                CreateTargetWithFileAndArch file_path] ++ c1
               ++ [DeleteAllBreakpoints; DeleteTarget]).
       by rewrite <- !app_assoc. }
  destruct (ss_launch w) as [[|]|]; simpl.
  - pose proof (stop_loop_frame bps (ss_stops w) ∅ (Frame (Some true) None))
      as Hframe'.
    destruct (stop_loop _ _ _ _) as [[[verified|e] f2] c2]; simpl in *;
      unfold state_of in Hframe'; simpl in Hframe'; subst f2; simpl.
    + exists ([SBDebugger_Create; SetAsync;
               CreateTargetWithFileAndArch file_path] ++ c1
              ++ [LaunchSimple] ++ c2 ++ [DeleteAllBreakpoints; DeleteTarget]).
      simpl. rewrite <- !app_assoc. simpl. by rewrite ?app_nil_r, <- ?app_assoc.
    + exists ([SBDebugger_Create; SetAsync;
               CreateTargetWithFileAndArch file_path] ++ c1
              ++ [LaunchSimple] ++ c2 ++ [DeleteAllBreakpoints; DeleteTarget]).
      simpl. rewrite <- !app_assoc. simpl. by rewrite ?app_nil_r, <- ?app_assoc.
  - exists ([SBDebugger_Create; SetAsync;
             CreateTargetWithFileAndArch file_path] ++ c1
            ++ [LaunchSimple; DeleteAllBreakpoints; DeleteTarget]).
    simpl. rewrite <- !app_assoc. simpl. by rewrite ?app_nil_r, <- ?app_assoc.
  - exists ([SBDebugger_Create; SetAsync;
             CreateTargetWithFileAndArch file_path] ++ c1
            ++ [LaunchSimple; DeleteAllBreakpoints; DeleteTarget]).
    simpl. rewrite <- !app_assoc. simpl. by rewrite ?app_nil_r, <- ?app_assoc.
Qed.

(** C5, at two runs where the release is incomplete.  In [utils.py] a
    debugger call raises while the launched, valid process is stopped:
    the target and the debugger are released, the process is neither
    killed nor destroyed (the same run in [get_line_nums.py] kills it).
    In [get_line_nums.py] the target is invalid: reading [process] in the
    [finally] clause raises [UnboundLocalError], [_cleanup] is not
    entered and the debugger is not destroyed. *)
Theorem C5_release_incomplete :
  Utils.verify_line_nums session_fault "b.c" "a.out" [7] tt
  = (Raise (LLDBError "Continue"), tt,
     [ SBDebugger_Create; SetAsync; CreateTargetWithFileAndArch "a.out";
       BreakpointCreateByLocation "b.c" 7; LaunchSimple; Continue;
       DeleteAllBreakpoints; DeleteTarget; SBDebugger_Destroy ])
  ∧ Verifier.verify_line_nums session_fault "b.c" "a.out" [7] tt
    = (Ok None, tt,
       [ SBDebugger_Create; SetAsync; CreateTargetWithFileAndArch "a.out";
         BreakpointCreateByLocation "b.c" 7; LaunchSimple; Continue;
         Kill; Process_Destroy;
         DeleteAllBreakpoints; DeleteTarget; SBDebugger_Destroy ])
  ∧ Verifier.verify_line_nums session_invalid_target "b.c" "a.out" [7] tt
    = (Raise (UnboundLocalError "process"), tt,
       [ SBDebugger_Create; SetAsync; CreateTargetWithFileAndArch "a.out" ]).
Proof. repeat split; by vm_compute. Qed.

(** ** Issue detection *)

Section IssueRules.

Variable get_debug_values : string → string → Z → list DebugValue.

Lemma issues_of_value_count binary source_file line debug_value :
  length (BinaryAnalyzer.issues_of_value binary source_file line debug_value)
  = ((if BinaryAnalyzer.has_error debug_value
         && negb (is_known_error debug_value) then 1 else 0)
     + (if is_pointer debug_value && BinaryAnalyzer.has_error debug_value
        then 1 else 0))%nat.
Proof.
  unfold BinaryAnalyzer.issues_of_value.
  rewrite length_app. by repeat case_match.
Qed.

(** The issues of a binary with one verified line and one value there. *)
Lemma find_issues_single binary source_file line debug_value :
  Binary.line_numbers binary = [(source_file, [line])] →
  get_debug_values source_file (Path.str (Binary.file_path binary)) line
    = [debug_value] →
  BinaryAnalyzer._find_issues_type1_2 get_debug_values binary
  = BinaryAnalyzer.issues_of_value binary source_file line debug_value.
Proof.
  intros Hlines Hvalues. unfold BinaryAnalyzer._find_issues_type1_2.
  rewrite Hlines. simpl. rewrite Hvalues. simpl. by rewrite !app_nil_r.
Qed.

(** Every value read at a verified line contributes its issues. *)
Lemma find_issues_elem binary source_file lines line debug_value issue :
  (source_file, lines) ∈ Binary.line_numbers binary →
  line ∈ lines →
  debug_value ∈ get_debug_values source_file
                  (Path.str (Binary.file_path binary)) line →
  issue ∈ BinaryAnalyzer.issues_of_value binary source_file line debug_value →
  issue ∈ BinaryAnalyzer._find_issues_type1_2 get_debug_values binary.
Proof.
  intros Hfile Hline Hvalue Hissue.
  unfold BinaryAnalyzer._find_issues_type1_2.
  apply list_elem_of_In, in_flat_map.
  exists (source_file, lines). split; [by apply list_elem_of_In|].
  apply in_flat_map. exists line. split; [by apply list_elem_of_In|].
  apply in_flat_map. exists debug_value. split; by apply list_elem_of_In.
Qed.

End IssueRules.

(** C6.  A pointer value with a non-empty error message is recorded even
    when the error is a known one; a non-pointer value whose non-empty
    error message is a known one is not recorded. *)
Theorem C6_pointer_rule_is_broader
    (get_debug_values : string → string → Z → list DebugValue)
    (binary : Binary.t) (source_file : string) (lines : list Z) (line : Z)
    (debug_value : DebugValue) :
  BinaryAnalyzer.has_error debug_value = true →
  is_known_error debug_value = true →
  (is_pointer debug_value = true →
   BinaryAnalyzer.issues_of_value binary source_file line debug_value
   = [BinaryAnalyzer.make_issue binary source_file line debug_value]
   ∧ ((source_file, lines) ∈ Binary.line_numbers binary → line ∈ lines →
      debug_value ∈ get_debug_values source_file
                      (Path.str (Binary.file_path binary)) line →
      BinaryAnalyzer.make_issue binary source_file line debug_value
      ∈ BinaryAnalyzer._find_issues_type1_2 get_debug_values binary))
  ∧ (is_pointer debug_value = false →
     BinaryAnalyzer.issues_of_value binary source_file line debug_value = []
     ∧ (Binary.line_numbers binary = [(source_file, [line])] →
        get_debug_values source_file (Path.str (Binary.file_path binary)) line
        = [debug_value] →
        BinaryAnalyzer._find_issues_type1_2 get_debug_values binary = [])).
Proof.
  intros Herr Hknown. split; intros Hptr.
  - assert (BinaryAnalyzer.issues_of_value binary source_file line debug_value
            = [BinaryAnalyzer.make_issue binary source_file line debug_value])
      as Hone.
    { unfold BinaryAnalyzer.issues_of_value. by rewrite Herr, Hknown, Hptr. }
    split; [done|]. intros Hfile Hline Hvalue.
    eapply find_issues_elem; eauto. rewrite Hone. left.
  - assert (BinaryAnalyzer.issues_of_value binary source_file line debug_value
            = []) as Hnone.
    { unfold BinaryAnalyzer.issues_of_value. by rewrite Herr, Hknown, Hptr. }
    split; [done|]. intros Hlines Hvalues.
    by rewrite (find_issues_single _ _ _ _ _ Hlines Hvalues).
Qed.

(** C7.  The rules are tried one after the other on every value: a
    pointer value with a non-empty error message that is not a known one
    is appended twice, as two equal entries. *)
Theorem C7_both_rules_fire
    (get_debug_values : string → string → Z → list DebugValue)
    (binary : Binary.t) (source_file : string) (line : Z)
    (debug_value : DebugValue) :
  is_pointer debug_value = true →
  BinaryAnalyzer.has_error debug_value = true →
  is_known_error debug_value = false →
  BinaryAnalyzer.issues_of_value binary source_file line debug_value
  = [ BinaryAnalyzer.make_issue binary source_file line debug_value;
      BinaryAnalyzer.make_issue binary source_file line debug_value ]
  ∧ (Binary.line_numbers binary = [(source_file, [line])] →
     get_debug_values source_file (Path.str (Binary.file_path binary)) line
     = [debug_value] →
     BinaryAnalyzer._find_issues_type1_2 get_debug_values binary
     = [ BinaryAnalyzer.make_issue binary source_file line debug_value;
         BinaryAnalyzer.make_issue binary source_file line debug_value ]).
Proof.
  intros Hptr Herr Hknown.
  assert (BinaryAnalyzer.issues_of_value binary source_file line debug_value
          = [ BinaryAnalyzer.make_issue binary source_file line debug_value;
              BinaryAnalyzer.make_issue binary source_file line debug_value ])
    as Htwo.
  { unfold BinaryAnalyzer.issues_of_value. by rewrite Herr, Hknown, Hptr. }
  split; [done|]. intros Hlines Hvalues.
  by rewrite (find_issues_single _ _ _ _ _ Hlines Hvalues).
Qed.

(** C6 on the values of the specification: the known error "wild read"
    on a pointer is recorded, on a value that is not a pointer it is
    not. *)
Lemma C6_pointer_rule_is_broader_witness :
  BinaryAnalyzer._find_issues_type1_2 (λ _ _ _, [wild_pointer]) binary_line5
  = [ MkIssue "case_O0_D2.out" "case.c" 5 "p - wild read" ]
  ∧ BinaryAnalyzer._find_issues_type1_2 (λ _ _ _, [wild_scalar]) binary_line5
    = [].
Proof.
  split.
  - destruct (C6_pointer_rule_is_broader (λ _ _ _, [wild_pointer])
                binary_line5 "case.c" [5] 5 wild_pointer eq_refl eq_refl)
      as [Hpointer _].
    destruct (Hpointer eq_refl) as [Hone _].
    rewrite (find_issues_single _ binary_line5 "case.c" 5 wild_pointer
               eq_refl eq_refl).
    exact Hone.
  - destruct (C6_pointer_rule_is_broader (λ _ _ _, [wild_scalar])
                binary_line5 "case.c" [5] 5 wild_scalar eq_refl eq_refl)
      as [_ Hscalar].
    destruct (Hscalar eq_refl) as [_ Hnone].
    exact (Hnone eq_refl eq_refl).
Defined.

(** C7 on a pointer whose error is not a known one: two equal entries. *)
Lemma C7_both_rules_fire_witness :
  BinaryAnalyzer._find_issues_type1_2 (λ _ _ _, [stray_pointer]) binary_line5
  = [ MkIssue "case_O0_D2.out" "case.c" 5 "q - bad address";
      MkIssue "case_O0_D2.out" "case.c" 5 "q - bad address" ].
Proof.
  destruct (C7_both_rules_fire (λ _ _ _, [stray_pointer]) binary_line5
              "case.c" 5 stray_pointer eq_refl eq_refl eq_refl)
    as [_ Hboth].
  exact (Hboth eq_refl eq_refl).
Defined.

(** ** The sweep over optimization and debug levels *)

Section Sweep.

Variable cc : list string → compile_outcome.
Variable hexdigest : string → string → string.

Local Abbreviation _generate_binary :=
  (BinaryAnalyzer._generate_binary cc hexdigest).
Local Abbreviation visit_variant :=
  (BinaryAnalyzer.visit_variant cc hexdigest).

(** What [_generate_binary] does, by the outcome of the compiler. *)
Lemma generate_binary_run opt_level debug_level a disk :
  let binary :=
    Binary.init (BinaryAnalyzer.compiler_config a)
      (BinaryAnalyzer.source_path a) (BinaryAnalyzer.output_dir a)
      opt_level debug_level in
  (∃ output,
     _generate_binary opt_level debug_level (a, disk)
     = (Ok (Some (Binary.set_hash_value binary
                    (Some (hexdigest "sha256" output)))),
        (a, <[Binary.file_path binary := File output]> disk), []))
  ∨ _generate_binary opt_level debug_level (a, disk) = (Ok None, (a, disk), [])
  ∨ ∃ e, _generate_binary opt_level debug_level (a, disk)
         = (Raise e, (a, disk), []).
Proof.
  intros binary.
  unfold BinaryAnalyzer._generate_binary, BinaryAnalyzer.self,
    BinaryAnalyzer.on_disk, Binary.generate_binary, Binary.run_compiler,
    Binary.compute_hash, Disk.read.
  unfold_monad. simpl. fold binary.
  destruct (cc _) as [output| |]; simpl.
  - left. exists output. by rewrite lookup_insert_eq.
  - right; left. done.
  - right; right. by eexists.
Qed.

Lemma visit_variant_distinct opt_level debug_level file_hashes a disk :
  hashes_distinct (BinaryAnalyzer.binaries a) file_hashes →
  ∃ r a' disk',
    visit_variant opt_level debug_level file_hashes (a, disk)
    = (r, (a', disk'), [])
    ∧ BinaryAnalyzer.compiler_config a' = BinaryAnalyzer.compiler_config a
    ∧ hashes_distinct (BinaryAnalyzer.binaries a')
        (match r with Ok file_hashes' => file_hashes' | Raise _ => file_hashes end).
Proof.
  intros [Hnd Hin]. unfold BinaryAnalyzer.visit_variant. unfold_monad.
  destruct (generate_binary_run opt_level debug_level a disk)
    as [[output ->]|[->|[e ->]]]; simpl.
  - set (b := Binary.set_hash_value _ _). case_bool_decide as Hfresh; simpl.
    + do 3 eexists. split; [done|]. split; [done|]. simpl. split.
      * rewrite map_app. simpl. apply NoDup_app. split; [done|].
        split; [|apply NoDup_singleton].
        intros h Hh ->%list_elem_of_singleton. apply Hfresh.
        apply list_elem_of_In, in_map_iff in Hh as (b' & <- & Hb').
        apply Hin. by apply list_elem_of_In.
      * intros b' [Hb'| ->%list_elem_of_singleton]%elem_of_app.
        -- apply elem_of_union_l. auto.
        -- apply elem_of_union_r. by apply elem_of_singleton.
    + do 3 eexists. split; [done|]. split; [done|]. by split.
  - do 3 eexists. split; [done|]. split; [done|]. by split.
  - do 3 eexists. split; [done|]. split; [done|]. by split.
Qed.

Lemma for_dbg_levels_distinct opt_level dbg_levels :
  ∀ file_hashes a disk,
  hashes_distinct (BinaryAnalyzer.binaries a) file_hashes →
  ∃ r a' disk',
    BinaryAnalyzer.for_dbg_levels cc hexdigest opt_level dbg_levels
      file_hashes (a, disk) = (r, (a', disk'), [])
    ∧ BinaryAnalyzer.compiler_config a' = BinaryAnalyzer.compiler_config a
    ∧ ∃ file_hashes',
        hashes_distinct (BinaryAnalyzer.binaries a') file_hashes'
        ∧ ∀ fh, r = Ok fh → fh = file_hashes'.
Proof.
  induction dbg_levels as [|debug_level rest IH]; intros file_hashes a disk Hd;
    simpl; unfold_monad.
  - do 3 eexists. split; [done|]. split; [done|]. exists file_hashes.
    split; [done|]. by intros fh [= <-].
  - destruct (visit_variant_distinct opt_level debug_level file_hashes a disk Hd)
      as (r & a1 & disk1 & -> & Hcfg & Hd1).
    destruct r as [file_hashes1|e]; simpl.
    + destruct (IH file_hashes1 a1 disk1 Hd1)
        as (r2 & a2 & disk2 & -> & Hcfg2 & fh2 & Hd2 & Hr2).
      do 3 eexists. split; [done|]. split; [congruence|]. eauto.
    + do 3 eexists. split; [done|]. split; [done|]. exists file_hashes.
      split; [done|]. done.
Qed.

Lemma for_opt_levels_distinct dbg_levels opt_levels :
  ∀ file_hashes a disk,
  hashes_distinct (BinaryAnalyzer.binaries a) file_hashes →
  ∃ r a' disk',
    BinaryAnalyzer.for_opt_levels cc hexdigest opt_levels dbg_levels
      file_hashes (a, disk) = (r, (a', disk'), [])
    ∧ ∃ file_hashes',
        hashes_distinct (BinaryAnalyzer.binaries a') file_hashes'.
Proof.
  induction opt_levels as [|opt_level rest IH]; intros file_hashes a disk Hd;
    simpl; unfold_monad.
  - do 3 eexists. split; [done|]. by exists file_hashes.
  - destruct (for_dbg_levels_distinct opt_level dbg_levels file_hashes a disk Hd)
      as (r & a1 & disk1 & -> & Hcfg & fh1 & Hd1 & Hr1).
    destruct r as [file_hashes1|e]; simpl.
    + rewrite (Hr1 _ eq_refl) in *.
      destruct (IH fh1 a1 disk1 Hd1) as (r2 & a2 & disk2 & -> & fh2 & Hd2).
      do 3 eexists. split; [done|]. eauto.
    + do 3 eexists. split; [done|]. eauto.
Qed.

Lemma generate_variants_distinct a disk :
  NoDup (map Binary.hash_value (BinaryAnalyzer.binaries a)) →
  (∀ b, b ∈ BinaryAnalyzer.binaries a → False) →
  NoDup (map Binary.hash_value
           (BinaryAnalyzer.binaries
              (state_of (BinaryAnalyzer.generate_variants cc hexdigest
                           (a, disk))).1)).
Proof.
  intros Hnd Hempty. unfold BinaryAnalyzer.generate_variants. unfold_monad.
  unfold BinaryAnalyzer.self. simpl.
  destruct (for_opt_levels_distinct
              (CompilerConfig.dbg_levels (BinaryAnalyzer.compiler_config a))
              (CompilerConfig.opt_levels (BinaryAnalyzer.compiler_config a))
              ∅ a disk) as (r & a' & disk' & -> & fh & Hd & _).
  { split; [done|]. intros b Hb. destruct (Hempty b Hb). }
  by destruct r.
Qed.

End Sweep.

(** C2.  After [generate_variants] on a fresh analyzer, whatever the
    compiler does, no two retained binaries have the same hash; and at
    every visit of the sweep a binary that compiled is appended if and
    only if its hash is not in [file_hashes], which then gains it. *)
Theorem C2_retained_hashes_distinct
    (cc : list string → compile_outcome)
    (hexdigest : string → string → string) :
  (∀ compiler_config evidence_dir source_path output_dir disk,
     NoDup (map Binary.hash_value
              (BinaryAnalyzer.binaries
                 (state_of
                    (BinaryAnalyzer.generate_variants cc hexdigest
                       (BinaryAnalyzer.init compiler_config evidence_dir
                          source_path output_dir, disk))).1)))
  ∧ (∀ opt_level debug_level file_hashes a disk b,
       value_of (BinaryAnalyzer._generate_binary cc hexdigest
                   opt_level debug_level (a, disk)) = Ok (Some b) →
       let run := BinaryAnalyzer.visit_variant cc hexdigest
                    opt_level debug_level file_hashes (a, disk) in
       (BinaryAnalyzer.binaries (state_of run).1
        = BinaryAnalyzer.binaries a ++ [b]
        ↔ Binary.hash_value b ∉ file_hashes)
       ∧ (Binary.hash_value b ∉ file_hashes →
          value_of run = Ok (file_hashes ∪ {[ Binary.hash_value b ]}))
       ∧ (Binary.hash_value b ∈ file_hashes →
          BinaryAnalyzer.binaries (state_of run).1 = BinaryAnalyzer.binaries a
          ∧ value_of run = Ok file_hashes))
  ∧ (∀ opt_level debug_level file_hashes a disk,
       value_of (BinaryAnalyzer._generate_binary cc hexdigest
                   opt_level debug_level (a, disk)) = Ok None →
       BinaryAnalyzer.binaries
         (state_of (BinaryAnalyzer.visit_variant cc hexdigest
                      opt_level debug_level file_hashes (a, disk))).1
       = BinaryAnalyzer.binaries a).
Proof.
  split; [|split].
  - intros. apply generate_variants_distinct; simpl.
    + apply NoDup_nil_2.
    + intros b Hb. by apply elem_of_nil in Hb.
  - intros opt_level debug_level file_hashes a disk b Hgen run. subst run.
    unfold BinaryAnalyzer.visit_variant. unfold_monad.
    destruct (generate_binary_run cc hexdigest opt_level debug_level a disk)
      as [[output Hrun]|[Hrun|[e Hrun]]]; rewrite Hrun in Hgen |- *;
      simpl in Hgen; [|done..].
    injection Hgen as <-. simpl.
    case_bool_decide as Hfresh; simpl.
    + split; [done|]. split; [done|]. done.
    + split; [|split; [done|done]].
      split; [|done]. intros Happ.
      apply (f_equal length) in Happ. rewrite length_app in Happ.
      simpl in Happ. lia.
  - intros opt_level debug_level file_hashes a disk Hgen.
    unfold BinaryAnalyzer.visit_variant. unfold_monad.
    destruct (generate_binary_run cc hexdigest opt_level debug_level a disk)
      as [[output Hrun]|[Hrun|[e Hrun]]]; rewrite Hrun in Hgen |- *;
      simpl in Hgen; done.
Qed.

(** C2 on the sweep of [case.c]: the binary of (-O0, -g2) is retained,
    the binary of (-O1, -g2), of the same bytes, is not. *)
Lemma C2_retained_hashes_distinct_witness :
  BinaryAnalyzer.binaries
    (state_of (BinaryAnalyzer.visit_variant cc_same_bytes digest_of_content
                 "1" "2" {[ Some "ELF" ]} after_O0)).1
  = BinaryAnalyzer.binaries after_O0.1
  ∧ length (BinaryAnalyzer.binaries after_O0.1) = 1%nat.
Proof.
  destruct (C2_retained_hashes_distinct cc_same_bytes digest_of_content)
    as (_ & Hvisit & _).
  split; [|by vm_compute].
  refine (proj1 (proj2 (proj2
    (Hvisit "1" "2" {[ Some "ELF" ]} after_O0.1 after_O0.2
       (Binary.set_hash_value
          (Binary.init (BinaryAnalyzer.compiler_config analyzer_case)
             ["src"; "case.c"] ["out"] "1" "2") (Some "ELF")) _)) _)).
  - by vm_compute.
  - by apply elem_of_singleton.
Defined.

(** C3 as worded fails: (-O1, -g2) compiles to the bytes already hashed
    for (-O0, -g2); the binary is skipped and [out/case_O1_D2.out] is
    still on the disk. *)
Lemma C3_duplicate_left_on_disk :
  ¬ duplicate_deleted cc_same_bytes digest_of_content "1" "2"
      {[ Some "ELF" ]} after_O0.
Proof.
  intros Hclaim.
  destruct (Hclaim
              (Binary.set_hash_value
                 (Binary.init (BinaryAnalyzer.compiler_config analyzer_case)
                    ["src"; "case.c"] ["out"] "1" "2") (Some "ELF")))
    as [_ Hgone].
  - by vm_compute.
  - by apply elem_of_singleton.
  - vm_compute in Hgone. discriminate Hgone.
Qed.

(** C3, as the code has it.  When the compilation succeeds with a hash
    that is already in [file_hashes], the binary is not retained,
    [file_hashes] is unchanged, and the artifact that the compiler wrote
    stays on the disk at the path of the binary. *)
Theorem C3_duplicate_skipped
    (cc : list string → compile_outcome)
    (hexdigest : string → string → string)
    (opt_level debug_level : string) (file_hashes : gset (option string))
    (a : BinaryAnalyzer.t) (disk : gmap Path.t node) (b : Binary.t) :
  value_of (BinaryAnalyzer._generate_binary cc hexdigest
              opt_level debug_level (a, disk)) = Ok (Some b) →
  Binary.hash_value b ∈ file_hashes →
  let run := BinaryAnalyzer.visit_variant cc hexdigest
               opt_level debug_level file_hashes (a, disk) in
  BinaryAnalyzer.binaries (state_of run).1 = BinaryAnalyzer.binaries a
  ∧ value_of run = Ok file_hashes
  ∧ ∃ content,
      (state_of run).2 !! Binary.file_path b = Some (File content)
      ∧ Binary.hash_value b = Some (hexdigest "sha256" content).
Proof.
  intros Hgen Hdup run. subst run.
  unfold BinaryAnalyzer.visit_variant. unfold_monad.
  destruct (generate_binary_run cc hexdigest opt_level debug_level a disk)
    as [[output Hrun]|[Hrun|[e Hrun]]]; rewrite Hrun in Hgen |- *;
    simpl in Hgen; [|done..].
  injection Hgen as <-. simpl.
  rewrite bool_decide_eq_false_2 by (intros Hfresh; by apply Hfresh).
  simpl. split; [done|]. split; [done|].
  exists output. split; [apply lookup_insert_eq|done].
Qed.

(** C3 on the sweep of [case.c]: the artifact of (-O1, -g2) stays. *)
Lemma C3_duplicate_skipped_witness :
  (state_of (BinaryAnalyzer.visit_variant cc_same_bytes digest_of_content
               "1" "2" {[ Some "ELF" ]} after_O0)).2
    !! ["out"; "case_O1_D2.out"] = Some (File "ELF")
  ∧ BinaryAnalyzer.binaries
      (state_of (BinaryAnalyzer.visit_variant cc_same_bytes digest_of_content
                   "1" "2" {[ Some "ELF" ]} after_O0)).1
    = BinaryAnalyzer.binaries after_O0.1.
Proof.
  destruct (C3_duplicate_skipped cc_same_bytes digest_of_content "1" "2"
              {[ Some "ELF" ]} after_O0.1 after_O0.2
              (Binary.set_hash_value
                 (Binary.init (BinaryAnalyzer.compiler_config analyzer_case)
                    ["src"; "case.c"] ["out"] "1" "2") (Some "ELF")))
    as (Hskip & _ & content & Hdisk & Hhash).
  - by vm_compute.
  - by apply elem_of_singleton.
  - split; [|exact Hskip].
    unfold digest_of_content in Hhash. simpl in Hhash.
    injection Hhash as <-. exact Hdisk.
Defined.

(** ** Cleanup of the artifacts *)

Section Cleanup.

Lemma without_artifacts_lookup (bs : list Binary.t) :
  ∀ (disk : gmap Path.t node) (p : Path.t),
  without_artifacts bs disk !! p
  = if bool_decide (p ∈ map Binary.file_path bs) then None else disk !! p.
Proof.
  unfold without_artifacts.
  induction bs as [|b rest IH]; intros disk p; simpl; [done|].
  rewrite IH. destruct (decide (p = Binary.file_path b)) as [->|Hne].
  - rewrite (bool_decide_eq_true_2 (_ ∈ _ :: _)) by left.
    rewrite lookup_delete_eq. by case_bool_decide.
  - rewrite lookup_delete_ne by done.
    destruct (decide (p ∈ map Binary.file_path rest)) as [Hin|Hin].
    + rewrite !bool_decide_eq_true_2; [done|by right|done].
    + rewrite !bool_decide_eq_false_2; [done| |done].
      rewrite not_elem_of_cons. done.
Qed.

Lemma binary_cleanup_run (b : Binary.t) (disk : gmap Path.t node) :
  disk !! Binary.file_path b ≠ Some Dir →
  Binary.cleanup b disk
  = (Ok (Binary.set_line_numbers b []), delete (Binary.file_path b) disk, []).
Proof.
  intros Hnodir. unfold Binary.cleanup, Disk.exists_, Disk.unlink.
  unfold_monad.
  destruct (disk !! Binary.file_path b) as [[content|]|] eqn:Hlook.
  - rewrite bool_decide_eq_true_2 by eauto. done.
  - done.
  - rewrite bool_decide_eq_false_2 by (by intros [? ?]). simpl.
    by rewrite delete_id.
Qed.

Lemma cleanup_binaries_run (todo : list Binary.t) :
  ∀ (i : nat) (a : BinaryAnalyzer.t) (disk : gmap Path.t node),
  (∀ b, b ∈ todo → disk !! Binary.file_path b ≠ Some Dir) →
  ∃ bs,
    BinaryAnalyzer.cleanup_binaries i todo (a, disk)
    = (Ok tt, (BinaryAnalyzer.set_binaries a bs,
               without_artifacts todo disk), []).
Proof.
  induction todo as [|b rest IH]; intros i a disk Hnodir; simpl.
  - exists (BinaryAnalyzer.binaries a). by destruct a.
  - unfold_monad. unfold BinaryAnalyzer.on_disk, BinaryAnalyzer.self,
      BinaryAnalyzer.assign_binaries. simpl.
    rewrite binary_cleanup_run by (apply Hnodir; left). simpl.
    destruct (IH (S i)
                (BinaryAnalyzer.set_binaries a
                   (<[i:=Binary.set_line_numbers b []]>
                      (BinaryAnalyzer.binaries a)))
                (delete (Binary.file_path b) disk)) as [bs Hrest].
    { intros b' Hb' Hdir. apply (Hnodir b'); [by right|].
      destruct (decide (Binary.file_path b' = Binary.file_path b)) as [Heq|Hne].
      - rewrite Heq, lookup_delete_eq in Hdir. done.
      - by rewrite lookup_delete_ne in Hdir. }
    rewrite Hrest. simpl. by exists bs.
Qed.

End Cleanup.




(** ** More on the fold from rows to candidate lines *)

Section LineTableFoldMore.

Variable file_table : gmap Z file_entry.

Lemma contains_cons needle c s :
  Py.contains needle (String c s)
  = String.prefix needle (String c s) || Py.contains needle s.
Proof. done. Qed.

Lemma prefix_slash c s : String.prefix "/" (String c s) = Ascii.eqb c "/".
Proof.
  change (String.prefix "/" (String c s))
    with (if ascii_dec "/" c then String.prefix "" s else false).
  destruct (ascii_dec "/" c) as [<-|Hne]; [by destruct s|].
  symmetry. apply Ascii.eqb_neq. congruence.
Qed.

Lemma contains_slash_cons c s :
  Py.contains "/" (String c s) = Ascii.eqb c "/" || Py.contains "/" s.
Proof. by rewrite contains_cons, prefix_slash. Qed.

Lemma contains_slash_app s1 s2 :
  Py.contains "/" (s1 ++ s2) = Py.contains "/" s1 || Py.contains "/" s2.
Proof.
  induction s1 as [|c s1 IH].
  - done.
  - change (String c s1 ++ s2)%string with (String c (s1 ++ s2)).
    rewrite !contains_slash_cons, IH. by rewrite orb_assoc.
Qed.

Lemma basename_from_no_slash p : ∀ cur,
  Py.contains "/" cur = false →
  Py.contains "/" (Py.basename_from cur p) = false.
Proof.
  induction p as [|c rest IH]; intros cur Hcur; simpl; [done|].
  destruct (Ascii.eqb_spec c "/") as [->|Hne]; [by apply IH|].
  apply IH. rewrite contains_slash_app, Hcur, contains_slash_cons.
  by destruct (Ascii.eqb_spec c "/").
Qed.

Lemma basename_no_slash p : Py.contains "/" (Py.basename p) = false.
Proof. by apply basename_from_no_slash. Qed.

Lemma existsb_false_filter {A} (f : A → bool) (l : list A) :
  existsb f l = false → filter (λ x, f x = true) l = [].
Proof.
  induction l as [|x l IH]; simpl; [done|].
  intros [Hx Hl]%orb_false_iff. rewrite filter_cons_False by (by rewrite Hx).
  by apply IH.
Qed.

(** The closed form of [lines_under]. *)
Lemma lines_under_closed file line_info : ∀ held,
  lines_under file_table file line_info held =
  if existsb (adds_to file_table file) line_info
  then Some (default ∅ held
             ∪ list_to_set (map le_line
                              (filter (λ e, adds_to file_table file e = true)
                                 line_info)))
  else held.
Proof.
  unfold lines_under.
  induction line_info as [|entry rest IH]; intros held; simpl; [done|].
  rewrite IH. clear IH. fold (adds_to file_table file entry).
  destruct (adds_to file_table file entry) eqn:Hadd; simpl.
  - rewrite filter_cons_True by done. simpl.
    destruct (existsb (adds_to file_table file) rest) eqn:Hrest; f_equal.
    + by rewrite (assoc_L (∪)).
    + rewrite (existsb_false_filter _ _ Hrest). simpl.
      by rewrite (right_id_L ∅ (∪)).
  - by rewrite filter_cons_False by (by rewrite Hadd).
Qed.

Lemma get_candidates file line_info :
  OD.get file
    (DwarfDumpParser.get_line_numbers_by_file file_table line_info)
  = Py.sorted_set <$> lines_under file_table file line_info None.
Proof.
  unfold DwarfDumpParser.get_line_numbers_by_file.
  by rewrite get_map, collect_get.
Qed.

Lemma existsb_adds_to file line_info :
  existsb (adds_to file_table file) line_info = true ↔
  ∃ entry, entry ∈ line_info ∧ adds_to file_table file entry = true.
Proof.
  rewrite existsb_exists. split; intros (e & He & Hadd); exists e;
    (split; [by apply list_elem_of_In|done]).
Qed.

Lemma elem_of_lines file line_info x :
  x ∈ map le_line (filter (λ e, adds_to file_table file e = true) line_info)
  ↔ ∃ entry, entry ∈ line_info ∧ adds_to file_table file entry = true
             ∧ le_line entry = x.
Proof.
  rewrite list_elem_of_In, in_map_iff. split.
  - intros (e & <- & He). apply list_elem_of_In, list_elem_of_filter in He.
    exists e. tauto.
  - intros (e & He & Hadd & <-). exists e. split; [done|].
    apply list_elem_of_In, list_elem_of_filter. tauto.
Qed.

Lemma lines_under_perm file line_info line_info' :
  line_info ≡ₚ line_info' →
  lines_under file_table file line_info None
  = lines_under file_table file line_info' None.
Proof.
  intros Hperm. rewrite !lines_under_closed.
  assert (existsb (adds_to file_table file) line_info
          = existsb (adds_to file_table file) line_info') as ->.
  { apply eq_true_iff_eq. rewrite !existsb_adds_to.
    split; intros (e & He & ?); exists e; split; try done.
    - by rewrite <- Hperm.
    - by rewrite Hperm. }
  destruct (existsb _ line_info'); [|done]. do 2 f_equal.
  apply set_eq. intros x. rewrite !elem_of_list_to_set, !elem_of_lines.
  split; intros (e & He & ?); exists e; split; try done.
  - by rewrite <- Hperm.
  - by rewrite Hperm.
Qed.

Lemma lines_under_twice file line_info :
  lines_under file_table file (line_info ++ line_info) None
  = lines_under file_table file line_info None.
Proof.
  rewrite !lines_under_closed. rewrite existsb_app, orb_diag.
  destruct (existsb _ line_info); [|done]. do 2 f_equal.
  rewrite filter_app, map_app, list_to_set_app_L. by rewrite (idemp_L (∪)).
Qed.

End LineTableFoldMore.

(** X1.  In the candidate dictionary the files are pairwise distinct,
    non-empty base names (no ['/'] in them), and no file has an empty
    list of lines. *)
Theorem candidate_files_wellformed
    (file_table : gmap Z file_entry) (line_info : list line_entry) :
  NoDup (OD.keys
           (DwarfDumpParser.get_line_numbers_by_file file_table line_info))
  ∧ ∀ file lines,
      (file, lines)
        ∈ DwarfDumpParser.get_line_numbers_by_file file_table line_info →
      file ≠ "" ∧ Py.contains "/" file = false ∧ lines ≠ [].
Proof.
  split; [apply candidate_keys_NoDup|].
  intros file lines Hin.
  apply get_elem_of_NoDup in Hin; [|apply candidate_keys_NoDup].
  rewrite get_candidates, lines_under_closed in Hin.
  destruct (existsb _ line_info) eqn:Hex; [|done].
  apply existsb_adds_to in Hex as (entry & Hentry & Hadd).
  pose proof Hadd as Hadd'. unfold adds_to in Hadd'.
  apply andb_true_iff in Hadd' as [Hc Hname].
  apply String.eqb_eq in Hname. subst file.
  unfold DwarfDumpParser.contributes in Hc.
  apply andb_true_iff in Hc as [Htruthy _].
  split; [|split].
  - intros Hempty. by rewrite Hempty in Htruthy.
  - apply basename_no_slash.
  - injection Hin as <-. intros Hnil.
    assert (le_line entry ∈ Py.sorted_set
              (∅ ∪ list_to_set
                 (map le_line
                    (filter (λ e, adds_to file_table
                                    (DwarfDumpParser.entry_file_name
                                       file_table entry) e = true)
                       line_info)))) as Hline.
    { apply elem_of_sorted_set, elem_of_union_r, elem_of_list_to_set.
      apply elem_of_lines. by exists entry. }
    simpl in Hnil. rewrite Hnil in Hline. by apply elem_of_nil in Hline.
Qed.

(** X1 on the dump with two rows at (file 1, line 10). *)
Lemma candidate_files_wellformed_witness :
  "a.c" ≠ "" ∧ Py.contains "/" "a.c" = false ∧ [10] ≠ [].
Proof.
  apply (proj2 (candidate_files_wellformed dump_file_table
                  [dump_row1; dump_row2]) "a.c" [10]).
  vm_compute. left.
Defined.

(** X2.  The lines of a file do not depend on the order of the rows, and
    reading every row twice changes nothing. *)
Theorem candidate_lines_order_independent
    (file_table : gmap Z file_entry) (line_info line_info' : list line_entry)
    (file : string) :
  (line_info ≡ₚ line_info' →
   OD.get file
     (DwarfDumpParser.get_line_numbers_by_file file_table line_info)
   = OD.get file
       (DwarfDumpParser.get_line_numbers_by_file file_table line_info'))
  ∧ OD.get file
      (DwarfDumpParser.get_line_numbers_by_file file_table
         (line_info ++ line_info))
    = OD.get file
        (DwarfDumpParser.get_line_numbers_by_file file_table line_info).
Proof.
  split.
  - intros Hperm. rewrite !get_candidates. f_equal.
    by apply lines_under_perm.
  - rewrite !get_candidates. f_equal. apply lines_under_twice.
Qed.

(** X2 on the dump above with its rows swapped. *)
Lemma candidate_lines_order_independent_witness :
  OD.get "a.c"
    (DwarfDumpParser.get_line_numbers_by_file dump_file_table
       [dump_row1; dump_row_no_stmt; dump_row2])
  = OD.get "a.c"
      (DwarfDumpParser.get_line_numbers_by_file dump_file_table
         [dump_row2; dump_row1; dump_row_no_stmt]).
Proof.
  apply (proj1 (candidate_lines_order_independent dump_file_table
                  [dump_row1; dump_row_no_stmt; dump_row2]
                  [dump_row2; dump_row1; dump_row_no_stmt] "a.c")).
  rewrite (Permutation_swap dump_row1 dump_row2 [dump_row_no_stmt]).
  apply Permutation_skip. apply Permutation_swap.
Defined.

(** ** What a session verifies and what it calls *)

Section SessionMore.

Variable w : session.
Variable source_file : string.

Lemma create_breakpoints_elem line_numbers : ∀ n bps0 f bps f' c,
  create_breakpoints w source_file line_numbers n bps0 f = (Ok bps, f', c) →
  ∀ bp line,
    (bp, line) ∈ bps ↔
    (bp, line) ∈ bps0
    ∨ ∃ i, line_numbers !! i = Some line ∧ bp = (n + i)%nat
           ∧ ss_breakpoint w bp line = Ok true.
Proof.
  induction line_numbers as [|line_number rest IH];
    intros n bps0 f bps f' c; simpl; unfold_monad.
  - intros [= <- _ _] bp line. split; [by left|].
    intros [?|(i & Hi & _)]; [done|]. by rewrite lookup_nil in Hi.
  - destruct (ss_breakpoint w n line_number) as [valid|e] eqn:Hvalid; [|done].
    destruct (create_breakpoints _ _ rest _ _ f) as [[[bps'|e] f1] c1] eqn:Hrest;
      [|done].
    intros [= <- _ _] bp line. rewrite (IH _ _ _ _ _ _ Hrest bp line).
    clear IH Hrest. split.
    + intros [Hold|(i & Hi & -> & Hok)].
      * destruct valid; [|by left].
        apply elem_of_app in Hold as [?|Hlast]; [by left|].
        apply list_elem_of_singleton in Hlast as [= -> ->]. right.
        exists 0%nat. rewrite Nat.add_0_r. done.
      * right. exists (S i). rewrite <- Nat.add_succ_comm. done.
    + intros [Hold|(i & Hi & -> & Hok)].
      * left. destruct valid; [|done]. apply elem_of_app. by left.
      * destruct i as [|i]; simpl in Hi.
        -- injection Hi as <-. rewrite Nat.add_0_r in Hok |- *.
           left. rewrite Hvalid in Hok. injection Hok as ->.
           apply elem_of_app. right. left.
        -- right. exists i. rewrite Nat.add_succ_comm. done.
Qed.

Lemma record_hit_iff bps hit_count line_number_hit verified x :
  x ∈ record_hit bps hit_count line_number_hit verified ↔
  x ∈ verified
  ∨ (x = line_number_hit ∧ ∃ bp, (bp, x) ∈ bps ∧ 0 < hit_count bp).
Proof.
  induction bps as [|[bp line_number] rest IH]; simpl.
  - split; [by left|]. intros [?|(_ & bp & Hbp & _)]; [done|].
    by apply elem_of_nil in Hbp.
  - destruct (0 <? hit_count bp)%Z eqn:Hhit;
      destruct (line_number =? line_number_hit)%Z eqn:Hline; simpl.
    + apply Z.ltb_lt in Hhit. apply Z.eqb_eq in Hline. subst line_number.
      rewrite elem_of_union, elem_of_singleton. split.
      * intros [?| ->]; [by left|]. right. split; [done|].
        exists bp. split; [left|done].
      * intros [?|(-> & _)]; [by left|by right].
    + rewrite IH. apply Z.eqb_neq in Hline. split.
      * intros [?|(-> & bp' & Hbp' & ?)]; [by left|]. right. split; [done|].
        exists bp'. split; [by right|done].
      * intros [?|(-> & bp' & [[= -> ->]|Hbp']%elem_of_cons & ?)];
          [by left|done|]. right. eauto.
    + rewrite IH. apply Z.ltb_ge in Hhit. split.
      * intros [?|(-> & bp' & Hbp' & ?)]; [by left|]. right. split; [done|].
        exists bp'. split; [by right|done].
      * intros [?|(-> & bp' & [[= -> ->]|Hbp']%elem_of_cons & ?)];
          [by left|lia|]. right. eauto.
    + rewrite IH. apply Z.ltb_ge in Hhit. split.
      * intros [?|(-> & bp' & Hbp' & ?)]; [by left|]. right. split; [done|].
        exists bp'. split; [by right|done].
      * intros [?|(-> & bp' & [[= -> ->]|Hbp']%elem_of_cons & ?)];
          [by left|lia|]. right. eauto.
Qed.

Lemma stop_loop_iff bps stops : ∀ verified f verified' f' c,
  stop_loop stops bps verified f = (Ok verified', f', c) →
  ∀ x, x ∈ verified' ↔
    x ∈ verified
    ∨ ∃ hit_count bp,
        StopBreakpoint x hit_count ∈ stops ∧ (bp, x) ∈ bps
        ∧ 0 < hit_count bp.
Proof.
  induction stops as [|s rest IH]; intros verified f verified' f' c; simpl;
    unfold_monad.
  - intros [= <- _ _] x. split; [by left|].
    intros [?|(hc & bp & Hin & _)]; [done|]. by apply elem_of_nil in Hin.
  - destruct s as [line_number_hit hit_count| |e]; [| |done].
    + destruct (stop_loop rest _ _ f) as [[[v1|e] f1] c1] eqn:Hrest; [|done].
      intros [= <- _ _] x. rewrite (IH _ _ _ _ _ Hrest x), record_hit_iff.
      split.
      * intros [[?|(-> & bp & Hbp & Hhit)]|(hc & bp & Hin & ?)].
        -- by left.
        -- right. exists hit_count, bp. split; [left|done].
        -- right. exists hc, bp. split; [by right|done].
      * intros [?|(hc & bp & [[= <- <-]|Hin]%elem_of_cons & Hbp & Hhit)].
        -- left. by left.
        -- left. right. eauto.
        -- right. eauto.
    + destruct (stop_loop rest _ _ f) as [[[v1|e] f1] c1] eqn:Hrest; [|done].
      intros [= <- _ _] x. rewrite (IH _ _ _ _ _ Hrest x). split.
      * intros [?|(hc & bp & Hin & ?)]; [by left|].
        right. exists hc, bp. split; [by right|done].
      * intros [?|(hc & bp & [?|Hin]%elem_of_cons & ?)]; [by left|done|].
        right. eauto.
Qed.

Lemma create_breakpoints_calls_ok line_numbers : ∀ n bps0 f bps f' c,
  create_breakpoints w source_file line_numbers n bps0 f = (Ok bps, f', c) →
  c = map (BreakpointCreateByLocation source_file) line_numbers.
Proof.
  induction line_numbers as [|line_number rest IH];
    intros n bps0 f bps f' c; simpl; unfold_monad.
  - by intros [= _ _ <-].
  - destruct (ss_breakpoint w n line_number) as [valid|e]; [|done].
    destruct (create_breakpoints _ _ rest _ _ f) as [[[bps'|e] f1] c1] eqn:Hrest;
      [|done].
    intros [= _ _ <-]. simpl. f_equal. eapply IH, Hrest.
Qed.

Lemma stop_loop_calls_ok bps stops : ∀ verified f verified' f' c,
  stop_loop stops bps verified f = (Ok verified', f', c) →
  c = replicate (length stops) Continue.
Proof.
  induction stops as [|s rest IH]; intros verified f verified' f' c; simpl;
    unfold_monad.
  - by intros [= _ _ <-].
  - destruct s as [line_number_hit hit_count| |e]; [| |done].
    + destruct (stop_loop rest _ _ f) as [[[v1|e] f1] c1] eqn:Hrest; [|done].
      intros [= _ _ <-]. simpl. f_equal. eapply IH, Hrest.
    + destruct (stop_loop rest _ _ f) as [[[v1|e] f1] c1] eqn:Hrest; [|done].
      intros [= _ _ <-]. simpl. f_equal. eapply IH, Hrest.
Qed.

End SessionMore.

(** ** The runs of [verify_line_nums], case by case *)

(** Two lists of calls that differ by the nesting of [++]. *)
Ltac same_calls :=
  unfold session_head, target_release; simpl;
  rewrite <- ?app_assoc; simpl; rewrite ?app_nil_r, <- ?app_assoc;
  simpl; done.

Section Runs.

Variable w : session.
Variables source_file file_path : string.
Variable line_numbers : list Z.

Lemma create_breakpoints_run n bps f :
  ∃ r c, create_breakpoints w source_file line_numbers n bps f = (r, f, c).
Proof.
  pose proof (create_breakpoints_frame w source_file line_numbers n bps f) as H.
  destruct (create_breakpoints _ _ _ _ _ _) as [[r f1] c1].
  unfold state_of in H; simpl in H; subst. eauto.
Qed.

(** [utils.py]. *)
Lemma utils_run :
  Utils.verify_line_nums w source_file file_path line_numbers tt =
  match ss_target w with
  | Raise e => (Raise e, tt, session_head file_path ++ [SBDebugger_Destroy])
  | Ok false =>
      (Raise (RuntimeError "Invalid target"), tt,
       session_head file_path ++ [SBDebugger_Destroy])
  | Ok true =>
      let '(rb, _, c1) :=
        create_breakpoints w source_file line_numbers 0 []
          (Frame (Some true) None) in
      match rb with
      | Raise e => (Raise e, tt, session_head file_path ++ c1 ++ target_release)
      | Ok bps =>
          match ss_launch w with
          | Raise e =>
              (Raise e, tt,
               session_head file_path ++ c1 ++ [LaunchSimple] ++ target_release)
          | Ok false =>
              (Ok None, tt,
               session_head file_path ++ c1 ++ [LaunchSimple] ++ target_release)
          | Ok true =>
              let '(rl, _, c2) :=
                stop_loop (ss_stops w) bps ∅ (Frame (Some true) None) in
              (verified_value rl, tt,
               session_head file_path ++ c1 ++ [LaunchSimple] ++ c2
               ++ target_release)
          end
      end
  end.
Proof.
  unfold Utils.verify_line_nums, Utils._lldb_session. unfold_monad. simpl.
  destruct (ss_target w) as [[|]|]; simpl; [|done..].
  destruct (create_breakpoints_run 0%nat [] (Frame (Some true) None))
    as (rb & c1 & ->).
  destruct rb as [bps|e]; simpl.
  2: { same_calls. }
  destruct (ss_launch w) as [[|]|]; simpl.
  - destruct (stop_loop_total bps (ss_stops w) ∅ (Frame (Some true) None))
      as (rl & c2 & ->).
    destruct rl; same_calls.
  - same_calls.
  - same_calls.
Qed.

(** [get_line_nums.py]. *)
Lemma verifier_run :
  Verifier.verify_line_nums w source_file file_path line_numbers tt =
  match ss_target w with
  | Raise e => (Raise (UnboundLocalError "target"), tt, session_head file_path)
  | Ok false =>
      (Raise (UnboundLocalError "process"), tt, session_head file_path)
  | Ok true =>
      let '(rb, _, c1) :=
        create_breakpoints w source_file line_numbers 0 []
          (Frame (Some true) None) in
      match rb with
      | Raise e =>
          (Raise (UnboundLocalError "process"), tt, session_head file_path ++ c1)
      | Ok bps =>
          match ss_launch w with
          | Raise e =>
              (Raise (UnboundLocalError "process"), tt,
               session_head file_path ++ c1 ++ [LaunchSimple])
          | Ok false =>
              (Ok None, tt,
               session_head file_path ++ c1 ++ [LaunchSimple] ++ target_release)
          | Ok true =>
              let '(rl, _, c2) :=
                stop_loop (ss_stops w) bps ∅ (Frame (Some true) (Some true)) in
              (match rl with
               | Ok verified => Ok (Some (Py.sorted (elements verified)))
               | Raise _ => Ok None
               end, tt,
               session_head file_path ++ c1 ++ [LaunchSimple] ++ c2
               ++ [Kill; Process_Destroy] ++ target_release)
          end
      end
  end.
Proof.
  unfold Verifier.verify_line_nums, Verifier._cleanup, Verifier.read_local.
  unfold_monad. simpl.
  destruct (ss_target w) as [[|]|]; simpl; [|done..].
  destruct (create_breakpoints_run 0%nat [] (Frame (Some true) None))
    as (rb & c1 & ->).
  destruct rb as [bps|e]; simpl.
  2: { same_calls. }
  destruct (ss_launch w) as [[|]|]; simpl.
  - destruct (stop_loop_total bps (ss_stops w) ∅ (Frame (Some true) (Some true)))
      as (rl & c2 & ->).
    destruct rl; same_calls.
  - same_calls.
  - same_calls.
Qed.

End Runs.

(** The lines of a returned list are the hits that were observed. *)
Lemma returned_iff_observed (w : session)
    (source_file file_path : string) (line_numbers l : list Z) :
  value_of (Utils.verify_line_nums w source_file file_path line_numbers tt)
    = Ok (Some l)
  ∨ value_of (Verifier.verify_line_nums w source_file file_path line_numbers tt)
    = Ok (Some l) →
  ∀ x, x ∈ l ↔ observed_hit w line_numbers x.
Proof.
  intros Hrun.
  assert (made_of_session w source_file line_numbers l)
    as (bps & verified & f1 & f2 & f3 & f4 & c1 & c2 & Hbps & Hloop & ->).
  { destruct Hrun as [H|H];
      [eapply utils_returned, H|eapply verifier_returned, H]. }
  intros x. rewrite elem_of_sorted, elem_of_elements.
  rewrite (stop_loop_iff _ _ _ _ _ _ _ Hloop x). unfold observed_hit. split.
  - intros [Hempty|(hc & bp & Hstop & Hbp & Hhit)]; [set_solver|].
    apply (create_breakpoints_elem _ _ _ _ _ _ _ _ _ Hbps) in Hbp
      as [Hnil|(i & Hi & -> & Hvalid)]; [by apply elem_of_nil in Hnil|].
    exists hc, i. done.
  - intros (hc & i & Hstop & Hi & Hvalid & Hhit). right.
    exists hc, i. split; [done|]. split; [|done].
    apply (create_breakpoints_elem _ _ _ _ _ _ _ _ _ Hbps). right.
    exists i. done.
Qed.

(** X3.  A list returned by [verify_line_nums] (of either module) holds
    exactly the lines at which the process stopped on a breakpoint while
    a valid breakpoint requested at that line had been hit. *)
Theorem verified_iff_observed (w : session)
    (source_file file_path : string) (line_numbers l : list Z) :
  value_of (Utils.verify_line_nums w source_file file_path line_numbers tt)
    = Ok (Some l)
  ∨ value_of (Verifier.verify_line_nums w source_file file_path line_numbers tt)
    = Ok (Some l) →
  ∀ x, x ∈ l ↔ observed_hit w line_numbers x.
Proof. apply returned_iff_observed. Qed.

(** X3 on the run through lines 5, 6, 7: line 9 is not a hit. *)
Lemma verified_iff_observed_witness :
  (5 ∈ [5; 6] ↔ observed_hit session_567 [5; 6; 9] 5)
  ∧ (9 ∈ [5; 6] ↔ observed_hit session_567 [5; 6; 9] 9).
Proof.
  split;
    apply (verified_iff_observed session_567 "a.c" "a.out" [5; 6; 9] [5; 6]);
    left; by vm_compute.
Defined.

(** X4.  When [verify_line_nums] returns a list, the debugger was
    called as follows: create, set synchronous, create the target, one
    breakpoint request per candidate line in the order of the
    candidates, launch, one continue per stop; then [utils.py] deletes
    the breakpoints and the target and destroys the debugger, and
    [get_line_nums.py] kills and destroys the process before that. *)
Theorem calls_of_a_verification (w : session)
    (source_file file_path : string) (line_numbers l : list Z) :
  (value_of (Utils.verify_line_nums w source_file file_path line_numbers tt)
     = Ok (Some l) →
   calls_of (Utils.verify_line_nums w source_file file_path line_numbers tt)
   = session_calls w source_file file_path line_numbers ++ target_release)
  ∧ (value_of (Verifier.verify_line_nums w source_file file_path
                 line_numbers tt) = Ok (Some l) →
     calls_of (Verifier.verify_line_nums w source_file file_path
                 line_numbers tt)
     = session_calls w source_file file_path line_numbers
       ++ [Kill; Process_Destroy] ++ target_release).
Proof.
  split.
  - rewrite utils_run. destruct (ss_target w) as [[|]|]; [|done..].
    destruct (create_breakpoints _ _ _ _ _ _) as [[[bps|e] f1] c1] eqn:Hbps;
      [|done].
    destruct (ss_launch w) as [[|]|]; [|done..].
    destruct (stop_loop _ _ _ _) as [[[verified|e] f2] c2] eqn:Hloop; [|done].
    intros _. unfold calls_of, session_calls. simpl.
    rewrite (create_breakpoints_calls_ok _ _ _ _ _ _ _ _ _ Hbps).
    rewrite (stop_loop_calls_ok _ _ _ _ _ _ _ Hloop).
    by rewrite <- !app_assoc.
  - rewrite verifier_run. destruct (ss_target w) as [[|]|]; [|done..].
    destruct (create_breakpoints _ _ _ _ _ _) as [[[bps|e] f1] c1] eqn:Hbps;
      [|done].
    destruct (ss_launch w) as [[|]|]; [|done..].
    destruct (stop_loop _ _ _ _) as [[[verified|e] f2] c2] eqn:Hloop; [|done].
    intros _. unfold calls_of, session_calls. simpl.
    rewrite (create_breakpoints_calls_ok _ _ _ _ _ _ _ _ _ Hbps).
    rewrite (stop_loop_calls_ok _ _ _ _ _ _ _ Hloop).
    by rewrite <- !app_assoc.
Qed.

(** X4 on the run through lines 5, 6, 7. *)
Lemma calls_of_a_verification_witness :
  calls_of (Utils.verify_line_nums session_567 "a.c" "a.out" [5; 6; 9] tt)
  = [ SBDebugger_Create; SetAsync; CreateTargetWithFileAndArch "a.out";
      BreakpointCreateByLocation "a.c" 5; BreakpointCreateByLocation "a.c" 6;
      BreakpointCreateByLocation "a.c" 9; LaunchSimple; Continue; Continue;
      DeleteAllBreakpoints; DeleteTarget; SBDebugger_Destroy ].
Proof.
  apply (proj1 (calls_of_a_verification session_567 "a.c" "a.out"
                  [5; 6; 9] [5; 6])).
  by vm_compute.
Defined.

(** No call of a session before its release releases anything. *)
Lemma session_head_no_release file_path c :
  c ∈ session_head file_path → is_release c = false.
Proof. intros H. unfold session_head in H. split_calls H; by subst. Qed.

Lemma create_breakpoints_no_release w source_file line_numbers n bps f c :
  c ∈ calls_of (create_breakpoints w source_file line_numbers n bps f) →
  is_release c = false.
Proof. by intros [line ->]%create_breakpoints_calls. Qed.

Lemma stop_loop_no_release bps stops verified f c :
  c ∈ calls_of (stop_loop stops bps verified f) → is_release c = false.
Proof. by intros ->%stop_loop_calls. Qed.

Ltac no_release Hc :=
  split_calls Hc; subst;
  first [done | by eapply session_head_no_release | by auto].

(** X5.  In [utils.py] the release calls of a run of
    [verify_line_nums], whatever it returns or raises, are its last
    calls and no others: the breakpoints and the target are deleted
    exactly when the target is valid, then the debugger is destroyed,
    once; no run kills or destroys the process. *)
Theorem utils_release (w : session)
    (source_file file_path : string) (line_numbers : list Z) :
  let calls :=
    calls_of (Utils.verify_line_nums w source_file file_path line_numbers tt)
  in
  (∃ before,
     calls
     = before
       ++ match ss_target w with
          | Ok true => target_release
          | _ => [SBDebugger_Destroy]
          end
     ∧ ∀ c, c ∈ before → is_release c = false)
  ∧ (DeleteTarget ∈ calls ↔ ss_target w = Ok true)
  ∧ (DeleteAllBreakpoints ∈ calls ↔ ss_target w = Ok true)
  ∧ Kill ∉ calls
  ∧ Process_Destroy ∉ calls.
Proof.
  intros calls.
  assert (∃ before,
            calls
            = before
              ++ match ss_target w with
                 | Ok true => target_release
                 | _ => [SBDebugger_Destroy]
                 end
            ∧ ∀ c, c ∈ before → is_release c = false) as Hcalls.
  { subst calls. rewrite utils_run. destruct (ss_target w) as [[|]|].
    - pose proof (create_breakpoints_no_release w source_file line_numbers
                    0%nat [] (Frame (Some true) None)) as Hbps.
      destruct (create_breakpoints _ _ _ _ _ _) as [[[bps|e] f1] c1];
        unfold calls_of in Hbps; simpl in Hbps.
      + destruct (ss_launch w) as [[|]|].
        * pose proof (stop_loop_no_release bps (ss_stops w) ∅
                        (Frame (Some true) None)) as Hloop.
          destruct (stop_loop _ _ _ _) as [[rl f2] c2];
            unfold calls_of in Hloop; simpl in Hloop.
          exists (session_head file_path ++ c1 ++ [LaunchSimple] ++ c2).
          split; [unfold calls_of; same_calls|].
          intros c Hc. no_release Hc.
        * exists (session_head file_path ++ c1 ++ [LaunchSimple]).
          split; [unfold calls_of; same_calls|].
          intros c Hc. no_release Hc.
        * exists (session_head file_path ++ c1 ++ [LaunchSimple]).
          split; [unfold calls_of; same_calls|].
          intros c Hc. no_release Hc.
      + exists (session_head file_path ++ c1).
        split; [unfold calls_of; same_calls|].
        intros c Hc. no_release Hc.
    - exists (session_head file_path).
      split; [unfold calls_of; same_calls|apply session_head_no_release].
    - exists (session_head file_path).
      split; [unfold calls_of; same_calls|apply session_head_no_release]. }
  split; [done|].
  destruct Hcalls as (before & -> & Hbefore).
  assert (∀ c, is_release c = true → c ∉ before) as Hnot.
  { intros c Hc Hin. rewrite (Hbefore c Hin) in Hc. done. }
  pose proof (Hnot DeleteTarget eq_refl).
  pose proof (Hnot DeleteAllBreakpoints eq_refl).
  pose proof (Hnot Kill eq_refl).
  pose proof (Hnot Process_Destroy eq_refl).
  unfold target_release.
  destruct (ss_target w) as [[|]|];
    repeat split; rewrite ?elem_of_app, ?elem_of_cons, ?elem_of_nil;
    try done; try tauto; intros Hin; decompose [or] Hin; done.
Qed.

(** X5 on the session whose target is not valid: the debugger is
    destroyed and the target is not deleted. *)
Lemma utils_release_witness :
  DeleteTarget
    ∉ calls_of (Utils.verify_line_nums session_invalid_target "b.c" "a.out"
                  [7] tt)
  ∧ SBDebugger_Destroy
    ∈ calls_of (Utils.verify_line_nums session_invalid_target "b.c" "a.out"
                  [7] tt).
Proof.
  destruct (utils_release session_invalid_target "b.c" "a.out" [7])
    as ((before & Hcalls & _) & Htarget & _).
  split.
  - intros Hin. apply Htarget in Hin. done.
  - rewrite Hcalls. apply elem_of_app. right. left.
Defined.

(** X6.  In [get_line_nums.py], once the target is valid, the
    breakpoint requests are answered and the launch returns a process,
    every run of [verify_line_nums] returns, and its release calls are
    its last calls and no others: the process is killed and destroyed
    exactly when it is valid, then the breakpoints and the target are
    deleted and the debugger is destroyed. *)
Theorem verifier_release_once_launched (w : session)
    (source_file file_path : string) (line_numbers : list Z)
    (valid : bool) :
  ss_target w = Ok true → breakpoints_answer w → ss_launch w = Ok valid →
  let run :=
    Verifier.verify_line_nums w source_file file_path line_numbers tt in
  (∃ r before,
     run = (Ok r, tt,
            before ++ (if valid then [Kill; Process_Destroy] else [])
            ++ target_release)
     ∧ ∀ c, c ∈ before → is_release c = false)
  ∧ (Kill ∈ calls_of run ↔ valid = true)
  ∧ (Process_Destroy ∈ calls_of run ↔ valid = true).
Proof.
  intros Ht Hb Hl run.
  assert (∃ r before,
            run = (Ok r, tt,
                   before ++ (if valid then [Kill; Process_Destroy] else [])
                   ++ target_release)
            ∧ ∀ c, c ∈ before → is_release c = false) as Hrun.
  { subst run. rewrite verifier_run, Ht.
    pose proof (create_breakpoints_no_release w source_file line_numbers
                  0%nat [] (Frame (Some true) None)) as Hbps.
    destruct (create_breakpoints_answer w source_file line_numbers Hb 0%nat []
                (Frame (Some true) None)) as (bps & c1 & Hc1).
    rewrite Hc1 in Hbps |- *. unfold calls_of in Hbps; simpl in Hbps.
    rewrite Hl. destruct valid.
    - pose proof (stop_loop_no_release bps (ss_stops w) ∅
                    (Frame (Some true) (Some true))) as Hloop.
      destruct (stop_loop _ _ _ _) as [[rl f2] c2].
      unfold calls_of in Hloop; simpl in Hloop.
      destruct rl;
        eexists _, (session_head file_path ++ c1 ++ [LaunchSimple] ++ c2);
        (split; [same_calls|intros c Hc; no_release Hc]).
    - eexists _, (session_head file_path ++ c1 ++ [LaunchSimple]).
      split; [same_calls|intros c Hc; no_release Hc]. }
  split; [done|].
  destruct Hrun as (r & before & -> & Hbefore). unfold calls_of. simpl.
  assert (Kill ∉ before) by (intros Hin; by apply Hbefore in Hin).
  assert (Process_Destroy ∉ before) by (intros Hin; by apply Hbefore in Hin).
  unfold target_release.
  destruct valid; split; rewrite ?elem_of_app, ?elem_of_cons, ?elem_of_nil;
    split; try done; try tauto; intros Hin; decompose [or] Hin; done.
Qed.

(** X6 on a session whose launch returns a process that is not valid:
    the process is not killed. *)
Lemma verifier_release_once_launched_witness :
  Kill ∉ calls_of (Verifier.verify_line_nums session_launch_fails "b.c"
                     "a.out" [7] tt)
  ∧ DeleteTarget ∈ calls_of (Verifier.verify_line_nums session_launch_fails
                               "b.c" "a.out" [7] tt).
Proof.
  destruct (verifier_release_once_launched session_launch_fails "b.c" "a.out"
              [7] false) as ((r & before & Hrun & _) & Hkill & _);
    [done| |done|].
  { intros n line. by exists true. }
  split.
  - intros Hin. apply Hkill in Hin. done.
  - rewrite Hrun. unfold calls_of, target_release. simpl.
    apply elem_of_app. right. right. left.
Defined.

(** X7.  The only exceptions that leave [verify_line_nums] of
    [get_line_nums.py] are [UnboundLocalError]s of the [finally] clause:
    for [target] when the creation of the target raises, for [process]
    when the target is invalid or when a breakpoint request or the
    launch raises; in each case the debugger is not destroyed. *)
Theorem verifier_escapes (w : session)
    (source_file file_path : string) (line_numbers : list Z) :
  (∀ e,
     value_of (Verifier.verify_line_nums w source_file file_path
                 line_numbers tt) = Raise e →
     (e = UnboundLocalError "target" ∨ e = UnboundLocalError "process")
     ∧ SBDebugger_Destroy
         ∉ calls_of (Verifier.verify_line_nums w source_file file_path
                       line_numbers tt))
  ∧ (∀ e, ss_target w = Raise e →
       value_of (Verifier.verify_line_nums w source_file file_path
                   line_numbers tt) = Raise (UnboundLocalError "target"))
  ∧ (ss_target w = Ok false →
     value_of (Verifier.verify_line_nums w source_file file_path
                 line_numbers tt) = Raise (UnboundLocalError "process"))
  ∧ (∀ e, ss_target w = Ok true → breakpoints_answer w →
       ss_launch w = Raise e →
       value_of (Verifier.verify_line_nums w source_file file_path
                   line_numbers tt) = Raise (UnboundLocalError "process")).
Proof.
  split; [|split; [|split]].
  - intros e. rewrite verifier_run.
    unfold value_of, calls_of, session_head.
    destruct (ss_target w) as [[|]|]; simpl.
    + pose proof (create_breakpoints_calls w source_file line_numbers 0%nat []
                    (Frame (Some true) None) SBDebugger_Destroy) as Hbps.
      destruct (create_breakpoints _ _ _ _ _ _) as [[[bps|e'] f1] c1];
        unfold calls_of in Hbps; simpl in *.
      * destruct (ss_launch w) as [[|]|]; simpl.
        -- by destruct (stop_loop _ _ _ _) as [[[verified|e'] f2] c2].
        -- done.
        -- intros [= <-]. split; [by right|].
           intros H; split_calls H; try done. by destruct Hbps.
      * intros [= <-]. split; [by right|].
        intros H; split_calls H; try done. by destruct Hbps.
    + intros [= <-]. split; [by right|]. intros H; split_calls H; done.
    + intros [= <-]. split; [by left|]. intros H; split_calls H; done.
  - intros e Ht. by rewrite verifier_run, Ht.
  - intros Ht. by rewrite verifier_run, Ht.
  - intros e Ht Hb Hl. rewrite verifier_run, Ht.
    destruct (create_breakpoints_answer w source_file line_numbers Hb 0%nat []
                (Frame (Some true) None)) as (bps & c1 & ->).
    by rewrite Hl.
Qed.

(** X7 on the session whose target is invalid. *)
Lemma verifier_escapes_witness :
  value_of (Verifier.verify_line_nums session_invalid_target "b.c" "a.out"
              [7] tt) = Raise (UnboundLocalError "process").
Proof.
  by apply (proj1 (proj2 (proj2 (verifier_escapes session_invalid_target
                                   "b.c" "a.out" [7])))).
Defined.

Lemma stop_loop_raises bps stops : ∀ verified f e,
  value_of (stop_loop stops bps verified f) = Raise e → StopFault e ∈ stops.
Proof.
  induction stops as [|s rest IH]; intros verified f e; simpl; unfold_monad;
    [done|].
  destruct s as [line_number_hit hit_count| |e0].
  - specialize (IH (record_hit bps hit_count line_number_hit verified) f e).
    destruct (stop_loop rest _ _ _) as [[[v1|e1] f3] c3]; [done|].
    simpl in *. intros [= <-]. right. by apply IH.
  - specialize (IH verified f e).
    destruct (stop_loop rest _ _ _) as [[[v1|e1] f3] c3]; [done|].
    simpl in *. intros [= <-]. right. by apply IH.
  - simpl. intros [= <-]. left.
Qed.

Lemma create_breakpoints_raises w source_file line_numbers : ∀ n bps f e,
  value_of (create_breakpoints w source_file line_numbers n bps f) = Raise e →
  ∃ i line, ss_breakpoint w i line = Raise e.
Proof.
  induction line_numbers as [|line_number rest IH]; intros n bps f e; simpl;
    unfold_monad; [done|].
  destruct (ss_breakpoint w n line_number) as [valid|e0] eqn:Hvalid.
  - specialize (IH (S n) (if valid then bps ++ [(n, line_number)] else bps)
                  f e).
    destruct (create_breakpoints _ _ rest _ _ _) as [[[bps'|e1] f3] c3];
      [done|].
    simpl in *. intros [= <-]. by apply IH.
  - simpl. intros [= <-]. eauto.
Qed.

(** X8.  An exception that leaves [verify_line_nums] of [utils.py] is
    the [RuntimeError] of an invalid target or an exception that the
    debugger raised during the session; none is replaced or swallowed. *)
Theorem utils_escapes (w : session)
    (source_file file_path : string) (line_numbers : list Z) (e : exn) :
  value_of (Utils.verify_line_nums w source_file file_path line_numbers tt)
    = Raise e →
  (e = RuntimeError "Invalid target" ∧ ss_target w = Ok false)
  ∨ raised_by_debugger w e.
Proof.
  rewrite utils_run. unfold raised_by_debugger.
  destruct (ss_target w) as [[|]|] eqn:Ht.
  - pose proof (create_breakpoints_raises w source_file line_numbers 0%nat []
                  (Frame (Some true) None) e) as Hbps.
    destruct (create_breakpoints _ _ _ _ _ _) as [[[bps|e'] f1] c1].
    + destruct (ss_launch w) as [[|]|] eqn:Hl; [|done|].
      * pose proof (stop_loop_raises bps (ss_stops w) ∅
                      (Frame (Some true) None) e) as Hloop.
        destruct (stop_loop _ _ _ _) as [[[verified|e'] f2] c2]; [done|].
        intros [= <-]. right. do 3 right. by apply Hloop.
      * intros [= <-]. right. right. right. by left.
    + intros [= <-]. right. right. left. by apply Hbps.
  - intros [= <-]. by left.
  - intros [= <-]. right. by left.
Qed.

(** X8 on the session whose stop loop raises. *)
Lemma utils_escapes_witness :
  (LLDBError "Continue" = RuntimeError "Invalid target"
   ∧ ss_target session_fault = Ok false)
  ∨ raised_by_debugger session_fault (LLDBError "Continue").
Proof.
  apply (utils_escapes session_fault "b.c" "a.out" [7]). by vm_compute.
Defined.

(** ** From the line table to the verified mapping *)

Lemma create_breakpoints_requests w source_file line_numbers : ∀ n bps f c,
  c ∈ calls_of (create_breakpoints w source_file line_numbers n bps f) →
  ∃ line, line ∈ line_numbers ∧ c = BreakpointCreateByLocation source_file line.
Proof.
  induction line_numbers as [|line_number rest IH]; intros n bps f c; simpl;
    unfold_monad; simpl.
  - intros H. by apply elem_of_nil in H.
  - destruct (ss_breakpoint w n line_number) as [valid|e]; simpl.
    + specialize (IH (S n) (if valid then bps ++ [(n, line_number)] else bps)
                    f c).
      destruct (create_breakpoints _ _ rest _ _ f) as [[r f1] c1]. simpl in *.
      intros [->|Hin]%elem_of_cons.
      * exists line_number. split; [left|done].
      * destruct (IH Hin) as (line & Hline & ->). exists line.
        split; [by right|done].
    + intros ->%list_elem_of_singleton. exists line_number. split; [left|done].
Qed.

(** A breakpoint request of a session is at one of its candidate lines,
    in its source file. *)
Lemma session_requests
    (V : session → string → string → list Z → M unit (option (list Z)))
    w source_file file_path line_numbers file line :
  V = Utils.verify_line_nums ∨ V = Verifier.verify_line_nums →
  BreakpointCreateByLocation file line
    ∈ calls_of (V w source_file file_path line_numbers tt) →
  file = source_file ∧ line ∈ line_numbers.
Proof.
  pose proof (create_breakpoints_requests w source_file line_numbers 0%nat []
                (Frame (Some true) None)
                (BreakpointCreateByLocation file line)) as Hbps.
  assert (∀ bps f, BreakpointCreateByLocation file line
                     ∉ calls_of (stop_loop (ss_stops w) bps ∅ f)) as Hloop.
  { intros bps f Hin. by apply stop_loop_calls in Hin. }
  intros [-> | ->]; [rewrite utils_run|rewrite verifier_run];
    unfold calls_of, session_head, target_release in *;
    (destruct (ss_target w) as [[|]|]; simpl;
     [|intros H; split_calls H; done..]);
    destruct (create_breakpoints _ _ _ _ _ _) as [[[bps|e] f1] c1];
    simpl in *.
  all: try (destruct (ss_launch w) as [[|]|]; simpl).
  all: try (match goal with
            | |- context [stop_loop ?s ?b ∅ ?f] =>
                specialize (Hloop b f); destruct (stop_loop s b ∅ f)
                  as [[rl f2] c2]; simpl in *
            end).
  all: intros H; split_calls H; try done.
  all: destruct Hbps as (x & Hx & [= -> ->]); done.
Qed.

Section MappingMore.

Variable V : session → string → string → list Z → M unit (option (list Z)).
Hypothesis V_module : V = Utils.verify_line_nums ∨ V = Verifier.verify_line_nums.
Variable env : binary_env.
Variable binary_file : string.

Lemma verify_files_requests srcs items : ∀ acc file line,
  BreakpointCreateByLocation file line
    ∈ calls_of (verify_files V env binary_file srcs items acc tt) →
  file ∈ srcs ∧ ∃ lines, (file, lines) ∈ items ∧ line ∈ lines.
Proof.
  induction items as [|[source_file line_numbers] rest IH];
    intros acc file line; simpl; unfold_monad.
  - intros H. by apply elem_of_nil in H.
  - case_bool_decide as Hsrc.
    + pose proof (session_requests V (env_lldb env source_file) source_file
                    binary_file line_numbers file line V_module) as Hsession.
      destruct (V _ _ _ _ tt) as [[[r|e] []] c1]; unfold calls_of in *;
        simpl in *.
      * specialize (IH (if truthy_lines r
                        then OD.set source_file (default [] r) acc else acc)
                      file line).
        destruct (verify_files _ _ _ _ rest _ tt) as [[r2 []] c2].
        simpl in *. intros [Hin|Hin]%elem_of_app.
        -- destruct (Hsession Hin) as [-> Hline]. split; [done|].
           exists line_numbers. split; [left|done].
        -- destruct (IH Hin) as (? & lines & ? & ?). split; [done|].
           exists lines. split; [by right|done].
      * intros Hin. destruct (Hsession Hin) as [-> Hline]. split; [done|].
        exists line_numbers. split; [left|done].
    + intros Hin. destruct (IH _ _ _ Hin) as (? & lines & ? & ?).
      split; [done|]. exists lines. split; [by right|done].
Qed.

End MappingMore.

(** X9.  Every entry of the mapping that [get_line_nums] returns is a
    compile unit of the binary, and each of its lines is the line of an
    [is_stmt] row of that file in the line table, observed as a
    breakpoint hit in the session of that file. *)
Theorem verified_mapping_sound
    (V : session → string → string → list Z → M unit (option (list Z)))
    (env : binary_env) (binary_file : string) (d : OD.odict (list Z))
    (file : string) (l : list Z) :
  V = Utils.verify_line_nums ∨ V = Verifier.verify_line_nums →
  value_of (get_line_nums V env binary_file tt) = Ok d →
  OD.get file d = Some l →
  ∃ source_files parsed lines,
    env_source_files env = Ok source_files
    ∧ env_debug_line env = Ok parsed
    ∧ file ∈ source_files
    ∧ OD.get file (DwarfDumpParser.get_line_numbers_by_file parsed.1 parsed.2)
      = Some lines
    ∧ ∀ x, x ∈ l →
        observed_hit (env_lldb env file) lines x
        ∧ ∃ entry, entry ∈ parsed.2 ∧ le_line entry = x
            ∧ Py.contains "is_stmt" (le_flags entry) = true
            ∧ DwarfDumpParser.entry_file_name parsed.1 entry = file.
Proof.
  intros HV Hd Hget.
  destruct (env_source_files env) as [srcs|e] eqn:Hs.
  2: { unfold get_line_nums in Hd. unfold_monad. rewrite Hs in Hd.
       simpl in Hd. injection Hd as <-. done. }
  destruct (env_debug_line env) as [parsed|e] eqn:Hp.
  2: { unfold get_line_nums in Hd. unfold_monad. rewrite Hs, Hp in Hd.
       simpl in Hd. injection Hd as <-. done. }
  destruct (get_line_nums_cases V env binary_file srcs parsed d Hs Hp Hd)
    as [[c Hrun]|[-> _]]; [|done].
  destruct (verify_files_get _ _ _ _ _ _ _ _ Hrun file l Hget)
    as [?|(lines & Hin & Hsrc & Hv & Hne)]; [done|].
  exists srcs, parsed, lines. split; [done|]. split; [done|]. split; [done|].
  assert (OD.get file
            (DwarfDumpParser.get_line_numbers_by_file parsed.1 parsed.2)
          = Some lines) as Hlines.
  { apply get_elem_of_NoDup; [apply candidate_keys_NoDup|done]. }
  split; [done|]. intros x Hx.
  assert (observed_hit (env_lldb env file) lines x) as Hobs.
  { eapply (returned_iff_observed (env_lldb env file) file binary_file lines l);
      [|done].
    destruct HV as [-> | ->]; [by left|by right]. }
  split; [done|].
  destruct Hobs as (hc & i & _ & Hi & _).
  rewrite get_candidates in Hlines.
  destruct (lines_under parsed.1 file parsed.2 None) as [s|] eqn:Hunder;
    [|done].
  injection Hlines as <-.
  assert (x ∈ s) as Hxs.
  { apply elem_of_sorted_set. eapply list_elem_of_lookup_2, Hi. }
  apply (lines_under_Some _ _ _ _ _ Hunder) in Hxs
    as [(s0 & ? & _)|(entry & He & Hc & Hname & Hline)]; [done|].
  exists entry. unfold DwarfDumpParser.contributes in Hc.
  apply andb_true_iff in Hc as [_ Hflags]. done.
Qed.

(** X9 on the binary of three units. *)
Lemma verified_mapping_sound_witness :
  ∃ source_files parsed lines,
    env_source_files env_quiet = Ok source_files
    ∧ env_debug_line env_quiet = Ok parsed
    ∧ "a.c" ∈ source_files
    ∧ OD.get "a.c"
        (DwarfDumpParser.get_line_numbers_by_file parsed.1 parsed.2)
      = Some lines
    ∧ ∀ x, x ∈ [5; 6] →
        observed_hit (env_lldb env_quiet "a.c") lines x
        ∧ ∃ entry, entry ∈ parsed.2 ∧ le_line entry = x
            ∧ Py.contains "is_stmt" (le_flags entry) = true
            ∧ DwarfDumpParser.entry_file_name parsed.1 entry = "a.c".
Proof.
  apply (verified_mapping_sound Utils.verify_line_nums env_quiet "a.out"
           [("a.c", [5; 6])] "a.c" [5; 6]).
  - by left.
  - by vm_compute.
  - done.
Defined.

(** X10.  [get_line_nums] requests a breakpoint only at a candidate line
    of a compile unit of the binary; when the list of compile units or
    the line table cannot be read it returns the empty mapping without
    calling the debugger. *)
Theorem breakpoints_only_in_compile_units
    (V : session → string → string → list Z → M unit (option (list Z)))
    (env : binary_env) (binary_file : string) :
  V = Utils.verify_line_nums ∨ V = Verifier.verify_line_nums →
  (∀ file line,
     BreakpointCreateByLocation file line
       ∈ calls_of (get_line_nums V env binary_file tt) →
     ∃ source_files parsed lines,
       env_source_files env = Ok source_files
       ∧ env_debug_line env = Ok parsed
       ∧ file ∈ source_files
       ∧ (file, lines)
           ∈ DwarfDumpParser.get_line_numbers_by_file parsed.1 parsed.2
       ∧ line ∈ lines)
  ∧ ((∃ e, env_source_files env = Raise e) ∨ (∃ e, env_debug_line env = Raise e)
     → get_line_nums V env binary_file tt = (Ok [], tt, [])).
Proof.
  intros HV. split.
  - intros file line. unfold get_line_nums. unfold_monad.
    destruct (env_source_files env) as [srcs|e]; simpl;
      [|intros H; by apply elem_of_nil in H].
    destruct (env_debug_line env) as [parsed|e]; simpl;
      [|intros H; by apply elem_of_nil in H].
    pose proof (verify_files_requests V HV env binary_file srcs
                  (DwarfDumpParser.get_line_numbers_by_file parsed.1 parsed.2)
                  [] file line) as Hreq.
    destruct (verify_files _ _ _ _ _ _ tt) as [[[d|e] []] c];
      unfold calls_of in *; simpl in *.
    + intros Hin. destruct (Hreq Hin) as (? & lines & ? & ?).
      exists srcs, parsed, lines. done.
    + rewrite app_nil_r. intros Hin.
      destruct (Hreq Hin) as (? & lines & ? & ?).
      exists srcs, parsed, lines. done.
  - unfold get_line_nums. unfold_monad.
    intros [[e He]|[e He]].
    + by rewrite He.
    + destruct (env_source_files env) as [srcs|e']; simpl; [|done].
      by rewrite He.
Qed.

(** X10 on the binary of three units: no breakpoint is requested in a
    file [d.c]. *)
Lemma breakpoints_only_in_compile_units_witness :
  BreakpointCreateByLocation "d.c" 5
    ∉ calls_of (get_line_nums Utils.verify_line_nums env_quiet "a.out" tt).
Proof.
  intros Hin.
  destruct (proj1 (breakpoints_only_in_compile_units Utils.verify_line_nums
                     env_quiet "a.out" (or_introl eq_refl)) "d.c" 5 Hin)
    as (srcs & parsed & lines & [= <-] & _ & Hsrc & _).
  repeat (apply elem_of_cons in Hsrc as [?|Hsrc]; [done|]).
  by apply elem_of_nil in Hsrc.
Defined.

(** ** The sweep as a whole *)

Section SweepMore.

Variable cc : list string → compile_outcome.
Variable hexdigest : string → string → string.

Lemma set_binaries_id a :
  BinaryAnalyzer.set_binaries a (BinaryAnalyzer.binaries a) = a.
Proof. by destruct a. Qed.

(** One visit, by the outcome of the compiler. *)
Lemma visit_variant_run opt_level debug_level file_hashes a disk :
  BinaryAnalyzer.visit_variant cc hexdigest opt_level debug_level file_hashes
    (a, disk)
  = match cc (command_line (variant a opt_level debug_level)) with
    | Exit0 output =>
        let disk' :=
          <[Binary.file_path (variant a opt_level debug_level)
              := File output]> disk in
        if bool_decide (hash_of hexdigest output ∉ file_hashes)
        then (Ok (file_hashes ∪ {[ hash_of hexdigest output ]}),
              (BinaryAnalyzer.set_binaries a
                 (BinaryAnalyzer.binaries a
                    ++ [Binary.set_hash_value
                          (variant a opt_level debug_level)
                          (hash_of hexdigest output)]),
               disk'), [])
        else (Ok file_hashes, (a, disk'), [])
    | ExitNonZero => (Ok file_hashes, (a, disk), [])
    | SpawnError =>
        (Raise (OSError "cannot run the compiler"), (a, disk), [])
    end.
Proof.
  unfold BinaryAnalyzer.visit_variant, BinaryAnalyzer._generate_binary,
    BinaryAnalyzer.self, BinaryAnalyzer.on_disk,
    BinaryAnalyzer.assign_binaries, Binary.generate_binary,
    Binary.run_compiler, Binary.compute_hash, Disk.read.
  unfold_monad. simpl.
  change (cc _) with (cc (command_line (variant a opt_level debug_level))).
  destruct (cc _) as [output| |]; simpl; [|done..].
  rewrite lookup_insert_eq. simpl. unfold hash_of.
  by case_bool_decide.
Qed.

(** The same on an analyzer given by its list of binaries. *)
Lemma visit_variant_on opt_level debug_level file_hashes a bs disk :
  BinaryAnalyzer.visit_variant cc hexdigest opt_level debug_level file_hashes
    (BinaryAnalyzer.set_binaries a bs, disk)
  = match cc (command_line (variant a opt_level debug_level)) with
    | Exit0 output =>
        let disk' :=
          <[Binary.file_path (variant a opt_level debug_level)
              := File output]> disk in
        if bool_decide (hash_of hexdigest output ∉ file_hashes)
        then (Ok (file_hashes ∪ {[ hash_of hexdigest output ]}),
              (BinaryAnalyzer.set_binaries a
                 (bs ++ [Binary.set_hash_value
                           (variant a opt_level debug_level)
                           (hash_of hexdigest output)]),
               disk'), [])
        else (Ok file_hashes, (BinaryAnalyzer.set_binaries a bs, disk'), [])
    | ExitNonZero => (Ok file_hashes, (BinaryAnalyzer.set_binaries a bs, disk), [])
    | SpawnError =>
        (Raise (OSError "cannot run the compiler"),
         (BinaryAnalyzer.set_binaries a bs, disk), [])
    end.
Proof. by rewrite visit_variant_run. Qed.

Lemma visit_pairs_cons o g rest file_hashes s r s1 :
  BinaryAnalyzer.visit_variant cc hexdigest o g file_hashes s = (r, s1, []) →
  visit_pairs cc hexdigest ((o, g) :: rest) file_hashes s
  = match r with
    | Ok file_hashes1 => visit_pairs cc hexdigest rest file_hashes1 s1
    | Raise e => (Raise e, s1, [])
    end.
Proof.
  intros Hvisit. simpl. unfold_monad. rewrite Hvisit.
  destruct r as [fh1|e]; [|done].
  by destruct (visit_pairs cc hexdigest rest fh1 s1) as [[r2 s2] c2].
Qed.

Lemma visit_pairs_app pairs1 : ∀ pairs2 file_hashes s,
  visit_pairs cc hexdigest (pairs1 ++ pairs2) file_hashes s
  = (file_hashes' ← visit_pairs cc hexdigest pairs1 file_hashes;
     visit_pairs cc hexdigest pairs2 file_hashes') s.
Proof.
  induction pairs1 as [|[o g] rest IH]; intros pairs2 file_hashes s; simpl.
  - unfold_monad. simpl.
    by destruct (visit_pairs cc hexdigest pairs2 file_hashes s) as [[r s'] c].
  - unfold_monad.
    destruct (BinaryAnalyzer.visit_variant cc hexdigest o g file_hashes s)
      as [[[fh1|e] s1] c1]; [|done].
    specialize (IH pairs2 fh1 s1). unfold_monad. rewrite IH.
    destruct (visit_pairs cc hexdigest rest fh1 s1) as [[[fh2|e] s2] c2];
      [|done].
    destruct (visit_pairs cc hexdigest pairs2 fh2 s2) as [[r3 s3] c3].
    by rewrite app_assoc.
Qed.

Lemma for_dbg_levels_pairs opt_level dbg_levels : ∀ file_hashes s,
  BinaryAnalyzer.for_dbg_levels cc hexdigest opt_level dbg_levels file_hashes s
  = visit_pairs cc hexdigest
      (map (λ debug_level, (opt_level, debug_level)) dbg_levels)
      file_hashes s.
Proof.
  induction dbg_levels as [|g rest IH]; intros file_hashes s; simpl; [done|].
  unfold_monad.
  destruct (BinaryAnalyzer.visit_variant cc hexdigest opt_level g file_hashes s)
    as [[[fh1|e] s1] c1]; [|done].
  by rewrite IH.
Qed.

Lemma for_opt_levels_pairs dbg_levels opt_levels : ∀ file_hashes s,
  BinaryAnalyzer.for_opt_levels cc hexdigest opt_levels dbg_levels file_hashes s
  = visit_pairs cc hexdigest
      (flat_map (λ opt_level,
                   map (λ debug_level, (opt_level, debug_level)) dbg_levels)
         opt_levels)
      file_hashes s.
Proof.
  induction opt_levels as [|o rest IH]; intros file_hashes s; simpl; [done|].
  rewrite visit_pairs_app. unfold_monad.
  rewrite for_dbg_levels_pairs.
  destruct (visit_pairs cc hexdigest _ file_hashes s) as [[[fh1|e] s1] c1];
    [|done].
  by rewrite IH.
Qed.

Lemma generate_variants_pairs a disk :
  BinaryAnalyzer.generate_variants cc hexdigest (a, disk)
  = (visit_pairs cc hexdigest
       (sweep_order (BinaryAnalyzer.compiler_config a)) ∅;;
     mret tt) (a, disk).
Proof.
  unfold BinaryAnalyzer.generate_variants, BinaryAnalyzer.self, sweep_order.
  unfold_monad. simpl. rewrite for_opt_levels_pairs.
  by destruct (visit_pairs _ _ _ _ _) as [[[fh|e] s1] c1].
Qed.

(** The binaries that a list of visits appends, and whether it returns,
    depend neither on the binaries retained before nor on the disk. *)
Lemma visit_pairs_new a pairs : ∀ file_hashes,
  ∃ new r, ∀ bs disk, ∃ disk',
    visit_pairs cc hexdigest pairs file_hashes
      (BinaryAnalyzer.set_binaries a bs, disk)
    = (r, (BinaryAnalyzer.set_binaries a (bs ++ new), disk'), []).
Proof.
  induction pairs as [|[o g] rest IH]; intros file_hashes.
  - exists [], (Ok file_hashes). intros bs disk. exists disk.
    by rewrite app_nil_r.
  - pose proof (λ bs disk, visit_variant_on o g file_hashes a bs disk)
      as Hvisit.
    destruct (cc (command_line (variant a o g))) as [output| |] eqn:Hcc.
    + simpl in Hvisit. case_bool_decide as Hfresh.
      * destruct (IH (file_hashes ∪ {[ hash_of hexdigest output ]}))
          as (new & r & Hrun).
        exists (Binary.set_hash_value (variant a o g)
                  (hash_of hexdigest output) :: new), r.
        intros bs disk.
        rewrite (visit_pairs_cons _ _ _ _ _ _ _ (Hvisit bs disk)).
        destruct (Hrun (bs ++ [Binary.set_hash_value (variant a o g)
                                 (hash_of hexdigest output)])
                    (<[Binary.file_path (variant a o g) := File output]> disk))
          as [disk' Heq].
        exists disk'. etrans; [exact Heq|]. by rewrite <- app_assoc.
      * destruct (IH file_hashes) as (new & r & Hrun).
        exists new, r. intros bs disk.
        rewrite (visit_pairs_cons _ _ _ _ _ _ _ (Hvisit bs disk)).
        apply Hrun.
    + destruct (IH file_hashes) as (new & r & Hrun).
      exists new, r. intros bs disk.
      rewrite (visit_pairs_cons _ _ _ _ _ _ _ (Hvisit bs disk)).
      apply Hrun.
    + exists [], (Raise (OSError "cannot run the compiler")).
      intros bs disk.
      rewrite (visit_pairs_cons _ _ _ _ _ _ _ (Hvisit bs disk)).
      exists disk. by rewrite app_nil_r.
Qed.

Lemma first_of_its_content_app a pre post b :
  first_of_its_content cc hexdigest a pre b →
  first_of_its_content cc hexdigest a (pre ++ post) b.
Proof.
  intros (i & o & g & output & Hi & Hc & -> & Hfirst).
  exists i, o, g, output. split; [by apply lookup_app_l_Some|].
  split; [done|]. split; [done|].
  intros j o' g' output' Hlt Hj. apply (Hfirst j o' g' output' Hlt).
  rewrite lookup_app_l in Hj; [done|].
  apply lookup_lt_Some in Hi. lia.
Qed.

(** The invariant of the sweep.  [pre] holds the pairs visited before,
    [visited] the pairs of [rest] that are visited until the sweep ends
    or the compiler cannot be started. *)
Lemma visit_pairs_invariant a rest : ∀ pre bs disk file_hashes,
  ∃ r bs' disk' visited,
    visit_pairs cc hexdigest rest file_hashes
      (BinaryAnalyzer.set_binaries a bs, disk)
    = (r, (BinaryAnalyzer.set_binaries a bs', disk'), [])
    ∧ match r with
      | Ok _ => visited = rest
      | Raise _ =>
          ∃ o g after, rest = visited ++ (o, g) :: after
                       ∧ cc (command_line (variant a o g)) = SpawnError
      end
    ∧ (∀ o g, (o, g) ∈ visited →
              cc (command_line (variant a o g)) ≠ SpawnError)
    ∧ (∀ p, (∀ o g, (o, g) ∈ visited →
                    p ≠ Binary.file_path (variant a o g)) →
            disk' !! p = disk !! p)
    ∧ (∀ p content, disk !! p = Some (File content) →
                    ∃ content', disk' !! p = Some (File content'))
    ∧ (∀ o g output, (o, g) ∈ visited → compiles_to cc a o g output →
         ∃ content,
           disk' !! Binary.file_path (variant a o g) = Some (File content))
    ∧ ((∀ b, b ∈ bs → first_of_its_content cc hexdigest a pre b) →
       (∀ h, h ∈ file_hashes ↔
             ∃ o g output, (o, g) ∈ pre ∧ compiles_to cc a o g output
                           ∧ h = hash_of hexdigest output) →
       (∀ h, h ∈ file_hashes → ∃ b, b ∈ bs ∧ Binary.hash_value b = h) →
       (∀ b, b ∈ bs' →
             first_of_its_content cc hexdigest a (pre ++ visited) b)
       ∧ (∀ o g output, (o, g) ∈ pre ++ visited →
            compiles_to cc a o g output →
            ∃ b, b ∈ bs' ∧ Binary.hash_value b = hash_of hexdigest output)).
Proof.
  induction rest as [|[o g] rest IH]; intros pre bs disk file_hashes.
  - simpl. exists (Ok file_hashes), bs, disk, []. rewrite app_nil_r.
    split; [done|]. split; [done|].
    split; [intros ? ? H; by apply elem_of_nil in H|].
    split; [done|]. split; [eauto|].
    split; [intros ? ? ? H; by apply elem_of_nil in H|].
    intros I1 I2 I3. split; [done|].
    intros o g output Hin Hc. apply I3, I2. by exists o, g, output.
  - assert (∀ bs1 fh1 disk1,
      BinaryAnalyzer.visit_variant cc hexdigest o g file_hashes
        (BinaryAnalyzer.set_binaries a bs, disk)
      = (Ok fh1, (BinaryAnalyzer.set_binaries a bs1, disk1), []) →
      cc (command_line (variant a o g)) ≠ SpawnError →
      (∀ p, p ≠ Binary.file_path (variant a o g) → disk1 !! p = disk !! p) →
      (∀ p content, disk !! p = Some (File content) →
                    ∃ content', disk1 !! p = Some (File content')) →
      (∀ output, compiles_to cc a o g output →
         ∃ content,
           disk1 !! Binary.file_path (variant a o g) = Some (File content)) →
      ((∀ b, b ∈ bs → first_of_its_content cc hexdigest a pre b) →
       (∀ h, h ∈ file_hashes ↔
             ∃ o0 g0 output0, (o0, g0) ∈ pre ∧ compiles_to cc a o0 g0 output0
                              ∧ h = hash_of hexdigest output0) →
       (∀ h, h ∈ file_hashes → ∃ b, b ∈ bs ∧ Binary.hash_value b = h) →
       (∀ b, b ∈ bs1 →
             first_of_its_content cc hexdigest a (pre ++ [(o, g)]) b)
       ∧ (∀ h, h ∈ fh1 ↔
               ∃ o0 g0 output0, (o0, g0) ∈ pre ++ [(o, g)]
                                ∧ compiles_to cc a o0 g0 output0
                                ∧ h = hash_of hexdigest output0)
       ∧ (∀ h, h ∈ fh1 → ∃ b, b ∈ bs1 ∧ Binary.hash_value b = h)) →
      ∃ r bs' disk' visited,
        visit_pairs cc hexdigest ((o, g) :: rest) file_hashes
          (BinaryAnalyzer.set_binaries a bs, disk)
        = (r, (BinaryAnalyzer.set_binaries a bs', disk'), [])
        ∧ match r with
          | Ok _ => visited = (o, g) :: rest
          | Raise _ =>
              ∃ o0 g0 after, (o, g) :: rest = visited ++ (o0, g0) :: after
                ∧ cc (command_line (variant a o0 g0)) = SpawnError
          end
        ∧ (∀ o0 g0, (o0, g0) ∈ visited →
                    cc (command_line (variant a o0 g0)) ≠ SpawnError)
        ∧ (∀ p, (∀ o0 g0, (o0, g0) ∈ visited →
                          p ≠ Binary.file_path (variant a o0 g0)) →
                disk' !! p = disk !! p)
        ∧ (∀ p content, disk !! p = Some (File content) →
                        ∃ content', disk' !! p = Some (File content'))
        ∧ (∀ o0 g0 output0, (o0, g0) ∈ visited →
             compiles_to cc a o0 g0 output0 →
             ∃ content,
               disk' !! Binary.file_path (variant a o0 g0)
               = Some (File content))
        ∧ ((∀ b, b ∈ bs → first_of_its_content cc hexdigest a pre b) →
           (∀ h, h ∈ file_hashes ↔
                 ∃ o0 g0 output0, (o0, g0) ∈ pre
                                  ∧ compiles_to cc a o0 g0 output0
                                  ∧ h = hash_of hexdigest output0) →
           (∀ h, h ∈ file_hashes → ∃ b, b ∈ bs ∧ Binary.hash_value b = h) →
           (∀ b, b ∈ bs' →
                 first_of_its_content cc hexdigest a (pre ++ visited) b)
           ∧ (∀ o0 g0 output0, (o0, g0) ∈ pre ++ visited →
                compiles_to cc a o0 g0 output0 →
                ∃ b, b ∈ bs'
                     ∧ Binary.hash_value b = hash_of hexdigest output0)))
      as Hstep.
    { intros bs1 fh1 disk1 Hvisit Hnospawn D1 D2 D3 HJ.
      destruct (IH (pre ++ [(o, g)]) bs1 disk1 fh1)
        as (r & bs' & disk' & visited & Hrun & Hr & Hsp & K3 & K4 & K5 & HK).
      exists r, bs', disk', ((o, g) :: visited).
      rewrite (visit_pairs_cons _ _ _ _ _ _ _ Hvisit), Hrun.
      split; [done|].
      split.
      { destruct r as [fh|e]; [by subst|].
        destruct Hr as (o0 & g0 & after & -> & Hspawn).
        exists o0, g0, after. done. }
      split.
      { intros o0 g0 [[= -> ->]|Hin]%elem_of_cons; [done|]. by apply Hsp. }
      split.
      { intros p Hp. rewrite K3.
        - apply D1. apply (Hp o g). left.
        - intros o0 g0 Hin. apply Hp. by right. }
      split.
      { intros p content Hp. destruct (D2 p content Hp) as [content1 Hp1].
        by apply (K4 p content1). }
      split.
      { intros o0 g0 output0 [[= -> ->]|Hin]%elem_of_cons Hc.
        - destruct (D3 output0 Hc) as [content1 Hp1]. by apply (K4 _ content1).
        - by apply (K5 o0 g0 output0). }
      intros I1 I2 I3. destruct (HJ I1 I2 I3) as (J1 & J2 & J3).
      destruct (HK J1 J2 J3) as [K1 K2].
      rewrite <- app_assoc in K1, K2. done. }
    pose proof (visit_variant_on o g file_hashes a bs disk) as Hvisit.
    destruct (cc (command_line (variant a o g))) as [output| |] eqn:Hcc.
    + simpl in Hvisit. case_bool_decide as Hfresh.
      * eapply Hstep; [exact Hvisit|done|..].
        -- intros p Hp. by rewrite lookup_insert_ne.
        -- intros p content Hp.
           destruct (decide (p = Binary.file_path (variant a o g))) as [->|Hne].
           ++ rewrite lookup_insert_eq. eauto.
           ++ rewrite lookup_insert_ne by done. eauto.
        -- intros output0 _. rewrite lookup_insert_eq. eauto.
        -- intros I1 I2 I3. split; [|split].
           ++ intros b [Hb| ->%list_elem_of_singleton]%elem_of_app.
              ** by apply first_of_its_content_app, I1.
              ** exists (length pre), o, g, output.
                 split; [by rewrite lookup_app_r, Nat.sub_diag by lia|].
                 split; [done|]. split; [done|].
                 intros j o' g' output' Hlt Hj Hc' Heq.
                 rewrite lookup_app_l in Hj by done.
                 apply Hfresh. rewrite <- Heq. apply I2.
                 exists o', g', output'. split; [|done].
                 by eapply list_elem_of_lookup_2.
           ++ intros h. rewrite elem_of_union, elem_of_singleton, I2. split.
              ** intros [(o0 & g0 & output0 & Hin & Hc & ->)| ->].
                 --- exists o0, g0, output0. split; [|done].
                     apply elem_of_app. by left.
                 --- exists o, g, output. split; [|done].
                     apply elem_of_app. right. left.
              ** intros (o0 & g0 & output0
                         & [Hin|[= -> ->]%list_elem_of_singleton]%elem_of_app
                         & Hc & ->).
                 --- left. by exists o0, g0, output0.
                 --- right. unfold compiles_to in Hc. rewrite Hcc in Hc.
                     by injection Hc as <-.
           ++ intros h [Hh| ->%elem_of_singleton]%elem_of_union.
              ** destruct (I3 h Hh) as (b & Hb & Hhash). exists b.
                 split; [|done]. apply elem_of_app. by left.
              ** eexists. split; [apply elem_of_app; right; left|done].
      * eapply Hstep; [exact Hvisit|done|..].
        -- intros p Hp. by rewrite lookup_insert_ne.
        -- intros p content Hp.
           destruct (decide (p = Binary.file_path (variant a o g))) as [->|Hne].
           ++ rewrite lookup_insert_eq. eauto.
           ++ rewrite lookup_insert_ne by done. eauto.
        -- intros output0 _. rewrite lookup_insert_eq. eauto.
        -- intros I1 I2 I3. split; [|split].
           ++ intros b Hb. by apply first_of_its_content_app, I1.
           ++ intros h. rewrite I2. split.
              ** intros (o0 & g0 & output0 & Hin & Hc & ->).
                 exists o0, g0, output0. split; [|done].
                 apply elem_of_app. by left.
              ** intros (o0 & g0 & output0
                         & [Hin|[= -> ->]%list_elem_of_singleton]%elem_of_app
                         & Hc & ->).
                 --- by exists o0, g0, output0.
                 --- unfold compiles_to in Hc. rewrite Hcc in Hc.
                     injection Hc as <-.
                     by apply I2 in Hfresh.
           ++ done.
    + eapply Hstep; [exact Hvisit|done|..].
      * done.
      * eauto.
      * intros output0 Hc. unfold compiles_to in Hc. by rewrite Hcc in Hc.
      * intros I1 I2 I3. split; [|split].
        -- intros b Hb. by apply first_of_its_content_app, I1.
        -- intros h. rewrite I2. split.
           ++ intros (o0 & g0 & output0 & Hin & Hc & ->).
              exists o0, g0, output0. split; [|done].
              apply elem_of_app. by left.
           ++ intros (o0 & g0 & output0
                      & [Hin|[= -> ->]%list_elem_of_singleton]%elem_of_app
                      & Hc & ->).
              ** by exists o0, g0, output0.
              ** unfold compiles_to in Hc. by rewrite Hcc in Hc.
        -- done.
    + exists (Raise (OSError "cannot run the compiler")), bs, disk, [].
      rewrite (visit_pairs_cons _ _ _ _ _ _ _ Hvisit).
      rewrite app_nil_r.
      split; [done|]. split; [by exists o, g, rest|].
      split; [intros ? ? H; by apply elem_of_nil in H|].
      split; [done|]. split; [eauto|].
      split; [intros ? ? ? H; by apply elem_of_nil in H|].
      intros I1 I2 I3. split; [done|].
      intros o0 g0 output0 Hin Hc. apply I3, I2. by exists o0, g0, output0.
Qed.

End SweepMore.

(** X11.  After [generate_variants] on a fresh analyzer, whether it
    returned or was aborted, every retained binary is the binary of the
    first pair of levels, in the order of the two loops, that compiled
    to its content; and when the sweep returns, the content of every
    pair that compiled is that of some retained binary. *)
Theorem sweep_retains_first_of_each_content
    (cc : list string → compile_outcome)
    (hexdigest : string → string → string)
    (compiler_config : CompilerConfig.t)
    (evidence_dir source_path output_dir : Path.t)
    (disk : gmap Path.t node) :
  let a := BinaryAnalyzer.init compiler_config evidence_dir source_path
             output_dir in
  let run := BinaryAnalyzer.generate_variants cc hexdigest (a, disk) in
  (∀ b, b ∈ BinaryAnalyzer.binaries (state_of run).1 →
        first_of_its_content cc hexdigest a (sweep_order compiler_config) b)
  ∧ (value_of run = Ok tt →
     ∀ opt_level debug_level output,
       (opt_level, debug_level) ∈ sweep_order compiler_config →
       compiles_to cc a opt_level debug_level output →
       ∃ b, b ∈ BinaryAnalyzer.binaries (state_of run).1
            ∧ Binary.hash_value b = hash_of hexdigest output).
Proof.
  intros a run. subst run. rewrite generate_variants_pairs.
  destruct (visit_pairs_invariant cc hexdigest a
              (sweep_order (BinaryAnalyzer.compiler_config a)) [] [] disk ∅)
    as (r & bs' & disk' & visited & Hrun & Hr & _ & _ & _ & _ & HK).
  destruct HK as [K1 K2].
  { intros b Hb. by apply elem_of_nil in Hb. }
  { intros h. split; [set_solver|].
    intros (o & g & output & Hin & _). by apply elem_of_nil in Hin. }
  { set_solver. }
  change (BinaryAnalyzer.set_binaries a []) with a in Hrun.
  unfold_monad. rewrite Hrun.
  change (BinaryAnalyzer.compiler_config a) with compiler_config in *.
  destruct r as [fh|e]; simpl.
  - subst visited. split; [done|]. intros _. done.
  - destruct Hr as (o & g & after & Hrest & _). split; [|done].
    intros b Hb. rewrite Hrest. by apply first_of_its_content_app, K1.
Qed.

(** X11 on the sweep of [case.c] with a compiler that writes the same
    bytes at every level: one binary is retained, that of (-O0, -g2). *)
Lemma sweep_retains_first_of_each_content_witness :
  ∃ b, b ∈ BinaryAnalyzer.binaries
             (state_of (BinaryAnalyzer.generate_variants cc_same_bytes
                          digest_of_content (analyzer_case, disk_out))).1
       ∧ Binary.hash_value b = hash_of digest_of_content "ELF".
Proof.
  apply (proj2 (sweep_retains_first_of_each_content cc_same_bytes
                  digest_of_content (CompilerConfig.Make "clang" ["0"; "1"] ["2"])
                  ["evidence"] ["src"; "case.c"] ["out"] disk_out)
           eq_refl "1" "2" "ELF").
  - right. left.
  - done.
Defined.

(** X12.  [generate_variants] is aborted by an exception exactly when
    the compiler cannot be started for some pair of levels; a compiler
    that exits with a non-zero status never aborts the sweep. *)
Theorem sweep_aborts_only_without_compiler
    (cc : list string → compile_outcome)
    (hexdigest : string → string → string)
    (a : BinaryAnalyzer.t) (disk : gmap Path.t node) :
  let run := BinaryAnalyzer.generate_variants cc hexdigest (a, disk) in
  (compiler_missing cc a → ∃ e, value_of run = Raise e)
  ∧ (¬ compiler_missing cc a → value_of run = Ok tt).
Proof.
  intros run. subst run. rewrite generate_variants_pairs.
  destruct (visit_pairs_invariant cc hexdigest a
              (sweep_order (BinaryAnalyzer.compiler_config a)) []
              (BinaryAnalyzer.binaries a) disk ∅)
    as (r & bs' & disk' & visited & Hrun & Hr & Hsp & _).
  rewrite set_binaries_id in Hrun.
  unfold_monad. rewrite Hrun. simpl.
  destruct r as [fh|e]; simpl.
  - subst visited. split; [|done].
    intros (o & g & Hin & Hspawn). by destruct (Hsp o g Hin).
  - destruct Hr as (o & g & after & Hrest & Hspawn). split; [by exists e|].
    intros Hnone. destruct Hnone. exists o, g. split; [|done].
    rewrite Hrest. apply elem_of_app. right. left.
Qed.

(** X12 on the sweep of [case.c]. *)
Lemma sweep_aborts_only_without_compiler_witness :
  value_of (BinaryAnalyzer.generate_variants cc_same_bytes digest_of_content
              (analyzer_case, disk_out)) = Ok tt.
Proof.
  apply (proj2 (sweep_aborts_only_without_compiler cc_same_bytes
                  digest_of_content analyzer_case disk_out)).
  intros (o & g & _ & Hspawn). done.
Defined.

(** X13.  [generate_variants] removes no file and stays in the output
    directory: a path that holds a file before the sweep holds a file
    after it, and a path that is not below the output directory holds
    what it held, whether the sweep returned or was aborted; of the
    analyzer nothing changes but its list of binaries; and when the
    sweep returns, the output path of every pair that compiled holds a
    file, also when the binary was not retained. *)
Theorem sweep_keeps_files
    (cc : list string → compile_outcome)
    (hexdigest : string → string → string)
    (a : BinaryAnalyzer.t) (disk : gmap Path.t node) :
  let run := BinaryAnalyzer.generate_variants cc hexdigest (a, disk) in
  (∀ (p : Path.t) content,
     disk !! p = Some (File content) →
     ∃ content', (state_of run).2 !! p = Some (File content'))
  ∧ (∀ p : Path.t,
       ¬ BinaryAnalyzer.output_dir a `prefix_of` p →
       (state_of run).2 !! p = disk !! p)
  ∧ (state_of run).1
    = BinaryAnalyzer.set_binaries a (BinaryAnalyzer.binaries (state_of run).1)
  ∧ (value_of run = Ok tt →
     ∀ opt_level debug_level output,
       (opt_level, debug_level)
         ∈ sweep_order (BinaryAnalyzer.compiler_config a) →
       compiles_to cc a opt_level debug_level output →
       ∃ content,
         (state_of run).2 !! Binary.file_path (variant a opt_level debug_level)
         = Some (File content)).
Proof.
  intros run. subst run. rewrite generate_variants_pairs.
  destruct (visit_pairs_invariant cc hexdigest a
              (sweep_order (BinaryAnalyzer.compiler_config a)) []
              (BinaryAnalyzer.binaries a) disk ∅)
    as (r & bs' & disk' & visited & Hrun & Hr & Hsp & K3 & K4 & K5 & _).
  rewrite set_binaries_id in Hrun.
  unfold_monad. rewrite Hrun. simpl.
  assert (∀ p : Path.t,
            ¬ BinaryAnalyzer.output_dir a `prefix_of` p →
            disk' !! p = disk !! p) as Hout.
  { intros p Hp. apply K3. intros o g _ ->. apply Hp.
    simpl. unfold Path.div. by apply prefix_app_r. }
  split; [|split; [|split]].
  - by destruct r.
  - by destruct r.
  - by destruct r.
  - destruct r as [fh|e]; simpl; [|done]. subst visited. intros _. done.
Qed.

(** X13 on the sweep of [case.c]: the output of (-O1, -g2), a duplicate
    that is not retained, is on the disk. *)
Lemma sweep_keeps_files_witness :
  ∃ content,
    (state_of (BinaryAnalyzer.generate_variants cc_same_bytes
                 digest_of_content (analyzer_case, disk_out))).2
      !! Binary.file_path (variant analyzer_case "1" "2")
    = Some (File content).
Proof.
  apply (proj2 (proj2 (proj2 (sweep_keeps_files cc_same_bytes
                                digest_of_content analyzer_case disk_out)))
           eq_refl "1" "2" "ELF").
  - right. left.
  - done.
Defined.

(** X14.  The set of hashes belongs to one call of [generate_variants],
    not to the analyzer: a second call on the same analyzer retains
    every binary of the first call once more, so that the hashes of the
    retained binaries are no longer distinct. *)
Theorem second_sweep_retains_again
    (cc : list string → compile_outcome)
    (hexdigest : string → string → string)
    (compiler_config : CompilerConfig.t)
    (evidence_dir source_path output_dir : Path.t)
    (disk : gmap Path.t node) :
  let a := BinaryAnalyzer.init compiler_config evidence_dir source_path
             output_dir in
  let first := state_of (BinaryAnalyzer.generate_variants cc hexdigest
                           (a, disk)) in
  let second := state_of (BinaryAnalyzer.generate_variants cc hexdigest
                            first) in
  BinaryAnalyzer.binaries second.1
  = BinaryAnalyzer.binaries first.1 ++ BinaryAnalyzer.binaries first.1
  ∧ (BinaryAnalyzer.binaries first.1 ≠ [] →
     ¬ NoDup (map Binary.hash_value (BinaryAnalyzer.binaries second.1))).
Proof.
  intros a first second.
  destruct (visit_pairs_new cc hexdigest a
              (sweep_order (BinaryAnalyzer.compiler_config a)) ∅)
    as (new & r & Hrun).
  destruct (Hrun [] disk) as [disk1 Hfirst].
  destruct (Hrun new disk1) as [disk2 Hsecond].
  assert (first = (BinaryAnalyzer.set_binaries a new, disk1)) as Hf.
  { subst first. rewrite generate_variants_pairs. unfold_monad.
    change (BinaryAnalyzer.set_binaries a []) with a in Hfirst.
    rewrite Hfirst. by destruct r. }
  assert (second = (BinaryAnalyzer.set_binaries a (new ++ new), disk2)) as Hs.
  { subst second. rewrite Hf, generate_variants_pairs. unfold_monad.
    change (BinaryAnalyzer.compiler_config (BinaryAnalyzer.set_binaries a new))
      with (BinaryAnalyzer.compiler_config a).
    rewrite Hsecond. by destruct r. }
  rewrite Hs, Hf. simpl. split; [done|].
  intros Hne Hnd. rewrite map_app in Hnd.
  apply NoDup_app in Hnd as (_ & Hdisj & _).
  destruct new as [|b rest]; [done|].
  apply (Hdisj (Binary.hash_value b)); left.
Qed.

(** X14 on the sweep of [case.c]. *)
Lemma second_sweep_retains_again_witness :
  ¬ NoDup (map Binary.hash_value
             (BinaryAnalyzer.binaries
                (state_of
                   (BinaryAnalyzer.generate_variants cc_same_bytes
                      digest_of_content
                      (state_of
                         (BinaryAnalyzer.generate_variants cc_same_bytes
                            digest_of_content
                            (analyzer_case, disk_out))))).1)).
Proof.
  apply (proj2 (second_sweep_retains_again cc_same_bytes digest_of_content
                  (CompilerConfig.Make "clang" ["0"; "1"] ["2"])
                  ["evidence"] ["src"; "case.c"] ["out"] disk_out)).
  by vm_compute.
Defined.

(** ** More on [cleanup] *)

(** [Binary.cleanup] on any disk. *)
Lemma binary_cleanup_cases (b : Binary.t) (disk : gmap Path.t node) :
  Binary.cleanup b disk
  = match disk !! Binary.file_path b with
    | Some Dir => (Raise (OSError "IsADirectoryError"), disk, [])
    | _ => (Ok (Binary.set_line_numbers b []),
            delete (Binary.file_path b) disk, [])
    end.
Proof.
  destruct (disk !! Binary.file_path b) as [[content|]|] eqn:Hlook.
  - apply binary_cleanup_run. by rewrite Hlook.
  - unfold Binary.cleanup, Disk.exists_, Disk.unlink. unfold_monad.
    rewrite bool_decide_eq_true_2 by eauto. by rewrite Hlook.
  - apply binary_cleanup_run. by rewrite Hlook.
Qed.

(** Whatever the disk holds, the loop of [cleanup] changes nothing of
    the analyzer but its binaries, whose number it keeps. *)
Lemma cleanup_binaries_shape (todo : list Binary.t) :
  ∀ (i : nat) (a : BinaryAnalyzer.t) (bs0 : list Binary.t)
    (disk : gmap Path.t node),
  ∃ r bs disk',
    BinaryAnalyzer.cleanup_binaries i todo
      (BinaryAnalyzer.set_binaries a bs0, disk)
    = (r, (BinaryAnalyzer.set_binaries a bs, disk'), [])
    ∧ length bs = length bs0.
Proof.
  induction todo as [|b rest IH]; intros i a bs0 disk; simpl.
  - by exists (Ok tt), bs0, disk.
  - unfold_monad. unfold BinaryAnalyzer.on_disk, BinaryAnalyzer.self,
      BinaryAnalyzer.assign_binaries. simpl.
    rewrite binary_cleanup_cases.
    destruct (disk !! Binary.file_path b) as [[content|]|] eqn:Hlook; simpl.
    2: by exists (Raise (OSError "IsADirectoryError")), bs0, disk.
    all: destruct (IH (S i) a (<[i:=Binary.set_line_numbers b []]> bs0)
                     (delete (Binary.file_path b) disk))
           as (r & bs & disk' & Hrun & Hlen);
         match goal with
         | |- context [BinaryAnalyzer.cleanup_binaries _ _ ?s] =>
             change s with
               (BinaryAnalyzer.set_binaries a
                  (<[i:=Binary.set_line_numbers b []]> bs0),
                delete (Binary.file_path b) disk)
         end;
         rewrite Hrun; simpl; exists r, bs, disk';
         split; [done|]; by rewrite Hlen, length_insert.
Qed.

(** A call of [cleanup] that returns leaves no binary, and an output
    directory that is absent or has an entry. *)
Lemma cleanup_result (a : BinaryAnalyzer.t) (disk : gmap Path.t node) :
  value_of (BinaryAnalyzer.cleanup (a, disk)) = Ok tt →
  ∃ disk',
    BinaryAnalyzer.cleanup (a, disk)
    = (Ok tt, (BinaryAnalyzer.set_binaries a [], disk'), [])
    ∧ (disk' !! BinaryAnalyzer.output_dir a = None
       ∨ (disk' !! BinaryAnalyzer.output_dir a = Some Dir
          ∧ Disk.entries (BinaryAnalyzer.output_dir a) disk' ≠ [])).
Proof.
  destruct (cleanup_binaries_shape (BinaryAnalyzer.binaries a) 0%nat a
              (BinaryAnalyzer.binaries a) disk)
    as (r & bs & d1 & Hrun & _).
  rewrite set_binaries_id in Hrun.
  unfold BinaryAnalyzer.cleanup. unfold_monad.
  unfold BinaryAnalyzer.self at 1. simpl. rewrite Hrun.
  destruct r as [[]|e]; simpl; [|done].
  unfold BinaryAnalyzer.on_disk, Disk.exists_, Disk.iterdir, Disk.rmdir. simpl.
  destruct (d1 !! BinaryAnalyzer.output_dir a) as [[content|]|] eqn:Hout.
  - rewrite bool_decide_eq_true_2 by eauto. simpl. by rewrite ?Hout.
  - rewrite bool_decide_eq_true_2 by eauto. simpl. rewrite ?Hout. simpl.
    destruct (Disk.entries (BinaryAnalyzer.output_dir a) d1)
      as [|entry rest] eqn:Hentries; simpl.
    + rewrite ?Hout, ?Hentries. simpl. intros _.
      eexists. split; [done|]. left. apply lookup_delete_eq.
    + intros _. exists d1. split; [done|]. right. by rewrite Hentries.
  - rewrite bool_decide_eq_false_2 by (by intros [? ?]). simpl. intros _.
    exists d1. split; [done|]. by left.
Qed.

Lemma cleanup_settled (a : BinaryAnalyzer.t) (disk : gmap Path.t node) :
  disk !! BinaryAnalyzer.output_dir a = None
  ∨ (disk !! BinaryAnalyzer.output_dir a = Some Dir
     ∧ Disk.entries (BinaryAnalyzer.output_dir a) disk ≠ []) →
  BinaryAnalyzer.cleanup (BinaryAnalyzer.set_binaries a [], disk)
  = (Ok tt, (BinaryAnalyzer.set_binaries a [], disk), []).
Proof.
  unfold BinaryAnalyzer.cleanup. unfold_monad.
  unfold BinaryAnalyzer.self, BinaryAnalyzer.assign_binaries,
    BinaryAnalyzer.on_disk, Disk.exists_, Disk.iterdir. simpl.
  intros [Hout|[Hout Hentries]].
  - by rewrite bool_decide_eq_false_2 by (rewrite Hout; by intros [? ?]).
  - rewrite bool_decide_eq_true_2 by eauto. simpl. rewrite Hout.
    by destruct (Disk.entries (BinaryAnalyzer.output_dir a) disk).
Qed.

(** X15.  [BinaryAnalyzer.cleanup] can be repeated: after a call that
    returned, a second call returns too and changes neither the analyzer
    nor the disk. *)
Theorem cleanup_idempotent (a : BinaryAnalyzer.t) (disk : gmap Path.t node) :
  value_of (BinaryAnalyzer.cleanup (a, disk)) = Ok tt →
  BinaryAnalyzer.cleanup (state_of (BinaryAnalyzer.cleanup (a, disk)))
  = (Ok tt, state_of (BinaryAnalyzer.cleanup (a, disk)), []).
Proof.
  intros Hok. destruct (cleanup_result a disk Hok) as (disk' & -> & Hdir).
  by apply cleanup_settled.
Qed.

(** X15 on the state after the visit of (-O0, -g2). *)
Lemma cleanup_idempotent_witness :
  BinaryAnalyzer.cleanup (state_of (BinaryAnalyzer.cleanup after_O0))
  = (Ok tt, state_of (BinaryAnalyzer.cleanup after_O0), []).
Proof.
  destruct after_O0 as [a disk] eqn:Hstate.
  apply (cleanup_idempotent a disk).
  apply (f_equal fst) in Hstate as Ha. apply (f_equal snd) in Hstate as Hd.
  simpl in Ha, Hd. subst a disk. by vm_compute.
Defined.


(** [cleanup] when no artifact path is a directory. *)
Lemma cleanup_cases (a : BinaryAnalyzer.t) (disk : gmap Path.t node) :
  (∀ b, b ∈ BinaryAnalyzer.binaries a →
        disk !! Binary.file_path b ≠ Some Dir) →
  let unlinked := without_artifacts (BinaryAnalyzer.binaries a) disk in
  BinaryAnalyzer.cleanup (a, disk)
  = match unlinked !! BinaryAnalyzer.output_dir a with
    | Some (File _) =>
        (Raise (OSError "NotADirectoryError"),
         (BinaryAnalyzer.set_binaries a [], unlinked), [])
    | Some Dir =>
        match Disk.entries (BinaryAnalyzer.output_dir a) unlinked with
        | [] => (Ok tt, (BinaryAnalyzer.set_binaries a [],
                         delete (BinaryAnalyzer.output_dir a) unlinked), [])
        | _ :: _ => (Ok tt, (BinaryAnalyzer.set_binaries a [], unlinked), [])
        end
    | None => (Ok tt, (BinaryAnalyzer.set_binaries a [], unlinked), [])
    end.
Proof.
  intros Hnodir unlinked. subst unlinked.
  destruct (cleanup_binaries_run (BinaryAnalyzer.binaries a) 0%nat a disk
              Hnodir) as [bs Hrun].
  remember (without_artifacts (BinaryAnalyzer.binaries a) disk) as unlinked.
  unfold BinaryAnalyzer.cleanup. unfold_monad.
  unfold BinaryAnalyzer.self at 1. simpl. rewrite Hrun. simpl.
  unfold BinaryAnalyzer.on_disk, Disk.exists_, Disk.iterdir, Disk.rmdir.
  simpl.
  destruct (unlinked !! BinaryAnalyzer.output_dir a) as [[content|]|]
    eqn:Hout.
  - rewrite bool_decide_eq_true_2 by eauto. simpl. by rewrite ?Hout.
  - rewrite bool_decide_eq_true_2 by eauto. simpl. rewrite ?Hout. simpl.
    destruct (Disk.entries (BinaryAnalyzer.output_dir a) unlinked)
      as [|entry rest] eqn:Hentries; simpl; by rewrite ?Hout, ?Hentries.
  - by rewrite bool_decide_eq_false_2 by (by intros [? ?]).
Qed.



(** ** Which issues are recorded *)

(** X17.  An issue is in the list of [_find_issues_type1_2] exactly when
    it is made from a debug value read at a verified line of the binary
    whose error message is not empty and is either not a known error or
    that of a pointer.  A value without error message, or a known error
    of a value that is not a pointer, gives no issue. *)
Theorem issue_recorded_iff
    (get_debug_values : string → string → Z → list DebugValue)
    (binary : Binary.t) (issue : Issue) :
  issue ∈ BinaryAnalyzer._find_issues_type1_2 get_debug_values binary
  ↔ ∃ source_file lines line debug_value,
      (source_file, lines) ∈ Binary.line_numbers binary
      ∧ line ∈ lines
      ∧ debug_value ∈ get_debug_values source_file
                        (Path.str (Binary.file_path binary)) line
      ∧ BinaryAnalyzer.has_error debug_value = true
      ∧ (is_known_error debug_value = false ∨ is_pointer debug_value = true)
      ∧ issue = BinaryAnalyzer.make_issue binary source_file line debug_value.
Proof.
  unfold BinaryAnalyzer._find_issues_type1_2.
  rewrite list_elem_of_In, in_flat_map. split.
  - intros ([source_file lines] & Hfile & Hin).
    apply in_flat_map in Hin as (line & Hline & Hin).
    apply in_flat_map in Hin as (debug_value & Hvalue & Hin).
    exists source_file, lines, line, debug_value.
    rewrite !list_elem_of_In. split; [done|]. split; [done|]. split; [done|].
    unfold BinaryAnalyzer.issues_of_value in Hin.
    destruct (BinaryAnalyzer.has_error debug_value),
      (is_known_error debug_value), (is_pointer debug_value);
      simpl in Hin; intuition (subst; auto).
  - intros (source_file & lines & line & debug_value & Hfile & Hline & Hvalue
            & Herr & Hrule & ->).
    exists (source_file, lines). split; [by apply list_elem_of_In|].
    apply in_flat_map. exists line. split; [by apply list_elem_of_In|].
    apply in_flat_map. exists debug_value. split; [by apply list_elem_of_In|].
    unfold BinaryAnalyzer.issues_of_value. rewrite Herr.
    destruct Hrule as [-> | ->]; simpl.
    + by left.
    + destruct (is_known_error debug_value); simpl; [by left|by left].
Qed.

(** ** The patterns of [parse_debug_line] *)

Section Strings.

Lemma str_nil_l (s : string) : ("" ++ s)%string = s.
Proof. done. Qed.

Lemma str_cons (c : ascii) (s t : string) :
  (String c s ++ t)%string = String c (s ++ t).
Proof. done. Qed.

Lemma str_app_nil_r (s : string) : (s ++ "")%string = s.
Proof.
  induction s as [|c s IH]; [done|]. by rewrite str_cons, IH.
Qed.

Lemma str_app_assoc (s1 s2 s3 : string) :
  ((s1 ++ s2) ++ s3)%string = (s1 ++ (s2 ++ s3))%string.
Proof.
  induction s1 as [|c s1 IH]; [done|]. by rewrite !str_cons, IH.
Qed.

Lemma prefix_app (t s : string) : String.prefix t (t ++ s) = true.
Proof.
  induction t as [|c t IH]; [by destruct s|].
  rewrite str_cons. simpl. destruct (ascii_dec c c); [done|congruence].
Qed.

Lemma skip_app (t s : string) : Re.skip (String.length t) (t ++ s) = s.
Proof.
  induction t as [|c t IH]; [by destruct s|]. by rewrite str_cons.
Qed.

Lemma extend_nil cur : Re.extend cur "" = cur.
Proof. destruct cur as [m|]; simpl; [by rewrite str_app_nil_r|done]. Qed.

Lemma extend_extend cur s1 s2 :
  Re.extend (Re.extend cur s1) s2 = Re.extend cur (s1 ++ s2).
Proof. destruct cur as [m|]; simpl; [by rewrite str_app_assoc|done]. Qed.

Lemma all_in_app class s1 s2 :
  all_in class (s1 ++ s2) = all_in class s1 && all_in class s2.
Proof.
  induction s1 as [|c s1 IH]; [done|]. rewrite str_cons. simpl.
  by rewrite IH, andb_assoc.
Qed.

Lemma length_app_str (s1 s2 : string) :
  String.length (s1 ++ s2) = (String.length s1 + String.length s2)%nat.
Proof.
  induction s1 as [|c s1 IH]; [done|]. rewrite str_cons. simpl. by rewrite IH.
Qed.

End Strings.

Section Repetition.

Context {R : Type}.
Variable class : ascii → bool.
Variable least : nat.
Variable k : string → option string → option R.

(** A match of a repetition takes some characters of the class, at
    least [least] with the [n] taken before, and the rest of the
    pattern matches what follows. *)
Lemma rep_sound greedy (s : string) : ∀ n cur r,
  Re.rep class least greedy k s n cur = Some r →
  ∃ run rest,
    s = (run ++ rest)%string ∧ all_in class run = true
    ∧ (least ≤ n + String.length run)%nat
    ∧ k rest (Re.extend cur run) = Some r.
Proof.
  induction s as [|c s IH]; intros n cur r; simpl.
  - destruct (least <=? n)%nat eqn:Hn; [|done].
    intros Hk. exists "", "". rewrite extend_nil.
    apply Nat.leb_le in Hn. split; [done|]. split; [done|]. split; [lia|done].
  - assert ((if (least <=? n)%nat then k (String c s) cur else None) = Some r →
            ∃ run rest,
              String c s = (run ++ rest)%string ∧ all_in class run = true
              ∧ (least ≤ n + String.length run)%nat
              ∧ k rest (Re.extend cur run) = Some r) as Hstop.
    { destruct (least <=? n)%nat eqn:Hn; [|done].
      intros Hk. exists "", (String c s). rewrite extend_nil.
      apply Nat.leb_le in Hn. split; [done|]. split; [done|].
      split; [lia|done]. }
    assert (class c = true →
            Re.rep class least greedy k s (S n)
              (Re.extend cur (String c "")) = Some r →
            ∃ run rest,
              String c s = (run ++ rest)%string ∧ all_in class run = true
              ∧ (least ≤ n + String.length run)%nat
              ∧ k rest (Re.extend cur run) = Some r) as Hmore.
    { intros Hc Hrep.
      destruct (IH _ _ _ Hrep) as (run & rest & -> & Hall & Hlen & Hk).
      exists (String c run), rest. rewrite str_cons. simpl. rewrite Hc, Hall.
      rewrite extend_extend, str_cons, str_nil_l in Hk.
      split; [done|]. split; [done|]. split; [lia|done]. }
    destruct (class c) eqn:Hc; [|done].
    destruct greedy.
    + destruct (Re.rep class least true k s (S n) _) as [r'|] eqn:Hrep.
      * intros [= <-]. by apply Hmore.
      * done.
    + destruct (if (least <=? n)%nat then k (String c s) cur else None)
        as [r'|] eqn:Hs.
      * intros [= <-]. by apply Hstop.
      * by apply Hmore.
Qed.

(** A greedy repetition takes the whole run of characters of the class
    when the rest of the pattern matches after it. *)
Lemma rep_greedy_all (run : string) : ∀ s n cur r,
  all_in class run = true → starts_outside class s = true →
  (least ≤ n + String.length run)%nat →
  k s (Re.extend cur run) = Some r →
  Re.rep class least true k (run ++ s) n cur = Some r.
Proof.
  induction run as [|c run IH]; intros s n cur r Hall Hout Hlen Hk;
    rewrite ?str_nil_l, ?str_cons; simpl.
  - rewrite extend_nil in Hk. simpl in Hlen.
    destruct s as [|c s]; simpl;
      rewrite (proj2 (Nat.leb_le least n)) by lia; [done|].
    simpl in Hout. apply negb_true_iff in Hout. by rewrite Hout.
  - simpl in Hall. apply andb_true_iff in Hall as [Hc Hall]. rewrite Hc.
    rewrite (IH s (S n) (Re.extend cur (String c "")) r); [done|done|done| |].
    + simpl in Hlen. lia.
    + by rewrite extend_extend, str_cons, str_nil_l.
Qed.

(** A greedy repetition gives back the characters after which the rest
    of the pattern fails. *)
Lemma rep_greedy_back (back : string) : ∀ s n cur,
  all_in class back = true →
  (∀ taken left, (back ++ s)%string = (taken ++ left)%string →
                 taken ≠ "" → all_in class taken = true →
                 k left (Re.extend cur taken) = None) →
  Re.rep class least true k (back ++ s) n cur
  = if (least <=? n)%nat then k (back ++ s)%string cur else None.
Proof.
  induction back as [|c back IH]; intros s n cur Hall Hfail;
    rewrite ?str_nil_l, ?str_cons; simpl.
  - destruct s as [|c s]; simpl; [done|].
    destruct (class c) eqn:Hc; [|done].
    assert (Re.rep class least true k s (S n) (Re.extend cur (String c ""))
            = None) as ->; [|done].
    destruct (Re.rep class least true k s (S n) _) as [r|] eqn:Hrep; [|done].
    apply rep_sound in Hrep as (run & rest & -> & Hrun & _ & Hk).
    rewrite extend_extend, str_cons, str_nil_l in Hk.
    rewrite (Hfail (String c run) rest) in Hk; [done|done|done|].
    simpl. by rewrite Hc, Hrun.
  - simpl in Hall. apply andb_true_iff in Hall as [Hc Hall]. rewrite Hc.
    rewrite IH; [|done|].
    + destruct (least <=? S n)%nat.
      * rewrite (Hfail (String c "") (back ++ s)%string); [done|done|done|].
        simpl. by rewrite Hc.
      * done.
    + intros taken left Heq Hne Htaken.
      rewrite extend_extend, str_cons, str_nil_l.
      apply Hfail; [by rewrite !str_cons, Heq|done|]. simpl.
      by rewrite Hc, Htaken.
Qed.

End Repetition.

Lemma search_here items s groups rest :
  Re.exec items s None [] = Some (groups, rest) →
  Re.search items s = Some groups.
Proof. intros H. destruct s; simpl; by rewrite H. Qed.

Lemma search_next items c s :
  Re.exec items (String c s) None [] = None →
  Re.search items (String c s) = Re.search items s.
Proof. intros H. simpl. by rewrite H. Qed.

(** A match that [search] finds is a match at some position. *)
Lemma search_sound items s : ∀ groups,
  Re.search items s = Some groups →
  ∃ before here rest,
    s = (before ++ here)%string
    ∧ Re.exec items here None [] = Some (groups, rest).
Proof.
  induction s as [|c s IH]; intros groups; simpl.
  - destruct (Re.exec items "" None []) as [[g rest]|] eqn:Hexec; [|done].
    intros [= <-]. by exists "", "", rest.
  - destruct (Re.exec items (String c s) None []) as [[g rest]|] eqn:Hexec.
    + intros [= <-]. by exists "", (String c s), rest.
    + intros Hs. destruct (IH _ Hs) as (before & here & rest & -> & He).
      exists (String c before), here, rest. by rewrite str_cons.
Qed.

Section Classes.

Lemma space_not_digit c : Re.space c = true → Re.digit c = false.
Proof. destruct c as [[] [] [] [] [] [] [] []]; by vm_compute. Qed.

Lemma space_not_hex c : Re.space c = true → Re.hex_lower c = false.
Proof. destruct c as [[] [] [] [] [] [] [] []]; by vm_compute. Qed.

Lemma digit_not_space c : Re.digit c = true → Re.space c = false.
Proof. destruct c as [[] [] [] [] [] [] [] []]; by vm_compute. Qed.

Lemma hex_value c : Re.hex_lower c = true → (0 ≤ Str.digit_value c)%Z.
Proof. destruct c as [[] [] [] [] [] [] [] []]; by vm_compute. Qed.

Lemma digit_hex c : Re.digit c = true → Re.hex_lower c = true.
Proof. unfold Re.hex_lower. by intros ->. Qed.

Lemma all_in_weaken (class1 class2 : ascii → bool) s :
  (∀ c, class1 c = true → class2 c = true) →
  all_in class1 s = true → all_in class2 s = true.
Proof.
  intros Hsub. induction s as [|c s IH]; simpl; [done|].
  intros [Hc Hs]%andb_true_iff. by rewrite (Hsub c Hc), IH.
Qed.

Lemma int_from_nonneg base s : ∀ acc,
  (0 ≤ base)%Z → (0 ≤ acc)%Z → all_in Re.hex_lower s = true →
  (0 ≤ Str.int_from base acc s)%Z.
Proof.
  induction s as [|c s IH]; intros acc Hbase Hacc; simpl; [done|].
  intros [Hc Hs]%andb_true_iff. apply IH; [done| |done].
  pose proof (hex_value c Hc). nia.
Qed.

Lemma decimal_nonneg s : all_in Re.digit s = true → (0 ≤ decimal s)%Z.
Proof.
  intros Hs. apply int_from_nonneg; [done|done|].
  eapply all_in_weaken; [apply digit_hex|done].
Qed.

(** [int] returns the number that the text writes, when it returns. *)
Lemma int_cases max_str_digits s :
  Str.int max_str_digits s
  = if Str.over_limit max_str_digits s then None else Some (decimal s).
Proof. done. Qed.

Lemma int_nonneg max_str_digits s v :
  all_in Re.digit s = true → Str.int max_str_digits s = Some v → (0 ≤ v)%Z.
Proof.
  intros Hs. rewrite int_cases. destruct (Str.over_limit _ _); [done|].
  intros [= <-]. by apply decimal_nonneg.
Qed.

Lemma int16_nonneg s : all_in Re.hex_lower s = true → (0 ≤ Str.int16 s)%Z.
Proof. intros Hs. by apply int_from_nonneg. Qed.

(** A text that starts with a character of one class starts outside a
    class that is disjoint from it. *)
Lemma starts_outside_app (class1 class2 : ascii → bool) s rest :
  (∀ c, class1 c = true → class2 c = false) →
  some_of class1 s → starts_outside class2 (s ++ rest) = true.
Proof.
  intros Hdisj [Hne Hall]. destruct s as [|c s]; [done|].
  rewrite str_cons. simpl in *. apply andb_true_iff in Hall as [Hc _].
  by rewrite (Hdisj c Hc).
Qed.

End Classes.

Section Strip.

Lemma lstrip_outside s : starts_outside Re.space s = true → Str.lstrip s = s.
Proof.
  destruct s as [|c s]; simpl; [done|].
  intros Hc%negb_true_iff. by rewrite Hc.
Qed.

Lemma lstrip_starts s : starts_outside Re.space (Str.lstrip s) = true.
Proof.
  induction s as [|c s IH]; simpl; [done|].
  destruct (Re.space c) eqn:Hc; [done|]. simpl. by rewrite Hc.
Qed.

Lemma rstrip_starts s :
  starts_outside Re.space s = true →
  starts_outside Re.space (Str.rstrip s) = true.
Proof.
  destruct s as [|c s]; simpl; [done|]. intros Hc.
  destruct (Str.rstrip s); [|done].
  apply negb_true_iff in Hc. rewrite Hc. simpl. by rewrite Hc.
Qed.

Lemma rstrip_idem s : Str.rstrip (Str.rstrip s) = Str.rstrip s.
Proof.
  induction s as [|c s IH]; simpl; [done|].
  destruct (Str.rstrip s) as [|c' kept] eqn:Hkept.
  - destruct (Re.space c) eqn:Hc; simpl; [done|by rewrite Hc].
  - change (Str.rstrip (String c (String c' kept))
            = String c (String c' kept)).
    rewrite <- IH at 2. simpl.
    simpl in IH. destruct (Str.rstrip kept) as [|c2 kept2] eqn:Hk2.
    + destruct (Re.space c'); [done|]. done.
    + done.
Qed.

Lemma strip_idem s : Str.strip (Str.strip s) = Str.strip s.
Proof.
  unfold Str.strip.
  rewrite (lstrip_outside (Str.rstrip (Str.lstrip s))).
  - apply rstrip_idem.
  - apply rstrip_starts, lstrip_starts.
Qed.

End Strip.

(** The pattern of a row on the text of a row. *)
Lemma row_match address gap1 line gap2 column gap3 file gap4 isa gap5
    discriminator gap6 flags :
  some_of Re.hex_lower address → some_of Re.space gap1 →
  some_of Re.digit line → some_of Re.space gap2 →
  some_of Re.digit column → some_of Re.space gap3 →
  some_of Re.digit file → some_of Re.space gap4 →
  some_of Re.digit isa → some_of Re.space gap5 →
  some_of Re.digit discriminator → some_of Re.space gap6 →
  all_in Re.not_newline flags = true →
  starts_outside Re.space flags = true →
  Re.search DebugLine.line_entry_pattern
    (row_text address gap1 line gap2 column gap3 file gap4 isa gap5
       discriminator gap6 flags)
  = Some [address; line; column; file; isa; discriminator; flags].
Proof.
  intros Ha Hg1 Hl Hg2 Hc Hg3 Hf Hg4 Hi Hg5 Hd Hg6 Hflags Hout.
  eapply search_here. unfold row_text, DebugLine.line_entry_pattern.
  cbn [Re.exec]. rewrite prefix_app, skip_app.
  assert (∀ s, some_of Re.digit s → (1 ≤ 0 + String.length s)%nat) as Hlen.
  { intros [|c s] [Hne _]; [done|simpl; lia]. }
  assert (∀ s, some_of Re.space s → (1 ≤ 0 + String.length s)%nat) as Hlen'.
  { intros [|c s] [Hne _]; [done|simpl; lia]. }
  apply rep_greedy_all; [apply Ha| |destruct address; [by destruct Ha|simpl; lia]|].
  { eapply starts_outside_app; [apply space_not_hex|done]. }
  cbn [Re.exec Re.extend default]. rewrite str_nil_l.
  apply rep_greedy_all; [apply Hg1| |by apply Hlen'|].
  { eapply starts_outside_app; [apply digit_not_space|done]. }
  cbn [Re.exec Re.extend default].
  apply rep_greedy_all; [apply Hl| |by apply Hlen|].
  { eapply starts_outside_app; [apply space_not_digit|done]. }
  cbn [Re.exec Re.extend default]. rewrite str_nil_l.
  apply rep_greedy_all; [apply Hg2| |by apply Hlen'|].
  { eapply starts_outside_app; [apply digit_not_space|done]. }
  cbn [Re.exec Re.extend default].
  apply rep_greedy_all; [apply Hc| |by apply Hlen|].
  { eapply starts_outside_app; [apply space_not_digit|done]. }
  cbn [Re.exec Re.extend default]. rewrite str_nil_l.
  apply rep_greedy_all; [apply Hg3| |by apply Hlen'|].
  { eapply starts_outside_app; [apply digit_not_space|done]. }
  cbn [Re.exec Re.extend default].
  apply rep_greedy_all; [apply Hf| |by apply Hlen|].
  { eapply starts_outside_app; [apply space_not_digit|done]. }
  cbn [Re.exec Re.extend default]. rewrite str_nil_l.
  apply rep_greedy_all; [apply Hg4| |by apply Hlen'|].
  { eapply starts_outside_app; [apply digit_not_space|done]. }
  cbn [Re.exec Re.extend default].
  apply rep_greedy_all; [apply Hi| |by apply Hlen|].
  { eapply starts_outside_app; [apply space_not_digit|done]. }
  cbn [Re.exec Re.extend default]. rewrite str_nil_l.
  apply rep_greedy_all; [apply Hg5| |by apply Hlen'|].
  { eapply starts_outside_app; [apply digit_not_space|done]. }
  cbn [Re.exec Re.extend default].
  apply rep_greedy_all; [apply Hd| |by apply Hlen|].
  { eapply starts_outside_app; [apply space_not_digit|done]. }
  cbn [Re.exec Re.extend default]. rewrite str_nil_l.
  apply rep_greedy_all; [apply Hg6|done|by apply Hlen'|].
  cbn [Re.exec Re.extend default].
  rewrite <- (str_app_nil_r flags) at 1.
  apply rep_greedy_all; [done|done|lia|].
  cbn [Re.exec Re.extend default]. by rewrite str_nil_l.
Qed.

(** The dict of a row, from the texts of its groups. *)
Lemma entry_of_cases max_str_digits address line column file isa
    discriminator flags :
  DebugLine.entry_of max_str_digits
    [address; line; column; file; isa; discriminator; flags]
  = if existsb (Str.over_limit max_str_digits)
         [line; column; file; isa; discriminator]
    then None
    else Some (LineEntry (Str.int16 address) (decimal line) (decimal column)
                 (decimal file) (decimal isa) (decimal discriminator)
                 (Str.strip flags)).
Proof.
  unfold DebugLine.entry_of, Re.group. cbn [nth Nat.sub existsb].
  rewrite !int_cases.
  repeat (match goal with
          | |- context [Str.over_limit ?m ?s] =>
              destruct (Str.over_limit m s)
          end; simpl; try done).
Qed.

(** X18.  Outside the file table, a line that is a row of the line
    table (an address in hexadecimal after [0x], five decimal numbers
    and the flags, separated by white space) appends one entry to
    [line_info]: the numbers read in base 16 and 10, and the flags
    without the white space that ends them; unless one of the five
    decimal numbers has more digits than [int] accepts, in which case
    [ValueError] is raised and nothing is appended. *)
Theorem row_is_recorded (max_str_digits : N) (st : DebugLine.state)
    (address gap1 line gap2 column gap3 file gap4 isa gap5
       discriminator gap6 flags : string) :
  some_of Re.hex_lower address → some_of Re.space gap1 →
  some_of Re.digit line → some_of Re.space gap2 →
  some_of Re.digit column → some_of Re.space gap3 →
  some_of Re.digit file → some_of Re.space gap4 →
  some_of Re.digit isa → some_of Re.space gap5 →
  some_of Re.digit discriminator → some_of Re.space gap6 →
  all_in Re.not_newline flags = true →
  starts_outside Re.space flags = true →
  DebugLine.parsing_file_table st = false →
  DebugLine.step max_str_digits st
    (row_text address gap1 line gap2 column gap3 file gap4 isa gap5
       discriminator gap6 flags)
  = if existsb (Str.over_limit max_str_digits)
         [line; column; file; isa; discriminator]
    then IntValueError
    else
      Parsed
        (DebugLine.State (DebugLine.file_table st)
           (DebugLine.line_info st
              ++ [LineEntry (Str.int16 address) (decimal line)
                    (decimal column) (decimal file) (decimal isa)
                    (decimal discriminator) (Str.strip flags)])
           (DebugLine.current_file st) false).
Proof.
  intros Ha Hg1 Hl Hg2 Hc Hg3 Hf Hg4 Hi Hg5 Hd Hg6 Hflags Hout Hmode.
  unfold DebugLine.step.
  rewrite (row_match _ _ _ _ _ _ _ _ _ _ _ _ _ Ha Hg1 Hl Hg2 Hc Hg3 Hf Hg4 Hi
             Hg5 Hd Hg6 Hflags Hout).
  rewrite Hmode, entry_of_cases. unfold row_text. rewrite !str_cons.
  cbn [String.prefix]. by destruct (existsb _ _).
Qed.

(** X18 on a row as [llvm-dwarfdump] prints it, and on a row whose line
    number has 4301 digits, under the limit of 4300 digits. *)
Lemma row_is_recorded_witness :
  DebugLine.step 4300 DebugLine.initial
    "0x0000000000401106      3      0      1   0             0  is_stmt"
  = Parsed
      (DebugLine.State ∅ [LineEntry 4198662 3 0 1 0 0 "is_stmt"] None false)
  ∧ DebugLine.step 4300 DebugLine.initial
      (row_text "0000000000401106" " " (ones 4301) " " "0" " " "1" " " "0"
         " " "0" " " "is_stmt")
    = IntValueError.
Proof.
  split.
  - apply (row_is_recorded 4300 DebugLine.initial "0000000000401106" "      "
             "3" "      " "0" "      " "1" "   " "0" "             " "0" "  "
             "is_stmt"); try (split; [done|by vm_compute]); by vm_compute.
  - etrans.
    + apply (row_is_recorded 4300 DebugLine.initial "0000000000401106" " "
               (ones 4301) " " "0" " " "1" " " "0" " " "0" " " "is_stmt");
        try (split; [done|by vm_compute]); by vm_compute.
    + by vm_compute.
Defined.

(** ** What [parse_debug_line] returns *)

Ltac rep_inv H :=
  let run := fresh "run" in
  let rest := fresh "rest" in
  let Hall := fresh "Hall" in
  let Hlen := fresh "Hlen" in
  apply rep_sound in H as (run & rest & ? & Hall & Hlen & H);
  cbn [Re.exec Re.extend default] in H.

Ltac lit_inv H :=
  match type of H with
  | (if ?b then _ else _) = Some _ =>
      destruct b; [cbn [Re.exec Re.extend default] in H|discriminate H]
  end.

Lemma some_of_intro class run :
  all_in class run = true → (1 ≤ 0 + String.length run)%nat →
  some_of class run.
Proof.
  intros Hall Hlen. split; [|done].
  destruct run; [simpl in Hlen; lia|done].
Qed.

Lemma header_groups line groups :
  Re.search DebugLine.file_table_pattern line = Some groups →
  ∃ index, groups = [index] ∧ some_of Re.digit index.
Proof.
  intros (before & here & rest & -> & H)%search_sound.
  unfold DebugLine.file_table_pattern in H. cbn [Re.exec] in H.
  lit_inv H. rep_inv H. rep_inv H. lit_inv H.
  injection H as <- _. rewrite str_nil_l. eexists. split; [done|].
  by apply some_of_intro.
Qed.

Lemma name_groups line groups :
  Re.search DebugLine.file_name_pattern line = Some groups →
  ∃ name, groups = [name] ∧ some_of Re.not_newline name.
Proof.
  intros (before & here & rest & -> & H)%search_sound.
  unfold DebugLine.file_name_pattern in H. cbn [Re.exec] in H.
  lit_inv H. rep_inv H. lit_inv H.
  injection H as <- _. rewrite str_nil_l. eexists. split; [done|].
  by apply some_of_intro.
Qed.

Lemma dir_index_groups line groups :
  Re.search DebugLine.dir_index_pattern line = Some groups →
  ∃ index, groups = [index] ∧ some_of Re.digit index.
Proof.
  intros (before & here & rest & -> & H)%search_sound.
  unfold DebugLine.dir_index_pattern in H. cbn [Re.exec] in H.
  lit_inv H. rep_inv H.
  injection H as <- _. rewrite str_nil_l. eexists. split; [done|].
  by apply some_of_intro.
Qed.

Lemma row_groups line groups :
  Re.search DebugLine.line_entry_pattern line = Some groups →
  ∃ address line_num column file_num isa discriminator flags,
    groups = [address; line_num; column; file_num; isa; discriminator; flags]
    ∧ some_of Re.hex_lower address ∧ some_of Re.digit line_num
    ∧ some_of Re.digit column ∧ some_of Re.digit file_num
    ∧ some_of Re.digit isa ∧ some_of Re.digit discriminator
    ∧ all_in Re.not_newline flags = true.
Proof.
  intros (before & here & rest & -> & H)%search_sound.
  unfold DebugLine.line_entry_pattern in H. cbn [Re.exec] in H.
  lit_inv H. do 13 rep_inv H.
  injection H as <- _. rewrite !str_nil_l. simpl.
  do 7 eexists. split; [done|].
  do 6 (split; [by apply some_of_intro|]). done.
Qed.

Lemma entry_of_wellformed max_str_digits line groups entry :
  Re.search DebugLine.line_entry_pattern line = Some groups →
  DebugLine.entry_of max_str_digits groups = Some entry →
  entry_wellformed entry.
Proof.
  intros (a & l & c & f & i & d & fl & -> & Ha & Hl & Hc & Hf & Hi & Hd & _)
    %row_groups.
  rewrite entry_of_cases. destruct (existsb _ _); [done|]. intros [= <-].
  unfold entry_wellformed. simpl.
  split; [|apply strip_idem].
  split; [apply int16_nonneg, Ha|].
  do 4 (split; [apply decimal_nonneg;
                match goal with
                | H : some_of _ ?s |- all_in _ ?s = true => apply H
                end|]).
  apply decimal_nonneg, Hd.
Qed.

(** A row that [int] refuses carries a long number. *)
Lemma entry_of_refused max_str_digits line groups :
  Re.search DebugLine.line_entry_pattern line = Some groups →
  DebugLine.entry_of max_str_digits groups = None →
  long_number max_str_digits line.
Proof.
  intros Hsearch.
  destruct (row_groups _ _ Hsearch)
    as (a & l & c & f & i & d & fl & -> & _).
  rewrite entry_of_cases. cbn [existsb].
  destruct (Str.over_limit max_str_digits l) eqn:Hl.
  { intros _. exists [a; l; c; f; i; d; fl], 2%nat.
    split; [right; right; split; [done|lia]|done]. }
  destruct (Str.over_limit max_str_digits c) eqn:Hc.
  { intros _. exists [a; l; c; f; i; d; fl], 3%nat.
    split; [right; right; split; [done|lia]|done]. }
  destruct (Str.over_limit max_str_digits f) eqn:Hf.
  { intros _. exists [a; l; c; f; i; d; fl], 4%nat.
    split; [right; right; split; [done|lia]|done]. }
  destruct (Str.over_limit max_str_digits i) eqn:Hi.
  { intros _. exists [a; l; c; f; i; d; fl], 5%nat.
    split; [right; right; split; [done|lia]|done]. }
  destruct (Str.over_limit max_str_digits d) eqn:Hd.
  { intros _. exists [a; l; c; f; i; d; fl], 6%nat.
    split; [right; right; split; [done|lia]|done]. }
  done.
Qed.

Section Loop.

Variable max_str_digits : N.
Variable lines : list string.

Lemma update_current_cases st update parsing :
  between_lines max_str_digits lines st →
  match DebugLine.current_file st with
  | None => DebugLine.update_current st update parsing = KeyError None
  | Some file =>
      ∃ entry,
        DebugLine.file_table st !! file = Some entry
        ∧ DebugLine.update_current st update parsing
          = Parsed (DebugLine.State
                      (<[file := update entry]> (DebugLine.file_table st))
                      (DebugLine.line_info st) (Some file) parsing)
  end.
Proof.
  intros (_ & _ & Hcur & _). unfold DebugLine.update_current.
  destruct (DebugLine.current_file st) as [file|] eqn:Hfile; [|done].
  destruct (Hcur file eq_refl) as [entry Hentry]. exists entry.
  by rewrite Hentry.
Qed.

Lemma step_between st line :
  line ∈ lines → between_lines max_str_digits lines st →
  match DebugLine.step max_str_digits st line with
  | Parsed st' => between_lines max_str_digits lines st'
  | r => raises_on max_str_digits lines r
  end.
Proof.
  intros Hline Hst. pose proof Hst as (Hrows & Hfiles & Hcur & Hbad).
  unfold DebugLine.step.
  destruct (String.prefix "file_names[" line) eqn:Hprefix.
  { destruct (Re.search DebugLine.file_table_pattern line) as [groups|]
      eqn:Hsearch.
    - destruct (header_groups _ _ Hsearch) as (index & -> & Hindex).
      change (Re.group 1 [index]) with index.
      destruct (Str.int max_str_digits index) as [file0|] eqn:Hint.
      2: { exists line. split; [done|]. exists [index], 1%nat.
           split; [by left|]. change (Re.group 1 [index]) with index.
           rewrite int_cases in Hint. by destruct (Str.over_limit _ _). }
      split; [done|]. split; [|split]; cbn [DebugLine.file_table
        DebugLine.current_file DebugLine.parsing_file_table].
      + intros file entry.
        destruct (decide (file = file0)) as [->|Hne].
        * rewrite lookup_insert_eq. intros [= <-].
          split; [eapply int_nonneg; [apply Hindex|done]|].
          split; [done|done].
        * rewrite lookup_insert_ne by done. apply Hfiles.
      + intros file [= <-]. rewrite lookup_insert_eq. eauto.
      + done.
    - split; [done|]. split; [done|]. split; [done|].
      intros _ _. exists line. done. }
  destruct (DebugLine.parsing_file_table st) eqn:Hmode.
  { pose proof (λ update parsing,
                  update_current_cases st update parsing Hst) as Hupdate.
    assert (DebugLine.current_file st = None →
            ∃ bad, bad ∈ lines ∧ bad_header bad) as Hnone by auto.
    destruct (Re.search DebugLine.file_name_pattern line) as [groups|]
      eqn:Hname.
    - destruct (name_groups _ _ Hname) as (name & -> & Hne & _).
      specialize (Hupdate
        (λ entry, FileEntry (Some (Re.group 1 [name])) (fe_dir_index entry))
        true).
      destruct (DebugLine.current_file st) as [file|] eqn:Hfile.
      + destruct Hupdate as (entry & Hentry & ->).
        split; [done|]. split; [|split]; cbn [DebugLine.file_table
          DebugLine.current_file DebugLine.parsing_file_table].
        * intros file' entry'.
          destruct (decide (file' = file)) as [->|Hne'].
          -- rewrite lookup_insert_eq. intros [= <-].
             destruct (Hfiles file entry Hentry) as (? & ? & ?).
             split; [done|]. split; [|done]. unfold Re.group. simpl.
             by intros [= ->].
          -- rewrite lookup_insert_ne by done. apply Hfiles.
        * intros file' [= <-]. rewrite lookup_insert_eq. eauto.
        * done.
      + rewrite Hupdate. split; [done|]. by apply Hnone.
    - destruct (Re.search DebugLine.dir_index_pattern line) as [groups|]
        eqn:Hdir; [|done].
      destruct (dir_index_groups _ _ Hdir) as (index & -> & Hindex).
      change (Re.group 1 [index]) with index.
      destruct (Str.int max_str_digits index) as [dir_index|] eqn:Hint.
      2: { exists line. split; [done|]. exists [index], 1%nat.
           split; [by right; left|]. change (Re.group 1 [index]) with index.
           rewrite int_cases in Hint. by destruct (Str.over_limit _ _). }
      specialize (Hupdate
        (λ entry, FileEntry (fe_name entry) (Some dir_index))
        false).
      destruct (DebugLine.current_file st) as [file|] eqn:Hfile.
      + destruct Hupdate as (entry & Hentry & ->).
        split; [done|]. split; [|split]; cbn [DebugLine.file_table
          DebugLine.current_file DebugLine.parsing_file_table].
        * intros file' entry'.
          destruct (decide (file' = file)) as [->|Hne'].
          -- rewrite lookup_insert_eq. intros [= <-].
             destruct (Hfiles file entry Hentry) as (? & ? & ?).
             split; [done|]. split; [done|]. simpl.
             intros ? [= <-]. eapply int_nonneg; [apply Hindex|done].
          -- rewrite lookup_insert_ne by done. apply Hfiles.
        * intros file' [= <-]. rewrite lookup_insert_eq. eauto.
        * done.
      + rewrite Hupdate. split; [done|]. by apply Hnone. }
  destruct (String.prefix "Address" line).
  { split; [done|]. split; [done|]. split; [done|]. done. }
  destruct (Re.search DebugLine.line_entry_pattern line) as [groups|]
    eqn:Hrow; [|done].
  destruct (DebugLine.entry_of max_str_digits groups) as [entry0|] eqn:Hentry0.
  2: { exists line. split; [done|]. by eapply entry_of_refused. }
  split; [|split; [done|split; [done|done]]].
  intros entry [Hin| ->%list_elem_of_singleton]%elem_of_app; [by apply Hrows|].
  split; [by eapply entry_of_wellformed|]. by exists line, groups.
Qed.

Lemma run_between (todo : list string) : ∀ st,
  (∀ line, line ∈ todo → line ∈ lines) →
  between_lines max_str_digits lines st →
  match DebugLine.run max_str_digits todo st with
  | Parsed st' => between_lines max_str_digits lines st'
  | r => raises_on max_str_digits lines r
  end.
Proof.
  induction todo as [|line rest IH]; intros st Hsub Hst; simpl; [done|].
  pose proof (step_between st line (Hsub line ltac:(left)) Hst) as Hstep.
  destruct (DebugLine.step max_str_digits st line) as [st'|key|]; [|done..].
  apply IH; [|done]. intros l Hl. apply Hsub. by right.
Qed.

End Loop.

Lemma between_lines_initial max_str_digits lines :
  between_lines max_str_digits lines DebugLine.initial.
Proof.
  split; [|split; [|split]]; simpl.
  - intros entry H. by apply elem_of_nil in H.
  - intros file entry H. by rewrite lookup_empty in H.
  - done.
  - done.
Qed.

(** X19.  In what [parse_debug_line] returns, every row of [line_info]
    is read from a line of the dump that the pattern of rows matches,
    its numbers are not negative and its flags have no white space
    around them; every file of [file_table] has an index that is not
    negative, a name that is not empty when it has one, and a directory
    index that is not negative when it has one. *)
Theorem parsed_table_wellformed (max_str_digits : N) (output : string)
    (file_table : gmap Z file_entry) (line_info : list line_entry) :
  DebugLine.parse_debug_line max_str_digits output
  = Parsed (file_table, line_info) →
  (∀ entry, entry ∈ line_info →
            entry_wellformed entry
            ∧ read_from max_str_digits (Str.split_lines output) entry)
  ∧ (∀ file entry, file_table !! file = Some entry →
                   file_wellformed file entry).
Proof.
  unfold DebugLine.parse_debug_line.
  pose proof (run_between max_str_digits (Str.split_lines output)
                (Str.split_lines output) DebugLine.initial (λ _ H, H)
                (between_lines_initial _ _)) as Hrun.
  destruct (DebugLine.run _ _ _) as [st|key|]; [|done..].
  intros [= <- <-]. destruct Hrun as (Hrows & Hfiles & _). done.
Qed.

(** X19 on a dump of one row. *)
Lemma parsed_table_wellformed_witness :
  entry_wellformed (LineEntry 4198662 3 0 1 0 0 "is_stmt").
Proof.
  apply (proj1 (parsed_table_wellformed 4300
                  "0x0000000000401106      3      0      1   0             0  is_stmt"
                  ∅ [LineEntry 4198662 3 0 1 0 0 "is_stmt"] eq_refl)).
  left.
Defined.

(** X20.  [parse_debug_line] raises two exceptions only.  One is the
    [KeyError] of the subscript [file_table[None]], and only on a dump
    with a line that starts with [file_names[] and carries no file
    index that the pattern of that line finds.  The other is the
    [ValueError] of [int], and only on a dump with a line in which the
    index of a file, the index of a directory or a decimal number of a
    row has more digits than [int] accepts. *)
Theorem parse_raises_only (max_str_digits : N) (output : string) :
  (∀ key,
     DebugLine.parse_debug_line max_str_digits output = KeyError key →
     key = None
     ∧ ∃ line, line ∈ Str.split_lines output ∧ bad_header line)
  ∧ (DebugLine.parse_debug_line max_str_digits output = IntValueError →
     ∃ line, line ∈ Str.split_lines output
             ∧ long_number max_str_digits line).
Proof.
  unfold DebugLine.parse_debug_line.
  pose proof (run_between max_str_digits (Str.split_lines output)
                (Str.split_lines output) DebugLine.initial (λ _ H, H)
                (between_lines_initial _ _)) as Hrun.
  destruct (DebugLine.run _ _ _) as [st|key'|]; [done| |].
  - split; [|done]. by intros key [= <-].
  - split; [done|]. by intros _.
Qed.

(** X20 on a dump whose header has no index, and on a dump whose header
    has an index of 4301 digits, under the limit of 4300 digits. *)
Lemma parse_raises_only_witness :
  (∃ line, line ∈ Str.split_lines dump_bad_header ∧ bad_header line)
  ∧ (∃ line, line ∈ Str.split_lines dump_long_index
             ∧ long_number 4300 line).
Proof.
  split.
  - apply (proj1 (parse_raises_only 4300 dump_bad_header) None).
    by vm_compute.
  - apply (proj2 (parse_raises_only 4300 dump_long_index)).
    by vm_compute.
Defined.

(** ** The description of a file *)

(** A greedy repetition stops where the rest of the pattern matches
    and fails after every longer run. *)
Lemma rep_greedy_upto {R} (class : ascii → bool) (least : nat)
    (k : string → option string → option R) (run : string) :
  ∀ tail n cur r,
  all_in class run = true →
  (∀ taken left, tail = (taken ++ left)%string → taken ≠ "" →
                 all_in class taken = true →
                 k left (Re.extend cur (run ++ taken)) = None) →
  (least ≤ n + String.length run)%nat →
  k tail (Re.extend cur run) = Some r →
  Re.rep class least true k (run ++ tail) n cur = Some r.
Proof.
  induction run as [|c run IH]; intros tail n cur r Hall Hfail Hlen Hk.
  - rewrite str_nil_l. rewrite extend_nil in Hk. simpl in Hlen.
    rewrite <- (str_nil_l tail) at 1.
    rewrite (rep_greedy_back class least k "" tail n cur); [|done|].
    + rewrite str_nil_l. by rewrite (proj2 (Nat.leb_le least n)) by lia.
    + intros taken left Heq Hne Htaken. rewrite str_nil_l in Heq.
      by apply Hfail.
  - rewrite str_cons. simpl. simpl in Hall.
    apply andb_true_iff in Hall as [Hc Hall]. rewrite Hc.
    rewrite (IH tail (S n) (Re.extend cur (String c "")) r); [done|done| | |].
    + intros taken left Heq Hne Htaken.
      rewrite extend_extend, str_cons, str_nil_l, <- str_cons.
      by apply Hfail.
    + simpl in Hlen. lia.
    + by rewrite extend_extend, str_cons, str_nil_l.
Qed.

Lemma prefix_head_false (t : string) (c c' : ascii) (s : string) :
  c ≠ c' → String.prefix (String c t) (String c' s) = false.
Proof.
  intros Hne.
  change (String.prefix (String c t) (String c' s))
    with (if ascii_dec c c' then String.prefix t s else false).
  by destruct (ascii_dec c c').
Qed.

Lemma prefix_head_true (t : string) (c : ascii) (s : string) :
  String.prefix (String c t) (String c s) = String.prefix t s.
Proof.
  change (String.prefix (String c t) (String c s))
    with (if ascii_dec c c then String.prefix t s else false).
  by destruct (ascii_dec c c).
Qed.

(** A pattern that starts with a text finds nothing where the text
    does not occur. *)
Lemma search_lit_absent text items s :
  Py.contains text s = false → Re.search (Re.Lit text :: items) s = None.
Proof.
  induction s as [|c s IH].
  - simpl. intros H. apply orb_false_iff in H as [-> _]. done.
  - rewrite contains_cons. intros [Hhere Hrest]%orb_false_iff.
    rewrite search_next; [by apply IH|].
    cbn [Re.exec]. by rewrite Hhere.
Qed.

(** [search] goes over white space before a text that starts with
    another character. *)
Lemma search_indent text items indent s c :
  Re.space c = false → all_in Re.space indent = true →
  Re.search (Re.Lit (String c text) :: items) (indent ++ s)
  = Re.search (Re.Lit (String c text) :: items) s.
Proof.
  intros Hc. induction indent as [|c' indent IH]; [done|].
  cbn [all_in]. intros [Hc' Hall]%andb_true_iff. rewrite str_cons.
  rewrite search_next; [by apply IH|].
  cbn [Re.exec]. rewrite prefix_head_false; [done|]. congruence.
Qed.

Lemma contains_indent text indent s c :
  Re.space c = false → all_in Re.space indent = true →
  Py.contains (String c text) (indent ++ s) = Py.contains (String c text) s.
Proof.
  intros Hc. induction indent as [|c' indent IH]; [done|].
  cbn [all_in]. intros [Hc' Hall]%andb_true_iff. rewrite str_cons, contains_cons.
  rewrite prefix_head_false by congruence. by apply IH.
Qed.

Lemma contains_digits text s c :
  Re.digit c = false → all_in Re.digit s = true →
  Py.contains (String c text) s = false.
Proof.
  intros Hc. induction s as [|c' s IH]; [done|].
  cbn [all_in]. intros [Hc' Hall]%andb_true_iff. rewrite contains_cons.
  rewrite prefix_head_false by congruence. by apply IH.
Qed.

Lemma prefix_indent text indent s c c' :
  c ≠ c' → Re.space c = false → all_in Re.space indent = true →
  String.prefix (String c text) (indent ++ String c' s) = false.
Proof.
  intros Hne Hc Hall. destruct indent as [|c2 indent].
  - rewrite str_nil_l. by apply prefix_head_false.
  - rewrite str_cons. apply prefix_head_false.
    simpl in Hall. apply andb_true_iff in Hall as [Hc2 _]. congruence.
Qed.

Section FileLines.

Variables pad index indent1 name indent2 dir : string.
Hypothesis pad_space : all_in Re.space pad = true.
Hypothesis index_digits : some_of Re.digit index.
Hypothesis indent1_space : all_in Re.space indent1 = true.
Hypothesis name_text_ok : some_of Re.not_newline name.
Hypothesis indent2_space : all_in Re.space indent2 = true.
Hypothesis dir_digits : some_of Re.digit dir.

Lemma header_match :
  Re.search DebugLine.file_table_pattern (header_text pad index)
  = Some [index].
Proof.
  eapply search_here. unfold header_text, DebugLine.file_table_pattern.
  cbn [Re.exec]. rewrite prefix_app, skip_app.
  apply rep_greedy_all; [done| |lia|].
  { eapply starts_outside_app; [apply digit_not_space|done]. }
  cbn [Re.exec Re.extend default].
  apply rep_greedy_all; [apply index_digits|done| |].
  { destruct index; [by destruct index_digits|simpl; lia]. }
  cbn [Re.exec Re.extend default]. by rewrite str_nil_l.
Qed.

Lemma name_match :
  Re.search DebugLine.file_name_pattern (name_text indent1 name)
  = Some [name].
Proof.
  unfold name_text, DebugLine.file_name_pattern.
  change ("name: " ++ DebugLine.quote)%string
    with (String "n" ("ame: " ++ DebugLine.quote)).
  rewrite search_indent by done.
  eapply search_here.
  change (String "n" ("ame: " ++ DebugLine.quote))
    with ("name: " ++ DebugLine.quote)%string.
  rewrite <- (str_app_assoc "name: " DebugLine.quote).
  cbn [Re.exec]. rewrite prefix_app, skip_app.
  cbn [Re.extend].
  apply rep_greedy_upto; [apply name_text_ok| | |].
  - intros taken left Heq Hne _. cbn [Re.exec Re.extend default].
    destruct taken as [|c taken]; [done|].
    rewrite str_cons in Heq. injection Heq as <- Heq.
    destruct taken; [|done]. rewrite str_nil_l in Heq. by subst left.
  - destruct name; [by destruct name_text_ok|simpl; lia].
  - cbn [Re.exec Re.extend default]. by rewrite str_nil_l.
Qed.

Lemma dir_index_match :
  Re.search DebugLine.dir_index_pattern (dir_index_text indent2 dir)
  = Some [dir].
Proof.
  unfold dir_index_text, DebugLine.dir_index_pattern.
  rewrite (search_indent "ir_index: " _ indent2 _ "d") by done.
  eapply search_here.
  cbn [Re.exec]. rewrite prefix_app, skip_app. cbn [Re.extend].
  rewrite <- (str_app_nil_r dir) at 1.
  apply rep_greedy_all; [apply dir_digits|done| |].
  { destruct dir; [by destruct dir_digits|simpl; lia]. }
  cbn [Re.exec Re.extend default]. by rewrite str_nil_l.
Qed.

Lemma dir_index_no_name :
  Re.search DebugLine.file_name_pattern (dir_index_text indent2 dir) = None.
Proof.
  unfold dir_index_text, DebugLine.file_name_pattern.
  apply search_lit_absent.
  change ("name: " ++ DebugLine.quote)%string
    with (String "n" ("ame: " ++ DebugLine.quote)).
  rewrite contains_indent by done.
  rewrite !str_cons, str_nil_l.
  repeat (rewrite contains_cons;
          first [rewrite prefix_head_false by done
                |rewrite prefix_head_true, prefix_head_false by done];
          simpl orb).
  apply contains_digits; [done|apply dir_digits].
Qed.

End FileLines.

(** X21.  The three lines that describe a file (the header with the
    index, the name between quotation marks, the directory index),
    indented by white space or not, leave in [file_table] the name and
    the directory index under the index of the file, whatever was
    there before, and end the reading of the file table; unless the
    index of the file or that of the directory has more digits than
    [int] accepts, in which case [ValueError] is raised. *)
Theorem file_lines_are_recorded (max_str_digits : N) (st : DebugLine.state)
    (pad index indent1 name indent2 dir : string) :
  all_in Re.space pad = true → some_of Re.digit index →
  all_in Re.space indent1 = true → some_of Re.not_newline name →
  all_in Re.space indent2 = true → some_of Re.digit dir →
  DebugLine.run max_str_digits
    [header_text pad index; name_text indent1 name;
     dir_index_text indent2 dir] st
  = if Str.over_limit max_str_digits index
       || Str.over_limit max_str_digits dir
    then IntValueError
    else
      Parsed
        (DebugLine.State
           (<[decimal index := FileEntry (Some name) (Some (decimal dir))]>
              (DebugLine.file_table st))
           (DebugLine.line_info st) (Some (decimal index)) false).
Proof.
  intros Hpad Hindex Hindent1 Hname Hindent2 Hdir.
  cbn [DebugLine.run].
  assert (DebugLine.step max_str_digits st (header_text pad index)
          = if Str.over_limit max_str_digits index then IntValueError
            else Parsed (DebugLine.State
                           (<[decimal index := FileEntry None None]>
                              (DebugLine.file_table st))
                           (DebugLine.line_info st) (Some (decimal index))
                           true))
    as ->.
  { unfold DebugLine.step. rewrite header_match by done.
    unfold header_text. rewrite prefix_app.
    change (Re.group 1 [index]) with index. rewrite int_cases.
    by destruct (Str.over_limit _ _). }
  destruct (Str.over_limit max_str_digits index); [done|]. cbn [orb].
  assert (∀ st1,
            DebugLine.parsing_file_table st1 = true →
            DebugLine.step max_str_digits st1 (name_text indent1 name)
            = DebugLine.update_current st1
                (λ entry, FileEntry (Some name) (fe_dir_index entry)) true)
    as Hstep2.
  { intros st1 Hmode. unfold DebugLine.step.
    rewrite name_match by done. rewrite Hmode.
    unfold name_text. rewrite (str_cons "n").
    by rewrite (prefix_indent _ indent1 _ "f" "n"). }
  rewrite Hstep2 by done.
  unfold DebugLine.update_current at 1.
  cbn [DebugLine.current_file DebugLine.file_table DebugLine.line_info].
  rewrite lookup_insert_eq, insert_insert_eq.
  assert (∀ st2,
            DebugLine.parsing_file_table st2 = true →
            DebugLine.step max_str_digits st2 (dir_index_text indent2 dir)
            = if Str.over_limit max_str_digits dir then IntValueError
              else DebugLine.update_current st2
                     (λ entry, FileEntry (fe_name entry) (Some (decimal dir)))
                     false)
    as Hstep3.
  { intros st2 Hmode. unfold DebugLine.step.
    rewrite dir_index_no_name, dir_index_match by done. rewrite Hmode.
    unfold dir_index_text. rewrite (str_cons "d").
    rewrite (prefix_indent _ indent2 _ "f" "d") by done.
    change (Re.group 1 [dir]) with dir. rewrite int_cases.
    by destruct (Str.over_limit _ _). }
  rewrite Hstep3 by done.
  destruct (Str.over_limit max_str_digits dir); [done|].
  unfold DebugLine.update_current.
  cbn [DebugLine.current_file DebugLine.file_table DebugLine.line_info].
  by rewrite lookup_insert_eq, insert_insert_eq.
Qed.

(** X21 on the lines of a file as [llvm-dwarfdump] prints them, and on
    a directory index of 4301 digits, under the limit of 4300 digits. *)
Lemma file_lines_are_recorded_witness :
  DebugLine.run 4300
    [header_text "  " "1"; name_text "           " "a.c";
     dir_index_text "      " "0"] DebugLine.initial
  = Parsed
      (DebugLine.State {[ 1 := FileEntry (Some "a.c") (Some 0) ]} []
         (Some 1) false)
  ∧ DebugLine.run 4300
      [header_text "  " "1"; name_text "           " "a.c";
       dir_index_text "      " (ones 4301)] DebugLine.initial
    = IntValueError.
Proof.
  split.
  - apply (file_lines_are_recorded 4300 DebugLine.initial "  " "1"
             "           " "a.c" "      " "0");
      first [by vm_compute | split; [done|by vm_compute]].
  - etrans.
    + apply (file_lines_are_recorded 4300 DebugLine.initial "  " "1"
               "           " "a.c" "      " (ones 4301));
        first [by vm_compute | split; [done|by vm_compute]].
    + by vm_compute.
Defined.

(** ** The versions of the compilers *)

Section WordsFacts.

Lemma str_app_one_ne (s : string) (c : ascii) : (s ++ String c "")%string ≠ "".
Proof. destruct s; [done|]. by rewrite str_cons. Qed.

Lemma all_in_snoc class s c :
  all_in class (s ++ String c "") = all_in class s && class c.
Proof. rewrite all_in_app. simpl. by rewrite andb_true_r. Qed.

(** The words are not empty and hold no white space. *)
Lemma words_visible s : ∀ cur word,
  all_in visible cur = true →
  word ∈ Words.split_from cur s →
  word ≠ "" ∧ all_in visible word = true.
Proof.
  induction s as [|c s IH]; intros cur word Hcur; simpl.
  - destruct cur; [by intros ?%elem_of_nil|].
    by intros ->%list_elem_of_singleton.
  - destruct (Re.space c) eqn:Hc.
    + destruct cur as [|c' cur'].
      * by apply IH.
      * intros [->|Hin]%elem_of_cons; [done|]. by apply (IH "").
    + apply IH. rewrite all_in_snoc, Hcur. unfold visible. by rewrite Hc.
Qed.

(** There is a word as soon as a character is not white space. *)
Lemma words_some s : ∀ cur,
  cur ≠ "" ∨ all_in Re.space s = false →
  Words.split_from cur s ≠ [].
Proof.
  induction s as [|c s IH]; intros cur Hsome; simpl.
  - destruct Hsome as [Hcur|Hs]; [by destruct cur|done].
  - destruct (Re.space c) eqn:Hc.
    + destruct cur as [|c' cur']; [|done].
      apply IH. right. destruct Hsome as [?|Hs]; [done|].
      simpl in Hs. by rewrite Hc in Hs.
    + apply IH. left. apply str_app_one_ne.
Qed.

Lemma lstrip_blank s : all_in Re.space s = true → Str.lstrip s = "".
Proof.
  induction s as [|c s IH]; simpl; [done|].
  intros [Hc Hs]%andb_true_iff. rewrite Hc. by apply IH.
Qed.

Lemma lstrip_visible s :
  all_in Re.space s = false →
  ∃ c rest, Str.lstrip s = String c rest ∧ Re.space c = false.
Proof.
  induction s as [|c s IH]; simpl; [done|].
  destruct (Re.space c) eqn:Hc; simpl; [by apply IH|].
  intros _. by exists c, s.
Qed.

Lemma rstrip_keeps_head c s :
  Re.space c = false → ∃ rest, Str.rstrip (String c s) = String c rest.
Proof.
  intros Hc. simpl. destruct (Str.rstrip s); rewrite ?Hc; by eexists.
Qed.

Lemma strip_blank s : all_in Re.space s = true → Str.strip s = "".
Proof. intros Hs. unfold Str.strip. by rewrite lstrip_blank. Qed.

Lemma strip_visible s :
  all_in Re.space s = false →
  ∃ c rest, Str.strip s = String c rest ∧ Re.space c = false.
Proof.
  intros Hs. destruct (lstrip_visible s Hs) as (c & rest & Heq & Hc).
  unfold Str.strip. rewrite Heq.
  destruct (rstrip_keeps_head c rest Hc) as [rest' ->]. by exists c, rest'.
Qed.

(** The first line of a text starts as the text does, when that is
    not with a line feed. *)
Lemma first_line_head c s :
  Re.space c = false →
  ∃ rest, List.hd "" (Str.split_lines (String c s)) = String c rest.
Proof.
  intros Hc. unfold Str.split_lines. simpl.
  assert ((Re.code c =? 10)%N = false) as ->.
  { destruct (Re.code c =? 10)%N eqn:Hnl; [|done].
    apply N.eqb_eq in Hnl. unfold Re.space in Hc. rewrite Hnl in Hc. done. }
  rewrite str_nil_l.
  assert (∀ s cur, ∃ rest,
            List.hd "" (Str.split_from cur s) = (cur ++ rest)%string) as Hhd.
  { clear. induction s as [|c s IH]; intros cur; simpl.
    - exists "". by rewrite str_app_nil_r.
    - destruct (Re.code c =? 10)%N.
      + exists "". by rewrite str_app_nil_r.
      + destruct (IH (cur ++ String c "")%string) as [rest ->].
        exists (String c rest). by rewrite str_app_assoc. }
  destruct (Hhd s (String c "")) as [rest ->]. by exists rest.
Qed.

Lemma last_some {A} (l : list A) :
  l ≠ [] → ∃ x, List.last (map Some l) None = Some x ∧ x ∈ l.
Proof.
  induction l as [|x l IH]; [done|]. intros _.
  destruct l as [|y l]; [exists x; split; [done|left]|].
  destruct IH as (z & Hz & Hin); [done|]. exists z. split; [done|by right].
Qed.

End WordsFacts.

(** X22.  [get_compiler_version] returns [None] when the compiler exits
    with a non-zero status, lets the [OSError] of a compiler that cannot
    be run leave, raises [IndexError] when the compiler prints nothing
    but white space, and otherwise returns a version that is not empty
    and holds no white space. *)
Theorem compiler_version_cases (run : list string → process_outcome)
    (compiler : string) :
  (run [compiler; "--version"] = ExitStatus →
   Tools.get_compiler_version run compiler = Returns None)
  ∧ (run [compiler; "--version"] = NotStarted →
     ∃ msg, Tools.get_compiler_version run compiler
            = Raises (Exn (OSError msg)))
  ∧ (∀ stdout, run [compiler; "--version"] = Completed stdout →
       (all_in Re.space stdout = true →
        Tools.get_compiler_version run compiler = Raises IndexError)
       ∧ (all_in Re.space stdout = false →
          ∃ version,
            Tools.get_compiler_version run compiler = Returns (Some version)
            ∧ version ≠ "" ∧ all_in visible version = true)).
Proof.
  unfold Tools.get_compiler_version, Tools.run_cmd.
  split; [by intros ->|]. split; [intros ->; by eexists|].
  intros stdout ->. split.
  - intros Hblank. by rewrite strip_blank.
  - intros Hsome.
    destruct (strip_visible stdout Hsome) as (c & rest & -> & Hc).
    destruct (first_line_head c rest Hc) as [line ->].
    destruct (last_some (Words.split (String c line))) as (version & -> & Hin).
    { apply words_some. right. simpl. by rewrite Hc. }
    exists version. split; [done|].
    by apply (words_visible (String c line) "" version).
Qed.

(** X22 on the banner of clang. *)
Lemma compiler_version_cases_witness :
  Tools.get_compiler_version prints_clang17 "clang" = Returns (Some "17.0.6")
  ∧ Tools.get_compiler_version prints_blank "clang" = Raises IndexError.
Proof.
  split; [by vm_compute|].
  apply (proj1 (proj2 (proj2 (compiler_version_cases prints_blank "clang"))
                  newline eq_refl)).
  by vm_compute.
Defined.

Section Installed.

Variable run : list string → process_outcome.

Lemma versions_of_raises compilers name cmd :
  (name, cmd) ∈ compilers → run [cmd; "--version"] = NotStarted →
  ∃ r, Tools.versions_of run compilers = Raises r.
Proof.
  induction compilers as [|[name' cmd'] rest IH]; [by intros ?%elem_of_nil|].
  intros Hin Hrun. simpl.
  destruct (Tools.get_compiler_version run cmd') as [version|r] eqn:Hv;
    [|by exists r].
  apply elem_of_cons in Hin as [[= <- <-]|Hin].
  - unfold Tools.get_compiler_version, Tools.run_cmd in Hv.
    by rewrite Hrun in Hv.
  - destruct (IH Hin Hrun) as [r ->]. by exists r.
Qed.

Lemma versions_of_returns compilers versions :
  Tools.versions_of run compilers = Returns versions →
  ∀ name version,
    (name, version) ∈ versions ↔
    ∃ cmd, (name, cmd) ∈ compilers
           ∧ Tools.get_compiler_version run cmd = Returns (Some version).
Proof.
  revert versions.
  induction compilers as [|[name' cmd'] rest IH]; intros versions; simpl.
  - intros [= <-] name version. split; [by intros ?%elem_of_nil|].
    by intros (cmd & ?%elem_of_nil & _).
  - destruct (Tools.get_compiler_version run cmd') as [v|r] eqn:Hv; [|done].
    destruct (Tools.versions_of run rest) as [d|r]; [|done].
    intros [= <-] name version. specialize (IH d eq_refl name version).
    destruct v as [v|].
    + rewrite elem_of_cons, IH. split.
      * intros [[= -> ->]|(cmd & Hin & Hcmd)].
        -- exists cmd'. split; [left|done].
        -- exists cmd. split; [by right|done].
      * intros (cmd & [[= -> ->]|Hin]%elem_of_cons & Hcmd).
        -- left. congruence.
        -- right. by exists cmd.
    + rewrite IH. split.
      * intros (cmd & Hin & Hcmd). exists cmd. split; [by right|done].
      * intros (cmd & [[= -> ->]|Hin]%elem_of_cons & Hcmd); [congruence|].
        by exists cmd.
Qed.

End Installed.

(** X23.  [check_installed_compilers] does not return when one of gcc,
    clang and ccomp cannot be run at all: the [OSError] is not caught.
    When it returns, a compiler is in the dict, with the version that
    [get_compiler_version] returns for it, exactly when this version is
    not [None]. *)
Theorem installed_compilers_or_failure (run : list string → process_outcome) :
  (∀ name, name ∈ ["gcc"; "clang"; "ccomp"] →
           run [name; "--version"] = NotStarted →
           ∃ r, Tools.check_installed_compilers run = Raises r)
  ∧ (∀ versions,
       Tools.check_installed_compilers run = Returns versions →
       ∀ name version,
         (name, version) ∈ versions ↔
         name ∈ ["gcc"; "clang"; "ccomp"]
         ∧ Tools.get_compiler_version run name = Returns (Some version)).
Proof.
  unfold Tools.check_installed_compilers, Tools.compilers. split.
  - intros name Hname Hrun.
    apply (versions_of_raises run _ name name); [|done].
    repeat (apply elem_of_cons in Hname as [->|Hname];
            [set_solver|]).
    by apply elem_of_nil in Hname.
  - intros versions Hreturns name version.
    rewrite (versions_of_returns run _ _ Hreturns). split.
    + intros (cmd & Hin & Hcmd).
      repeat (apply elem_of_cons in Hin as [[= -> ->]|Hin];
              [split; [set_solver|done]|]).
      by apply elem_of_nil in Hin.
    + intros [Hname Hv]. exists name. split; [|done].
      repeat (apply elem_of_cons in Hname as [->|Hname];
              [set_solver|]).
      by apply elem_of_nil in Hname.
Qed.

(** X23 on a machine without ccomp. *)
Lemma installed_compilers_or_failure_witness :
  ∃ r, Tools.check_installed_compilers without_ccomp = Raises r.
Proof.
  apply (proj1 (installed_compilers_or_failure without_ccomp) "ccomp").
  - set_solver.
  - done.
Defined.

(** ** The numbered source files *)

Section SortedByKey.

Context {A : Type}.
Implicit Types (x : Z * A) (xs : list (Z * A)).

Lemma insert_by_key_perm x xs : Files.insert_by_key x xs ≡ₚ x :: xs.
Proof.
  induction xs as [|y xs IH]; simpl; [done|].
  destruct (x.1 <=? y.1)%Z; [done|]. rewrite IH. apply Permutation_swap.
Qed.

Lemma sorted_by_key_perm xs : Files.sorted_by_key xs ≡ₚ xs.
Proof.
  induction xs as [|x xs IH]; simpl; [done|].
  by rewrite insert_by_key_perm, IH.
Qed.

Lemma insert_by_key_sorted x xs :
  StronglySorted (λ a b, (a.1 ≤ b.1)%Z) xs →
  StronglySorted (λ a b, (a.1 ≤ b.1)%Z) (Files.insert_by_key x xs).
Proof.
  induction 1 as [|y xs Hsorted IH Hall]; simpl.
  - repeat constructor.
  - destruct (x.1 <=? y.1)%Z eqn:Hle.
    + apply Z.leb_le in Hle. constructor; [by constructor|].
      constructor; [done|]. eapply Forall_impl; [exact Hall|].
      intros z Hz. simpl in *. lia.
    + apply Z.leb_gt in Hle. constructor; [done|].
      rewrite insert_by_key_perm. constructor; [lia|done].
Qed.

Lemma sorted_by_key_sorted xs :
  StronglySorted (λ a b, (a.1 ≤ b.1)%Z) (Files.sorted_by_key xs).
Proof.
  induction xs as [|x xs IH]; simpl; [constructor|].
  by apply insert_by_key_sorted.
Qed.

(** The sort is stable: the elements of one key stay in their order. *)
Lemma insert_by_key_stable (key : Z) x xs :
  filter (λ y, y.1 = key) (Files.insert_by_key x xs)
  = filter (λ y, y.1 = key) (x :: xs).
Proof.
  induction xs as [|y xs IH]; simpl; [done|].
  destruct (x.1 <=? y.1)%Z eqn:Hle; [done|]. apply Z.leb_gt in Hle.
  rewrite !filter_cons in *. simpl in *.
  destruct (decide (y.1 = key)) as [Hy|Hy].
  - destruct (decide (x.1 = key)) as [Hx|Hx]; [lia|]. by rewrite IH.
  - rewrite IH. by destruct (decide (x.1 = key)).
Qed.

Lemma sorted_by_key_stable (key : Z) xs :
  filter (λ y, y.1 = key) (Files.sorted_by_key xs)
  = filter (λ y, y.1 = key) xs.
Proof.
  induction xs as [|x xs IH]; simpl; [done|].
  rewrite insert_by_key_stable, !filter_cons. simpl. by rewrite IH.
Qed.

End SortedByKey.

Section FindCFilesFacts.

Variable is_dir : Path.t → bool.
Variable glob_c : Path.t → list Path.t.
Variable int : string → option Z.

Lemma keys_of_Some files keyed :
  Files.keys_of int files = Some keyed →
  map snd keyed = files
  ∧ Forall (λ f, int (Path.stem f.2) = Some f.1) keyed.
Proof.
  revert keyed. induction files as [|x files IH]; intros keyed; simpl.
  - intros [= <-]. by split.
  - destruct (int (Path.stem x)) as [key|] eqn:Hkey; [|done].
    destruct (Files.keys_of int files) as [rest|]; [|done].
    intros [= <-]. destruct (IH rest eq_refl) as [Hfiles Hall].
    simpl. rewrite Hfiles. split; [done|]. by constructor.
Qed.

Lemma keys_of_None files :
  Files.keys_of int files = None ↔ ∃ x, x ∈ files ∧ int (Path.stem x) = None.
Proof.
  induction files as [|x files IH]; simpl.
  - split; [done|]. by intros (x & ?%elem_of_nil & _).
  - destruct (int (Path.stem x)) as [key|] eqn:Hkey.
    + destruct (Files.keys_of int files) as [rest|].
      * split; [done|]. intros (y & [->|Hin]%elem_of_cons & Hy); [congruence|].
        assert (Some rest = None) as Hrest by (apply IH; by exists y).
        done.
      * split; [|done]. intros _. destruct (proj1 IH eq_refl) as (y & Hin & Hy).
        exists y. split; [by right|done].
    + split; [|done]. intros _. exists x. split; [left|done].
Qed.

(** Filtering the files by their number is filtering the pairs by
    their key. *)
Lemma filter_numbered (p : Z → bool) (keyed : list (Z * Path.t)) :
  Forall (λ f, int (Path.stem f.2) = Some f.1) keyed →
  map snd (filter (λ f, p f.1 = true) keyed)
  = filter (λ x, number_is int p x = true) (map snd keyed).
Proof.
  induction 1 as [|[key x] keyed Hkey Hall IH]; simpl; [done|].
  assert (number_is int p x = p key) as Hx.
  { unfold number_is. simpl in Hkey. by rewrite Hkey. }
  rewrite !filter_cons. simpl.
  destruct (decide (p key = true)) as [Hp|Hp].
  - rewrite decide_True by congruence. simpl. by rewrite IH.
  - rewrite decide_False by congruence. by rewrite IH.
Qed.

Lemma sorted_files (keyed : list (Z * Path.t)) :
  Forall (λ f, int (Path.stem f.2) = Some f.1) keyed →
  StronglySorted (λ a b, (a.1 ≤ b.1)%Z) keyed →
  StronglySorted (number_le int) (map snd keyed).
Proof.
  intros Hlink. induction 1 as [|f keyed Hsorted IH Hall]; simpl;
    [constructor|].
  apply Forall_cons in Hlink as [Hf Hlink].
  constructor; [by apply IH|].
  apply Forall_fmap. rewrite Forall_forall in Hall, Hlink |- *.
  intros g Hg. exists f.1, g.1. split; [done|]. split; [by apply Hlink|].
  by apply Hall.
Qed.

Lemma filter_sorted {A} (R : relation A) (P : A → Prop)
    `{∀ x, Decision (P x)} (l : list A) :
  StronglySorted R l → StronglySorted R (filter P l).
Proof.
  induction 1 as [|x l Hsorted IH Hall]; [constructor|].
  rewrite filter_cons. destruct (decide (P x)); [|done].
  constructor; [done|]. rewrite Forall_forall in Hall |- *.
  intros y [_ Hy]%list_elem_of_filter. by apply Hall.
Qed.

End FindCFilesFacts.

(** X24.  In a directory whose [.c] files all have a stem that [int]
    accepts, [find_c_files_int] returns the files whose number is in the
    range, each as often as the directory lists it, by ascending
    number; the files of one number stay in the order of the
    listing. *)
Theorem numbered_files_selected_and_sorted
    (is_dir : Path.t → bool) (glob_c : Path.t → list Path.t)
    (int : string → option Z) (directory : string) (start end_ : option Z) :
  is_dir (Path.parts directory) = true →
  (∀ x, x ∈ glob_c (Path.parts directory) → is_Some (int (Path.stem x))) →
  ∃ files,
    Files.find_c_files_int is_dir glob_c int directory start end_
    = Returns files
    ∧ files ≡ₚ filter (λ x, number_is int (Files.selected start end_) x = true)
                 (glob_c (Path.parts directory))
    ∧ StronglySorted (number_le int) files
    ∧ ∀ number,
        filter (λ x, number_is int (Z.eqb number) x = true) files
        = filter (λ x, number_is int
                         (λ n, Z.eqb number n && Files.selected start end_ n) x
                       = true)
            (glob_c (Path.parts directory)).
Proof.
  intros Hdir Hint. unfold Files.find_c_files_int. rewrite Hdir. simpl.
  destruct (Files.keys_of int (glob_c (Path.parts directory)))
    as [keyed|] eqn:Hkeys.
  2: { apply keys_of_None in Hkeys as (x & Hin & Hx).
       destruct (Hint x Hin) as [? ?]. congruence. }
  destruct (keys_of_Some int _ _ Hkeys) as [Hfiles Hlink].
  assert (Forall (λ f, int (Path.stem f.2) = Some f.1)
            (Files.sorted_by_key keyed)) as Hlink'.
  { by rewrite sorted_by_key_perm. }
  eexists. split; [done|]. split; [|split].
  - rewrite (filter_numbered int) by done.
    by rewrite sorted_by_key_perm, Hfiles.
  - apply (sorted_files int).
    + rewrite Forall_forall in Hlink' |- *.
      intros f [_ Hf]%list_elem_of_filter. by apply Hlink'.
    + apply filter_sorted, sorted_by_key_sorted.
  - intros number. rewrite <- Hfiles.
    rewrite <- (filter_numbered int _ keyed Hlink).
    rewrite <- (filter_numbered int).
    2: { rewrite Forall_forall in Hlink' |- *.
         intros f [_ Hf]%list_elem_of_filter. by apply Hlink'. }
    f_equal. rewrite list_filter_filter.
    rewrite (list_filter_iff _ (λ f, Files.selected start end_ f.1 = true
                                      ∧ f.1 = number)).
    2: { intros f. rewrite Z.eqb_eq. split; intros [? ?]; by split. }
    rewrite <- list_filter_filter, sorted_by_key_stable, list_filter_filter.
    apply list_filter_iff. intros f.
    rewrite andb_true_iff, Z.eqb_eq. split; intros [? ?]; by split.
Qed.

(** X24 on a listing of [10.c], [2.c] and [02.c], from number 1. *)
Lemma numbered_files_selected_and_sorted_witness :
  ∃ files,
    Files.find_c_files_int (λ _, true) listing_3 int_small "d" (Some 1) None
    = Returns files
    ∧ files ≡ₚ filter (λ x, number_is int_small (Files.selected (Some 1) None) x
                            = true)
                 (listing_3 (Path.parts "d"))
    ∧ StronglySorted (number_le int_small) files
    ∧ ∀ number,
        filter (λ x, number_is int_small (Z.eqb number) x = true) files
        = filter (λ x, number_is int_small
                         (λ n, Z.eqb number n
                               && Files.selected (Some 1) None n) x
                       = true)
            (listing_3 (Path.parts "d")).
Proof.
  apply (numbered_files_selected_and_sorted (λ _, true) listing_3 int_small
           "d" (Some 1) None eq_refl).
  intros x Hx. vm_compute in Hx.
  repeat (apply elem_of_cons in Hx as [->|Hx]; [by eexists|]).
  by apply elem_of_nil in Hx.
Defined.

(** X25.  [find_c_files_int] raises [ValueError] as soon as the
    directory lists a [.c] file whose stem [int] rejects, whatever the
    range is, also when that file would not be selected; and it returns
    the empty list, without listing anything, when the path is not a
    directory. *)
Theorem unnumbered_file_fails
    (is_dir : Path.t → bool) (glob_c : Path.t → list Path.t)
    (int : string → option Z) (directory : string) (start end_ : option Z) :
  (is_dir (Path.parts directory) = false →
   Files.find_c_files_int is_dir glob_c int directory start end_ = Returns [])
  ∧ (is_dir (Path.parts directory) = true →
     (Files.find_c_files_int is_dir glob_c int directory start end_
      = Raises ValueError
      ↔ ∃ x, x ∈ glob_c (Path.parts directory)
             ∧ int (Path.stem x) = None)).
Proof.
  unfold Files.find_c_files_int. split; [by intros ->|]. intros ->. simpl.
  rewrite <- keys_of_None.
  by destruct (Files.keys_of int (glob_c (Path.parts directory))).
Qed.

(** X25 on a directory that holds [1.c] and [main.c], for the range
    from 1 to 1. *)
Lemma unnumbered_file_fails_witness :
  Files.find_c_files_int (λ _, true) listing_readme int_small "d"
    (Some 1) (Some 1)
  = Raises ValueError.
Proof.
  apply (proj2 (unnumbered_file_fails (λ _, true) listing_readme int_small
                  "d" (Some 1) (Some 1)) eq_refl).
  exists ["d"; "main.c"]. split; [|by vm_compute].
  right. left.
Defined.

(** ** The evidence *)

Section Below.

Variable root : Path.t.

Lemma writes_below_ret {A} (a : A) : writes_below root (w_ret a).
Proof. by intros d p Hp. Qed.

Lemma writes_below_lift {A} (o : outcome A) : writes_below root (w_lift o).
Proof. by intros d p Hp. Qed.

Lemma writes_below_bind {A B} (m : W A) (k : A → W B) :
  writes_below root m → (∀ a, writes_below root (k a)) →
  writes_below root (w_bind m k).
Proof.
  intros Hm Hk d p Hp. unfold w_bind. specialize (Hm d p Hp).
  destruct (m d) as [[a|r] d1]; simpl in *; [|done].
  by rewrite (Hk a d1 p Hp).
Qed.

Lemma not_below_ne (p q : Path.t) :
  root `prefix_of` q → ¬ root `prefix_of` p → p ≠ q.
Proof. intros Hq Hp ->. done. Qed.

Lemma writes_below_copy2 src dst :
  root `prefix_of` dst → writes_below root (Shutil.copy2 src dst).
Proof.
  intros Hdst d p Hp. unfold Shutil.copy2. cbv zeta.
  assert (root `prefix_of` dst ++ [Path.name src]) as Hdst'
    by (by apply prefix_app_r).
  case_bool_decide; [done|].
  repeat case_match; cbn [snd]; try done.
  all: rewrite lookup_insert_ne; [done|].
  all: intros <-; done.
Qed.

Lemma writes_below_open_append p :
  root `prefix_of` p → writes_below root (Fs.open_append p).
Proof.
  intros Hroot d q Hq. unfold Fs.open_append.
  repeat case_match; cbn [snd]; try done.
  rewrite lookup_insert_ne; [done|]. by intros <-.
Qed.

Lemma writes_below_write p text :
  root `prefix_of` p → writes_below root (Fs.write p text).
Proof.
  intros Hroot d q Hq. unfold Fs.write.
  repeat case_match; cbn [snd]; try done.
  rewrite lookup_insert_ne; [done|]. by intros <-.
Qed.

End Below.

Section EvidenceFacts.

Variable run : list string → process_outcome.
Variable strftime : nat → string.
Variable iteration : list string → list string.
Variable get_debug_values : string → string → Z → list DebugValue.

Lemma writes_below_write_file a n key file_issues :
  writes_below (BinaryAnalyzer.evidence_dir a)
    (Evidence.write_file run strftime a n key file_issues).
Proof.
  unfold Evidence.write_file.
  apply writes_below_bind;
    [apply writes_below_copy2; by apply prefix_app_r|intros _].
  apply writes_below_bind;
    [apply writes_below_open_append; by apply prefix_app_r|intros _].
  apply writes_below_bind; [apply writes_below_lift|intros version].
  apply writes_below_write. by apply prefix_app_r.
Qed.

Lemma writes_below_write_files a items : ∀ n,
  writes_below (BinaryAnalyzer.evidence_dir a)
    (Evidence.write_files run strftime a n items).
Proof.
  induction items as [|[key file_issues] rest IH]; intros n; simpl.
  - apply writes_below_ret.
  - apply writes_below_bind; [apply writes_below_write_file|by intros _].
Qed.

Lemma writes_below_copy_binaries a names :
  writes_below (BinaryAnalyzer.evidence_dir a) (Evidence.copy_binaries a names).
Proof.
  induction names as [|name rest IH]; simpl.
  - apply writes_below_ret.
  - apply writes_below_bind; [|by intros _].
    destruct (Evidence.binary_named a name);
      [apply writes_below_copy2; by apply prefix_app_r
      |apply writes_below_ret].
Qed.

Lemma writes_below_find_issues a :
  writes_below (BinaryAnalyzer.evidence_dir a)
    (Evidence.find_issues_type1_2 run strftime iteration get_debug_values a).
Proof.
  unfold Evidence.find_issues_type1_2.
  destruct (flat_map _ _); [apply writes_below_ret|].
  unfold Evidence._write_results.
  apply writes_below_bind; [apply writes_below_write_files|intros _].
  apply writes_below_copy_binaries.
Qed.

(** The source file of the first issue is the first key. *)
Lemma add_issues_head rest : ∀ key file_issues acc,
  ∃ file_issues' acc',
    fold_left Evidence.add_issue rest ((key, file_issues) :: acc)
    = (key, file_issues') :: acc'.
Proof.
  induction rest as [|issue rest IH]; intros key file_issues acc; simpl.
  - by eexists _, _.
  - unfold Evidence.add_issue at 2. simpl.
    destruct (String.eqb (issue_source_file issue) key) eqn:Hkey; simpl.
    + rewrite Hkey. apply String.eqb_eq in Hkey. rewrite Hkey. apply IH.
    + destruct (OD.get (issue_source_file issue) acc); simpl;
        rewrite Hkey; apply IH.
Qed.

Lemma issues_by_file_head first rest :
  ∃ file_issues others,
    Evidence.issues_by_file (first :: rest)
    = (issue_source_file first, file_issues) :: others.
Proof.
  unfold Evidence.issues_by_file. simpl.
  unfold Evidence.add_issue at 2. simpl. rewrite String.eqb_refl. simpl.
  apply add_issues_head.
Qed.

Lemma copy2_without_directory (root src : Path.t) (parts : list string)
    (d : Disk.t) :
  parts ≠ [] → (∀ p : Path.t, root `prefix_of` p → d !! p = None) →
  ∃ msg, Shutil.copy2 src (root ++ parts) d = (Raises (Exn (OSError msg)), d).
Proof.
  intros Hparts Hnone. unfold Shutil.copy2.
  rewrite (Hnone (root ++ parts)) by (by apply prefix_app_r).
  rewrite bool_decide_eq_false_2.
  2: { intros [-> [x Hx]].
       rewrite (Hnone (root ++ parts)) in Hx by (by apply prefix_app_r).
       done. }
  destruct (d !! src) as [[content|]|]; [|by eexists..].
  assert (Path.parent (root ++ parts) = root ++ removelast parts) as ->.
  { unfold Path.parent. by apply removelast_app. }
  rewrite (Hnone (root ++ removelast parts)) by (by apply prefix_app_r).
  repeat case_match; by eexists.
Qed.

End EvidenceFacts.

(** X26.  [find_issues_type1_2] changes nothing on the disk but at the
    evidence directory and below, whether it returns or raises; and
    when no binary gives an issue it returns without writing anything
    at all. *)
Theorem evidence_stays_in_its_directory
    (run : list string → process_outcome) (strftime : nat → string)
    (iteration : list string → list string)
    (get_debug_values : string → string → Z → list DebugValue)
    (a : BinaryAnalyzer.t) (d : gmap Path.t node) :
  writes_below (BinaryAnalyzer.evidence_dir a)
    (Evidence.find_issues_type1_2 run strftime iteration get_debug_values a)
  ∧ ((∀ b, b ∈ BinaryAnalyzer.binaries a →
           BinaryAnalyzer._find_issues_type1_2 get_debug_values b = []) →
     Evidence.find_issues_type1_2 run strftime iteration get_debug_values a d
     = (Returns tt, d)).
Proof.
  split; [apply writes_below_find_issues|].
  intros Hnone. unfold Evidence.find_issues_type1_2.
  assert (flat_map (BinaryAnalyzer._find_issues_type1_2 get_debug_values)
            (BinaryAnalyzer.binaries a) = []) as ->; [|done].
  induction (BinaryAnalyzer.binaries a) as [|b bs IH]; simpl; [done|].
  rewrite Hnone by left. simpl. apply IH. intros b' Hb'. apply Hnone.
  by right.
Qed.

(** X26 on the source directory of the analyzer of [case.c]. *)
Lemma evidence_stays_in_its_directory_witness :
  (Evidence.find_issues_type1_2 prints_clang17 (λ _, "2024-01-01 00:00:00")
     (λ names, names) values_at_5 analyzer_with_lines disk_no_evidence).2
    !! ["src"; "case.c"]
  = Some (File "int main(void){}").
Proof.
  etrans;
    [apply (proj1 (evidence_stays_in_its_directory prints_clang17
                     (λ _, "2024-01-01 00:00:00") (λ names, names)
                     values_at_5 analyzer_with_lines disk_no_evidence))|].
  - intros [k Hk]. by destruct k.
  - done.
Defined.

(** X27.  Nothing in these sources creates the evidence directory: when
    an issue is found and nothing exists at the evidence directory nor
    below it, [find_issues_type1_2] raises an [OSError] at the first
    copy and leaves the disk as it was. *)
Theorem evidence_directory_is_required
    (run : list string → process_outcome) (strftime : nat → string)
    (iteration : list string → list string)
    (get_debug_values : string → string → Z → list DebugValue)
    (a : BinaryAnalyzer.t) (d : gmap Path.t node)
    (first : Issue) (others : list Issue) :
  flat_map (BinaryAnalyzer._find_issues_type1_2 get_debug_values)
    (BinaryAnalyzer.binaries a) = first :: others →
  Path.parts (issue_source_file first) ≠ [] →
  (∀ p : Path.t,
     BinaryAnalyzer.evidence_dir a `prefix_of` p → d !! p = None) →
  ∃ msg,
    Evidence.find_issues_type1_2 run strftime iteration get_debug_values a d
    = (Raises (Exn (OSError msg)), d).
Proof.
  intros Hissues Hparts Hnone. unfold Evidence.find_issues_type1_2.
  rewrite Hissues. unfold Evidence._write_results.
  destruct (issues_by_file_head first others) as (file_issues & rest & ->).
  simpl. unfold Evidence.write_file.
  destruct (copy2_without_directory (BinaryAnalyzer.evidence_dir a)
              (BinaryAnalyzer.source_dir a
                 ++ Path.parts (issue_source_file first))
              (Path.parts (issue_source_file first)) d Hparts Hnone)
    as [msg Hcopy].
  exists msg. unfold w_bind at 1 2 3. by rewrite Hcopy.
Qed.

(** X27 on the analyzer of [case.c], with an issue at line 5 and no
    [evidence] directory. *)
Lemma evidence_directory_is_required_witness :
  ∃ msg,
    Evidence.find_issues_type1_2 prints_clang17 (λ _, "2024-01-01 00:00:00")
      (λ names, names) values_at_5 analyzer_with_lines disk_no_evidence
    = (Raises (Exn (OSError msg)), disk_no_evidence).
Proof.
  eapply (evidence_directory_is_required prints_clang17
            (λ _, "2024-01-01 00:00:00") (λ names, names) values_at_5
            analyzer_with_lines disk_no_evidence).
  - by vm_compute.
  - by vm_compute.
  - intros p [k ->]. unfold disk_no_evidence.
    rewrite lookup_insert_ne by done. by rewrite lookup_singleton_ne.
Defined.

(** ** The copy of a source file in the evidence directory *)

Lemma parts_from_plain (s : string) : ∀ (parts : list string) (cur : string),
  Py.contains "/" s = false →
  Path.parts_from parts cur s = Path.keep_part (cur ++ s) parts.
Proof.
  induction s as [|c s IH]; intros parts cur Hs.
  - by rewrite str_app_nil_r.
  - rewrite contains_cons, prefix_slash in Hs.
    apply orb_false_iff in Hs as [Hc Hs]. simpl. rewrite Hc.
    rewrite IH by done. by rewrite str_app_assoc.
Qed.

Lemma parts_plain (s : string) : plain_name s → Path.parts s = [s].
Proof.
  intros (Hne & Hdot & Hs). unfold Path.parts.
  rewrite parts_from_plain by done. rewrite str_nil_l.
  unfold Path.keep_part.
  destruct (String.eqb_spec s "") as [?|_]; [done|].
  destruct (String.eqb_spec s ".") as [?|_]; [done|]. done.
Qed.

(** X28.  For a source file given by a plain name, one turn of the
    first loop of [_write_results] replaces whatever the evidence
    directory held under that name by the content of the source file
    followed by the comment block: two line feeds, [//LLVM] with the
    version of clang and the time, one line per issue and an empty
    line. *)
Theorem evidence_file_is_rewritten
    (run : list string → process_outcome) (strftime : nat → string)
    (a : BinaryAnalyzer.t) (n : nat) (key : string)
    (file_issues : list Issue) (d : gmap Path.t node)
    (content : string) (version : option string) :
  plain_name key →
  d !! (BinaryAnalyzer.source_dir a ++ [key]) = Some (File content) →
  d !! BinaryAnalyzer.evidence_dir a = Some Dir →
  d !! (BinaryAnalyzer.evidence_dir a ++ [key]) ≠ Some Dir →
  BinaryAnalyzer.source_dir a ≠ BinaryAnalyzer.evidence_dir a →
  Tools.get_compiler_version run "clang" = Returns version →
  Evidence.write_file run strftime a n key file_issues d
  = (Returns tt,
     <[BinaryAnalyzer.evidence_dir a ++ [key]
         := File (content
                    ++ Evidence.comment_block version (strftime n)
                         file_issues)]> d).
Proof.
  intros Hkey Hsrc Hdir Hnodir Hne Hversion.
  unfold Evidence.write_file. rewrite (parts_plain key Hkey).
  assert (Path.name [key] = key) as -> by done.
  unfold Path.div. rewrite (parts_plain key Hkey).
  assert (Path.parent (BinaryAnalyzer.evidence_dir a ++ [key])
          = BinaryAnalyzer.evidence_dir a) as Hparent.
  { unfold Path.parent. rewrite removelast_app by done. simpl.
    by rewrite app_nil_r. }
  unfold w_bind, w_lift, Shutil.copy2, Fs.open_append, Fs.write. cbv zeta.
  unfold Path.t in *.
  assert (match d !! (BinaryAnalyzer.evidence_dir a ++ [key]) with
          | Some Dir =>
              (BinaryAnalyzer.evidence_dir a ++ [key])
                ++ [Path.name (BinaryAnalyzer.source_dir a ++ [key])]
          | _ => BinaryAnalyzer.evidence_dir a ++ [key]
          end = BinaryAnalyzer.evidence_dir a ++ [key]) as ->.
  { by destruct (d !! (BinaryAnalyzer.evidence_dir a ++ [key])) as [[?|]|]. }
  rewrite bool_decide_eq_false_2.
  2: { intros [Heq _]. apply Hne. by apply app_inv_tail in Heq. }
  rewrite Hsrc, Hparent, Hdir.
  assert (match d !! (BinaryAnalyzer.evidence_dir a ++ [key]) with
          | Some Dir =>
              (Raises (Exn (OSError "IsADirectoryError")), d)
          | _ => (Returns (),
                  <[BinaryAnalyzer.evidence_dir a ++ [key]
                      := File content]> d)
          end
          = (Returns (),
             <[BinaryAnalyzer.evidence_dir a ++ [key] := File content]> d))
    as ->.
  { by destruct (d !! (BinaryAnalyzer.evidence_dir a ++ [key])) as [[?|]|]. }
  rewrite lookup_insert_eq, Hversion, lookup_insert_eq.
  by rewrite insert_insert_eq.
Qed.

(** X28 on a disk with an earlier copy of [case.c] in [evidence]. *)
Lemma evidence_file_is_rewritten_witness :
  Evidence.write_file prints_clang17 (λ _, "2024-01-01 00:00:00")
    analyzer_with_lines 0 "case.c" []
    (<[ ["evidence"] := Dir ]>
       (<[ ["evidence"; "case.c"] := File "old" ]> disk_no_evidence))
  = (Returns tt,
     <[ ["evidence"; "case.c"]
          := File ("int main(void){}"
                     ++ Evidence.comment_block (Some "17.0.6")
                          "2024-01-01 00:00:00" []) ]>
       (<[ ["evidence"] := Dir ]>
          (<[ ["evidence"; "case.c"] := File "old" ]> disk_no_evidence))).
Proof.
  apply (evidence_file_is_rewritten prints_clang17
           (λ _, "2024-01-01 00:00:00") analyzer_with_lines 0 "case.c" []
           _ "int main(void){}" (Some "17.0.6")); by vm_compute.
Defined.

(** ** The analysis of one source file *)

Lemma rmtree_lookup (root : Path.t) (d : gmap Path.t node) (p : Path.t) :
  Shutil.rmtree root d !! p
  = if decide (root `prefix_of` p) then None else d !! p.
Proof.
  unfold Shutil.rmtree. destruct (decide (root `prefix_of` p)) as [Hp|Hp].
  - apply map_lookup_filter_None. right. intros x _ Hnot. by apply Hnot.
  - destruct (d !! p) as [x|] eqn:Hlook.
    + by apply map_lookup_filter_Some.
    + apply map_lookup_filter_None. by left.
Qed.

Section AnalysisFacts.

Variable cc : list string → compile_outcome.
Variable hexdigest : string → string → string.
Variable world : lldb_world.

(** The sweep of a fresh analyzer writes below its output directory,
    where the artifacts of its binaries are. *)
Lemma sweep_below_output (compiler_config : CompilerConfig.t)
    (evidence_dir source_path output_dir : Path.t) (d : gmap Path.t node) :
  let a := BinaryAnalyzer.init compiler_config evidence_dir source_path
             output_dir in
  ∃ r bs d1,
    BinaryAnalyzer.generate_variants cc hexdigest (a, d)
    = (r, (BinaryAnalyzer.set_binaries a bs, d1), [])
    ∧ (∀ b, b ∈ bs → output_dir `prefix_of` Binary.file_path b)
    ∧ (∀ p : Path.t, ¬ output_dir `prefix_of` p → d1 !! p = d !! p).
Proof.
  intros a. rewrite generate_variants_pairs.
  destruct (visit_pairs_invariant cc hexdigest a
              (sweep_order (BinaryAnalyzer.compiler_config a)) [] [] d ∅)
    as (r & bs' & d1 & visited & Hrun & _ & _ & K3 & _ & _ & HK).
  destruct HK as [K1 _].
  { intros b Hb. by apply elem_of_nil in Hb. }
  { intros h. split; [set_solver|].
    intros (o & g & output & Hin & _). by apply elem_of_nil in Hin. }
  { set_solver. }
  change (BinaryAnalyzer.set_binaries a []) with a in Hrun.
  unfold_monad. rewrite Hrun.
  exists (match r with Ok _ => Ok tt | Raise e => Raise e end), bs', d1.
  split; [by destruct r|]. split.
  - intros b Hb. destruct (K1 b Hb) as (i & o & g & output & _ & _ & -> & _).
    simpl. unfold Path.div. by apply prefix_app_r.
  - intros p Hp. apply K3. intros o g _ ->. apply Hp.
    simpl. unfold Path.div. by apply prefix_app_r.
Qed.

Lemma get_line_numbers_run (a : BinaryAnalyzer.t) :
  ∃ c,
    BinaryAnalyzer.get_line_numbers world a tt
    = (Ok (BinaryAnalyzer.set_binaries a
             (map (λ b, Binary.set_line_numbers b (line_nums_of world b))
                (BinaryAnalyzer.binaries a))), tt, c).
Proof.
  unfold BinaryAnalyzer.get_line_numbers. unfold_monad.
  pose proof (map_get_line_numbers_value world (BinaryAnalyzer.binaries a))
    as Hvalue.
  unfold value_of in Hvalue.
  destruct (BinaryAnalyzer.map_get_line_numbers world
              (BinaryAnalyzer.binaries a) tt) as [[r []] c].
  simpl in Hvalue. subst r. by eexists.
Qed.

(** [cleanup] when the artifacts and the output directory are gone. *)
Lemma cleanup_nothing_left (a : BinaryAnalyzer.t) (d : gmap Path.t node) :
  (∀ b, b ∈ BinaryAnalyzer.binaries a → d !! Binary.file_path b = None) →
  d !! BinaryAnalyzer.output_dir a = None →
  BinaryAnalyzer.cleanup (a, d)
  = (Ok tt, (BinaryAnalyzer.set_binaries a [], d), []).
Proof.
  intros Hgone Hout.
  assert (without_artifacts (BinaryAnalyzer.binaries a) d = d) as Hsame.
  { apply map_eq. intros p. rewrite without_artifacts_lookup.
    case_bool_decide as Hin; [|done].
    apply list_elem_of_In, in_map_iff in Hin as (b & <- & Hb).
    symmetry. apply Hgone. by apply list_elem_of_In. }
  rewrite cleanup_cases.
  - cbv zeta. by rewrite Hsame, Hout.
  - intros b Hb. by rewrite (Hgone b Hb).
Qed.

End AnalysisFacts.

(** X29.  [analyze_single_source] leaves nothing at the temporary
    output directory nor below it, whether the analysis returned or
    raised, and changes nothing on the disk outside that directory and
    the evidence directory; the [cleanup] of its [finally] clause finds
    the artifacts already removed with the temporary directory: it
    returns and changes nothing on the disk. *)
Theorem analysis_leaves_no_artifact
    (cc : list string → compile_outcome)
    (hexdigest : string → string → string) (world : lldb_world)
    (run : list string → process_outcome) (strftime : nat → string)
    (iteration : list string → list string)
    (get_debug_values : string → string → Z → list DebugValue)
    (compiler_config : CompilerConfig.t)
    (evidence_dir temp_output_dir source_file : Path.t)
    (d : gmap Path.t node) :
  let analysis :=
    SingleSourceAnalysis.run_analysis cc hexdigest world run strftime
      iteration get_debug_values compiler_config evidence_dir
      temp_output_dir source_file d in
  let after :=
    SingleSourceAnalysis.analyze_single_source cc hexdigest world run
      strftime iteration get_debug_values compiler_config evidence_dir
      temp_output_dir source_file d in
  (∀ p : Path.t, temp_output_dir `prefix_of` p → after.2 !! p = None)
  ∧ (∀ p : Path.t,
       ¬ temp_output_dir `prefix_of` p → ¬ evidence_dir `prefix_of` p →
       after.2 !! p = d !! p)
  ∧ after
    = (match analysis.1.1 with
       | Returns _ => Returns source_file
       | Raises x => Raises x
       end, analysis.2).
Proof.
  intros analysis after.
  assert (∃ r a d',
            analysis = (r, Some a, Shutil.rmtree temp_output_dir d')
            ∧ BinaryAnalyzer.output_dir a = temp_output_dir
            ∧ (∀ b, b ∈ BinaryAnalyzer.binaries a →
                    temp_output_dir `prefix_of` Binary.file_path b)
            ∧ (∀ p : Path.t,
                 ¬ temp_output_dir `prefix_of` p →
                 ¬ evidence_dir `prefix_of` p → d' !! p = d !! p))
    as (r & a & d' & Hanalysis & Hout & Hpaths & Hframe).
  { subst analysis. unfold SingleSourceAnalysis.run_analysis. cbv zeta.
    destruct (sweep_below_output cc hexdigest compiler_config evidence_dir
                source_file temp_output_dir (<[temp_output_dir := Dir]> d))
      as (r1 & bs & d1 & -> & Hbs & Hd1).
    assert (∀ p : Path.t, ¬ temp_output_dir `prefix_of` p → d1 !! p = d !! p)
      as Hd1'.
    { intros p Hp. rewrite Hd1 by done. apply lookup_insert_ne.
      by intros <-. }
    destruct r1 as [[]|e].
    - destruct (get_line_numbers_run world
                  (BinaryAnalyzer.set_binaries
                     (BinaryAnalyzer.init compiler_config evidence_dir
                        source_file temp_output_dir) bs)) as [c ->].
      set (a2 := BinaryAnalyzer.set_binaries _ (map _ _)).
      pose proof (writes_below_find_issues run strftime iteration
                    get_debug_values a2 d1) as Hbelow.
      destruct (Evidence.find_issues_type1_2 run strftime iteration
                  get_debug_values a2 d1) as [r2 d2].
      exists r2, a2, d2. split; [done|]. split; [done|]. split.
      + intros b Hb. subst a2. simpl in Hb.
        apply list_elem_of_fmap in Hb as (b0 & -> & Hb0).
        simpl. by apply Hbs.
      + intros p Hp Hev. rewrite <- Hd1' by done. by apply Hbelow.
    - eexists _, _, d1. split; [done|]. split; [done|]. split.
      + intros b Hb. by apply Hbs.
      + intros p Hp _. by apply Hd1'. }
  assert (SingleSourceAnalysis.cleanup (Some a)
            (Shutil.rmtree temp_output_dir d')
          = (Returns tt, None, Shutil.rmtree temp_output_dir d')) as Hcleanup.
  { unfold SingleSourceAnalysis.cleanup. rewrite cleanup_nothing_left; [done| |].
    - intros b Hb. rewrite rmtree_lookup.
      by rewrite decide_True by (by apply Hpaths).
    - rewrite Hout, rmtree_lookup. by rewrite decide_True. }
  assert (after
          = (match r with
             | Returns _ => Returns source_file
             | Raises x => Raises x
             end, Shutil.rmtree temp_output_dir d')) as Hafter.
  { subst after. unfold SingleSourceAnalysis.analyze_single_source.
    fold analysis. rewrite Hanalysis. by rewrite Hcleanup. }
  rewrite Hafter, Hanalysis. simpl. split; [|split; [|done]].
  - intros p Hp. rewrite rmtree_lookup. by rewrite decide_True.
  - intros p Hp Hev. rewrite rmtree_lookup. rewrite decide_False by done.
    by apply Hframe.
Qed.

(** X29 on the analysis of [case.c]: the temporary directory [tmp] is
    not on the disk afterwards. *)
Lemma analysis_leaves_no_artifact_witness :
  (SingleSourceAnalysis.analyze_single_source cc_same_bytes digest_of_content
     (λ _, env_quiet) prints_clang17 (λ _, "2024-01-01 00:00:00")
     (λ names, names) values_at_5
     (CompilerConfig.Make "clang" ["0"; "1"] ["2"]) ["evidence"] ["tmp"]
     ["src"; "case.c"] disk_no_evidence).2 !! ["tmp"]
  = None.
Proof.
  apply (proj1 (analysis_leaves_no_artifact cc_same_bytes digest_of_content
                  (λ _, env_quiet) prints_clang17
                  (λ _, "2024-01-01 00:00:00") (λ names, names) values_at_5
                  (CompilerConfig.Make "clang" ["0"; "1"] ["2"]) ["evidence"]
                  ["tmp"] ["src"; "case.c"] disk_no_evidence)).
  done.
Defined.
